(** * be-creative: the experiment runner of [src/App.js]

    A shallow embedding of the client-side experiment runner: the session
    planner ([shuffleArray], the [conditions] and [trialThemes]
    initialisers), the countdown [Timer], the [PromptInput] component, and
    the [MainApp] page machine with its asynchronous handlers
    ([handlePromptSubmission], [pollGenerationStatus],
    [handleRatingSubmission]); and, from the earlier variant of the
    runner, the survey handler [handleAiExperienceSurveySubmit].

    Conventions
    - [Date.now()] and [new Date()] readings are integers in milliseconds
      ([Z]); a callback run reads the clock once.
    - [Math.random()] returns a double in the half-open unit interval; a
      draw is represented by its numerator [r] over [RANDOM_DEN = 2^53].
    - React state is a record; a handler is a function from the state of
      the render it closes over to the state after its updates.
    - [fetch] is answered by a backend oracle; every request is appended
      to a log.  Strings are byte strings.

    Layout: the embedding comes first (modules [Planner], [Timer],
    [PromptInput], [Net], [MainApp], [Experiment], [Legacy],
    [Instructions], [Scenario], then [InputTrace],
    [ImageRatingInterface], [Progress] and [PageTracking]), the
    properties after it (modules [PlannerFacts], [TimerFacts],
    [PollerFacts], [PromptInputFacts], [HandlerFacts],
    [ExperimentFacts], then [PlannerExtras], [TimerExtras],
    [PromptInputExtras], [HandlerExtras], [RatingScreenExtras],
    [ProgressExtras], [TrackingExtras] and [LegacyExtras]). *)

From Stdlib Require Import ZArith Lia.
From stdpp Require Import base list strings pretty.

Open Scope string_scope.
Open Scope list_scope.
Open Scope nat_scope.

(** ** Configurable constants (App.js lines 4-17) *)

Definition TRIAL_TIME : Z := 12.
Definition PRACTICE_TIME : Z := 10.
Definition WARNING_TIME : Z := 30.

Definition PRACTICE_THEME : string := "SPACE".
Definition TRIAL_THEMES : list string :=
  ["TIME"; "MYSTERY"; "COMFORT"; "MEMORY"; "CURIOSITY"; "FUTURE"].

(** The two keys of the [CONDITIONS] table. *)
Inductive Condition := BE_CREATIVE | BE_FLUENT.

#[global] Instance Condition_eq_dec : EqDecision Condition.
Proof. solve_decision. Defined.

Definition condition_id (c : Condition) : string :=
  match c with
  | BE_CREATIVE => "BE_CREATIVE"
  | BE_FLUENT => "BE_FLUENT"
  end.

(** ** The session planner *)

Module Planner.

(** Denominator of a [Math.random()] draw: the draw [r] stands for the
    real number [r / 2^53]. *)
Definition RANDOM_DEN : Z := 2 ^ 53.

Definition valid_draw (r : Z) : Prop := (0 <= r < RANDOM_DEN)%Z.

(** [Math.floor(Math.random() * n)] *)
Definition randomIndex (r : Z) (n : nat) : nat :=
  Z.to_nat (r * Z.of_nat n / RANDOM_DEN).

(** [[a[i], a[j]] = [a[j], a[i]]]: the right-hand side is read first,
    then [a[i]] and [a[j]] are written in that order.  An index past the
    end would read [undefined] and grow the array; such a run leaves the
    arrays of strings modelled here and is reported as [None]. *)
Definition swap {A} (a : list A) (i j : nat) : option (list A) :=
  match a !! j, a !! i with
  | Some aj, Some ai => Some (<[j:=ai]> (<[i:=aj]> a))
  | _, _ => None
  end.

(** The body of the [for (let i = newArray.length - 1; i > 0; i--)]
    loop, entered with loop variable [i]; [k] counts the calls to
    [Math.random] made so far and [rng k] is the draw of call [k]. *)
Fixpoint shuffleLoop {A} (rng : nat → Z) (k i : nat) (newArray : list A)
  : option (list A) :=
  match i with
  | 0 => Some newArray
  | S i' =>
      let j := randomIndex (rng k) (i + 1) in
      swap newArray i j ≫= shuffleLoop rng (S k) i'
  end.

Definition shuffleArray {A} (rng : nat → Z) (k : nat) (array : list A)
  : option (list A) :=
  shuffleLoop rng k (length array - 1) array.

(** [Math.random() < 0.5] *)
Definition isCreativeFirst (r : Z) : bool := (r * 2 <? RANDOM_DEN)%Z.

(** [Array(3).fill(CONDITIONS[condition])] *)
Definition createSequence (condition : Condition) : list Condition :=
  replicate 3 condition.

Record Conditions := {
  order : string;
  sequence : list Condition
}.

(** The lazy initialiser of the [conditions] state (lines 775-785). *)
Definition initConditions (r : Z) : Conditions :=
  {| order := if isCreativeFirst r then "creative_first" else "fluent_first";
     sequence :=
       if isCreativeFirst r
       then createSequence BE_CREATIVE ++ createSequence BE_FLUENT
       else createSequence BE_FLUENT ++ createSequence BE_CREATIVE |}.

(** The lazy initialiser of the [trialThemes] state (lines 788-791);
    it runs after [initConditions], which consumed draw 0. *)
Definition initTrialThemes (rng : nat → Z) : option (list string) :=
  (PRACTICE_THEME ::.) <$> shuffleArray rng 1 TRIAL_THEMES.

Record Plan := {
  conditions : Conditions;
  trialThemes : list string
}.

Definition createPlan (rng : nat → Z) : option Plan :=
  themes ← initTrialThemes rng;
  Some {| conditions := initConditions (rng 0); trialThemes := themes |}.

(** [getCurrentTrial] (lines 793-804): the theme and the condition id
    of the trial at [currentTrialIndex].  A theme slot past the end
    reads [undefined] (the inner [None]); a condition slot past the end
    makes [.id] throw a [TypeError] (the outer [None]). *)
Definition getCurrentTrial (p : Plan) (currentTrialIndex : nat)
  : option (option string * string) :=
  if decide (currentTrialIndex = 0) then
    Some (Some PRACTICE_THEME, "practice")
  else
    c ← sequence (conditions p) !! (currentTrialIndex - 1);
    Some (trialThemes p !! currentTrialIndex, condition_id c).

(** The partner of a draw under a half-turn of the unit interval: it
    pairs every draw that yields creative-first with one that does not. *)
Definition half_turn (r : Z) : Z := ((r + RANDOM_DEN / 2) mod RANDOM_DEN)%Z.

End Planner.

(** ** The countdown timer (App.js lines 177-223) *)

Module Timer.

Record State := {
  timeLeft : Z;            (* useState(seconds) *)
  isWarning : bool;        (* useState(false) *)
  endTimeRef : Z;          (* useRef(Date.now() + seconds * 1000) *)
  hasCompletedRef : bool;  (* useRef(false) *)
  timerInterval : bool;    (* the interval set by the mount effect is live *)
  completions : nat        (* calls made to onComplete so far *)
}.

(** First render at clock reading [now], followed by the mount effect,
    which registers the 100 ms interval and does nothing else. *)
Definition mount (now seconds : Z) : State :=
  {| timeLeft := seconds;
     isWarning := false;
     endTimeRef := now + seconds * 1000;
     hasCompletedRef := false;
     timerInterval := true;
     completions := 0 |}.

(** [Math.ceil(n / d)] on integer milliseconds. *)
Definition ceil_div (n d : Z) : Z := (- ((- n) / d))%Z.

(** One run of the interval callback at clock reading [now].  The
    callback is the closure of the first render, so the [isWarning] it
    tests is always the initial [false]. *)
Definition tick (now : Z) (t : State) : State :=
  if timerInterval t then
    let remaining := ceil_div (endTimeRef t - now) 1000 in
    let warning :=
      if bool_decide (remaining ≤ WARNING_TIME)%Z && negb false
      then true else isWarning t in
    if bool_decide (remaining ≤ 0)%Z then
      {| timeLeft := 0;
         isWarning := warning;
         endTimeRef := endTimeRef t;
         hasCompletedRef := true;
         timerInterval := false;                (* clearInterval *)
         completions :=
           if hasCompletedRef t then completions t
           else S (completions t) |}
    else
      {| timeLeft := remaining;
         isWarning := warning;
         endTimeRef := endTimeRef t;
         hasCompletedRef := hasCompletedRef t;
         timerInterval := true;
         completions := completions t |}
  else t.

(** The cleanup of the mount effect: [clearInterval(timerInterval)]. *)
Definition unmount (t : State) : State :=
  {| timeLeft := timeLeft t;
     isWarning := isWarning t;
     endTimeRef := endTimeRef t;
     hasCompletedRef := hasCompletedRef t;
     timerInterval := false;
     completions := completions t |}.

(** The interval callback run at each clock reading of [nows] in turn. *)
Definition run (nows : list Z) (t : State) : State :=
  foldl (λ t now, tick now t) t nows.

(** The two shapes of a timer that was mounted and ticked. *)
Definition running (t : State) : Prop :=
  timerInterval t = true ∧ hasCompletedRef t = false ∧ completions t = 0.

Definition finished (t : State) : Prop :=
  timerInterval t = false ∧ hasCompletedRef t = true ∧ completions t = 1.

End Timer.

(** ** The prompt input component (App.js lines 572-729) *)

Module PromptInput.

(** [String.prototype.trim], on the ASCII white space. *)
Fixpoint trimStart (s : string) : string :=
  match s with
  | String c s' => if Ascii.is_space c then trimStart s' else s
  | EmptyString => EmptyString
  end.

Definition trim (s : string) : string :=
  String.rev (trimStart (String.rev (trimStart s))).

(** Truthiness of a string and of a string-or-null. *)
Definition truthy (s : string) : bool :=
  match s with EmptyString => false | _ => true end.

Definition truthy_opt (o : option string) : bool :=
  match o with Some s => truthy s | None => false end.

(** [(prompt) => prompt.trim()] used as a filter predicate. *)
Definition nonblank (prompt : string) : bool := truthy (trim prompt).

(** The [timingData] object; durations are kept in milliseconds (the
    source divides them by 1000). *)
Record TimingData := {
  firstKeypressLatency : option Z;
  totalResponseTime : option Z;
  selectionPhaseStart : option Z;
  selectionPhaseDuration : option Z
}.

Record State := {
  isPractice : bool;                    (* prop *)
  prompts : list string;
  isTimeUp : bool;
  selectedPrompt : option string;
  error : option string;
  firstKeypressTime : option Z;
  firstKeypressRecorded : bool;
  responseStartRef : Z;
  selectionStartTimeRef : option Z;
  hasSubmitted : bool;
  promptsRef : list string;
  timer : option Timer.State            (* the Timer child, while rendered *)
}.

Definition currentTime (isPractice : bool) : Z :=
  if isPractice then PRACTICE_TIME else TRIAL_TIME.

Definition NO_PROMPT_NOTICE : string :=
  "You did not provide any prompt. Please ensure to write down your prompt ideas in time. It is critical that you actively participate in the survey.".

Definition SELECT_PROMPT_ERROR : string :=
  "Please select one of your prompts before continuing.".

(** First render at clock reading [now]; the [Timer] child is rendered
    because [isTimeUp] is false. *)
Definition mount (now : Z) (isPractice : bool) : State :=
  {| isPractice := isPractice;
     prompts := [EmptyString];
     isTimeUp := false;
     selectedPrompt := None;
     error := None;
     firstKeypressTime := None;
     firstKeypressRecorded := false;
     responseStartRef := now;
     selectionStartTimeRef := None;
     hasSubmitted := false;
     promptsRef := [EmptyString];
     timer := Some (Timer.mount now (currentTime isPractice)) |}.

(** State setters and ref writes. *)
Definition setPrompts (v : list string) (s : State) : State :=
  {| isPractice := isPractice s; prompts := v; isTimeUp := isTimeUp s;
     selectedPrompt := selectedPrompt s; error := error s;
     firstKeypressTime := firstKeypressTime s;
     firstKeypressRecorded := firstKeypressRecorded s;
     responseStartRef := responseStartRef s;
     selectionStartTimeRef := selectionStartTimeRef s;
     hasSubmitted := hasSubmitted s; promptsRef := promptsRef s;
     timer := timer s |}.

Definition setIsTimeUp (v : bool) (s : State) : State :=
  {| isPractice := isPractice s; prompts := prompts s; isTimeUp := v;
     selectedPrompt := selectedPrompt s; error := error s;
     firstKeypressTime := firstKeypressTime s;
     firstKeypressRecorded := firstKeypressRecorded s;
     responseStartRef := responseStartRef s;
     selectionStartTimeRef := selectionStartTimeRef s;
     hasSubmitted := hasSubmitted s; promptsRef := promptsRef s;
     timer := timer s |}.

Definition setSelectedPrompt (v : option string) (s : State) : State :=
  {| isPractice := isPractice s; prompts := prompts s;
     isTimeUp := isTimeUp s; selectedPrompt := v; error := error s;
     firstKeypressTime := firstKeypressTime s;
     firstKeypressRecorded := firstKeypressRecorded s;
     responseStartRef := responseStartRef s;
     selectionStartTimeRef := selectionStartTimeRef s;
     hasSubmitted := hasSubmitted s; promptsRef := promptsRef s;
     timer := timer s |}.

Definition setError (v : option string) (s : State) : State :=
  {| isPractice := isPractice s; prompts := prompts s;
     isTimeUp := isTimeUp s; selectedPrompt := selectedPrompt s;
     error := v; firstKeypressTime := firstKeypressTime s;
     firstKeypressRecorded := firstKeypressRecorded s;
     responseStartRef := responseStartRef s;
     selectionStartTimeRef := selectionStartTimeRef s;
     hasSubmitted := hasSubmitted s; promptsRef := promptsRef s;
     timer := timer s |}.

Definition setFirstKeypressTime (v : option Z) (s : State) : State :=
  {| isPractice := isPractice s; prompts := prompts s;
     isTimeUp := isTimeUp s; selectedPrompt := selectedPrompt s;
     error := error s; firstKeypressTime := v;
     firstKeypressRecorded := firstKeypressRecorded s;
     responseStartRef := responseStartRef s;
     selectionStartTimeRef := selectionStartTimeRef s;
     hasSubmitted := hasSubmitted s; promptsRef := promptsRef s;
     timer := timer s |}.

Definition setFirstKeypressRecorded (v : bool) (s : State) : State :=
  {| isPractice := isPractice s; prompts := prompts s;
     isTimeUp := isTimeUp s; selectedPrompt := selectedPrompt s;
     error := error s; firstKeypressTime := firstKeypressTime s;
     firstKeypressRecorded := v; responseStartRef := responseStartRef s;
     selectionStartTimeRef := selectionStartTimeRef s;
     hasSubmitted := hasSubmitted s; promptsRef := promptsRef s;
     timer := timer s |}.

Definition setHasSubmitted (v : bool) (s : State) : State :=
  {| isPractice := isPractice s; prompts := prompts s;
     isTimeUp := isTimeUp s; selectedPrompt := selectedPrompt s;
     error := error s; firstKeypressTime := firstKeypressTime s;
     firstKeypressRecorded := firstKeypressRecorded s;
     responseStartRef := responseStartRef s;
     selectionStartTimeRef := selectionStartTimeRef s; hasSubmitted := v;
     promptsRef := promptsRef s; timer := timer s |}.

Definition writePromptsRef (v : list string) (s : State) : State :=
  {| isPractice := isPractice s; prompts := prompts s;
     isTimeUp := isTimeUp s; selectedPrompt := selectedPrompt s;
     error := error s; firstKeypressTime := firstKeypressTime s;
     firstKeypressRecorded := firstKeypressRecorded s;
     responseStartRef := responseStartRef s;
     selectionStartTimeRef := selectionStartTimeRef s;
     hasSubmitted := hasSubmitted s; promptsRef := v; timer := timer s |}.

Definition writeSelectionStartTimeRef (v : option Z) (s : State) : State :=
  {| isPractice := isPractice s; prompts := prompts s;
     isTimeUp := isTimeUp s; selectedPrompt := selectedPrompt s;
     error := error s; firstKeypressTime := firstKeypressTime s;
     firstKeypressRecorded := firstKeypressRecorded s;
     responseStartRef := responseStartRef s; selectionStartTimeRef := v;
     hasSubmitted := hasSubmitted s; promptsRef := promptsRef s;
     timer := timer s |}.

Definition setTimer (v : option Timer.State) (s : State) : State :=
  {| isPractice := isPractice s; prompts := prompts s;
     isTimeUp := isTimeUp s; selectedPrompt := selectedPrompt s;
     error := error s; firstKeypressTime := firstKeypressTime s;
     firstKeypressRecorded := firstKeypressRecorded s;
     responseStartRef := responseStartRef s;
     selectionStartTimeRef := selectionStartTimeRef s;
     hasSubmitted := hasSubmitted s; promptsRef := promptsRef s;
     timer := v |}.

(** The effect [promptsRef.current = prompts], run after a render in
    which [prompts] changed. *)
Definition syncPromptsRef (s : State) : State :=
  writePromptsRef (prompts s) s.

Definition handleTimerComplete (now : Z) (s : State) : State :=
  let s := setIsTimeUp true s in
  let filteredPrompts := filter (λ p, Is_true (nonblank p)) (promptsRef s) in
  if decide (length filteredPrompts = 0) then
    setPrompts [] (setError (Some NO_PROMPT_NOTICE) s)
  else
    writeSelectionStartTimeRef (Some now)
      (setSelectedPrompt None (setPrompts filteredPrompts s)).

Definition handleKeyPress (now : Z) (s : State) : State :=
  if negb (firstKeypressRecorded s) then
    setFirstKeypressRecorded true (setFirstKeypressTime (Some now) s)
  else s.

(** Called from the input rendered at [index], hence with
    [index < length (prompts s)]; the model covers no other index. *)
Definition handlePromptChange (index : nat) (value : string) (s : State)
  : State :=
  if isTimeUp s then s
  else
    let prev := prompts s in
    let newPrompts := <[index:=value]> prev in
    let newPrompts :=
      if bool_decide (index = length prev - 1) && nonblank value
      then (newPrompts ++ [EmptyString])%list else newPrompts in
    setPrompts newPrompts s.

Definition handlePromptSelection (prompt : string) (s : State) : State :=
  if negb (isTimeUp s) then s
  else setError None (setSelectedPrompt (Some prompt) s).

(** The arguments of a call [onSubmit(validPrompts, selectedPrompt,
    timingData)]. *)
Record OnSubmit := {
  submittedPrompts : list string;
  submittedSelection : option string;
  submittedTiming : TimingData
}.

(** [handleSubmit] at clock reading [now]: the next state, and the call
    to [onSubmit] if one is made. *)
Definition handleSubmit (now : Z) (s : State) : State * option OnSubmit :=
  if hasSubmitted s then (s, None)
  else
    let validPrompts := filter (λ p, Is_true (nonblank p)) (promptsRef s) in
    let timingData :=
      {| firstKeypressLatency :=
           (λ t, t - responseStartRef s)%Z <$> firstKeypressTime s;
         totalResponseTime :=
           if isTimeUp s then Some (now - responseStartRef s)%Z else None;
         selectionPhaseStart := selectionStartTimeRef s;
         selectionPhaseDuration :=
           (λ t, now - t)%Z <$> selectionStartTimeRef s |} in
    if negb (truthy_opt (selectedPrompt s))
       && bool_decide (0 < length validPrompts)
    then (setError (Some SELECT_PROMPT_ERROR) s, None)
    else
      (setHasSubmitted true s,
       Some {| submittedPrompts := validPrompts;
               submittedSelection := selectedPrompt s;
               submittedTiming := timingData |}).

(** *** The component as driven by the page

    What the participant and the scheduler can do to a mounted
    component.  Inputs exist while the time is running, one per entry
    of [prompts]; the selection buttons (one per entry of [prompts])
    and the Continue button exist once the time is up. *)
Inductive Event :=
| KeyDown (now : Z)
| Change (index : nat) (value : string)
| Tick (now : Z)
| Select (index : nat)
| Continue (now : Z).

(** A tick of the [Timer] child; [onComplete] is [handleTimerComplete].
    Once [isTimeUp] holds the child is no longer rendered, and its
    unmount clears the interval. *)
Definition onTick (now : Z) (s : State) : State :=
  match timer s with
  | None => s
  | Some t =>
      let t' := Timer.tick now t in
      let s :=
        if decide (Timer.completions t' = Timer.completions t) then s
        else handleTimerComplete now s in
      if isTimeUp s then setTimer None s else setTimer (Some t') s
  end.

Definition step (ev : Event) (s : State) : State * option OnSubmit :=
  match ev with
  | KeyDown now =>
      if isTimeUp s then (s, None) else (handleKeyPress now s, None)
  | Change index value =>
      if isTimeUp s then (s, None)
      else if decide (index < length (prompts s)) then
        (syncPromptsRef (handlePromptChange index value s), None)
      else (s, None)
  | Tick now => (syncPromptsRef (onTick now s), None)
  | Select index =>
      if isTimeUp s then
        match prompts s !! index with
        | Some prompt => (handlePromptSelection prompt s, None)
        | None => (s, None)
        end
      else (s, None)
  | Continue now =>
      if isTimeUp s then handleSubmit now s else (s, None)
  end.

(** The component after a sequence of events, with the [onSubmit] calls
    made on the way. *)
Fixpoint steps (evs : list Event) (s : State) : State * list OnSubmit :=
  match evs with
  | [] => (s, [])
  | ev :: evs =>
      let '(s1, call) := step ev s in
      let '(s2, calls) := steps evs s1 in
      (s2, (option_list call ++ calls)%list)
  end.

(** *** Invariants of a mounted component *)

(** The instant, in clock milliseconds, at which the countdown of a
    mounted component runs out. *)
Definition deadline (s : State) : Z :=
  (responseStartRef s + currentTime (isPractice s) * 1000)%Z.

(** What holds of a mounted component after any events: the ref mirrors
    the prompts; while the time runs the timer child is counting down to
    the deadline and nothing is selected or submitted; once the time is up
    the prompts are the frozen set (no blank entry) and the timer child is
    gone; a selection is an entry of the frozen set. *)
Record wf (s : State) : Prop := {
  wf_ref : promptsRef s = prompts s;
  wf_running :
    isTimeUp s = false →
    selectedPrompt s = None ∧ hasSubmitted s = false
    ∧ ∃ t, timer s = Some t ∧ Timer.running t
           ∧ Timer.endTimeRef t = deadline s;
  wf_frozen :
    isTimeUp s = true →
    filter (λ p, Is_true (nonblank p)) (prompts s) = prompts s
    ∧ timer s = None;
  wf_selected : ∀ p, selectedPrompt s = Some p → p ∈ prompts s
}.

(** A submission as the selection step lets it through. *)
Definition admissible (call : OnSubmit) : Prop :=
  match submittedPrompts call with
  | [] => submittedSelection call = None
  | _ :: _ =>
      ∃ p, submittedSelection call = Some p ∧ p ∈ submittedPrompts call
  end.

End PromptInput.

(** ** Pages, payloads and the backend *)

(** The keys of [pageComponents] (App.js lines 1205-1219). *)
Module Page.
Inductive t :=
| prolificId | consent | aiExperienceSurvey | internetUsage
| generalInstructions | practiceInstructions | promptInput
| betweenTrials | mainTrialTransition | processing | noImages
| imageRating | thankYou.

#[global] Instance eq_dec : EqDecision t.
Proof. solve_decision. Defined.
End Page.

(** An entry of the [images] array of [/api/get-all-images]. *)
Module Image.
Record t := {
  imagePath : string;
  trialIndex : nat;
  theme : string;
  condition : string;
  prompt : string
}.
End Image.

(** The body of [/api/save-prompt]; [timestamp] is not modelled. *)
Module Submission.
Record t := {
  prolificId : string;
  trialIndex : nat;
  condition : string;
  theme : option string;
  prompts : list string;
  selectedPrompt : option string;
  isPractice : bool;
  conditionOrder : string;
  timingData : PromptInput.TimingData
}.
End Submission.

(** One rating pair of the rating screen; [None] is [null]. *)
Module Rating.
Record t := {
  creativity : option Z;
  intention : option Z
}.
End Rating.

(** An entry of the body of [/api/save-ratings]; [timestamp] is not
    modelled. *)
Module FormattedRating.
Record t := {
  prolificId : string;
  trialIndex : nat;
  creativityRating : option Z;
  intentionRating : option Z;
  theme : string;
  condition : string;
  prompt : string
}.
End FormattedRating.

(** The [responses] of the AI-experience survey form. *)
Module Survey.
Record ToolsUsed := {
  dall_e : bool;
  midjourney : bool;
  stable_diffusion : bool;
  other : bool
}.

Record Responses := {
  genAiExperience : string;
  textToImageExperience : string;
  toolsUsed : ToolsUsed;
  otherTools : string
}.

(** The [surveyData] body of [/api/save-survey]; [timestamp] is not
    modelled. *)
Record Data := {
  prolificId : string;
  survey_genAiExperience : string;
  survey_textToImageExperience : string;
  survey_toolsUsed : ToolsUsed;
  survey_otherTools : option string
}.
End Survey.

Module Net.

(** The requests of the handlers modelled in this file.  The
    fire-and-forget [/api/save-timing] beacon of [usePageTracking],
    whose result no handler reads, is not part of this model. *)
Inductive Request :=
| SaveSurvey (surveyData : Survey.Data)
| SavePrompt (submission : Submission.t)
| CheckGenerationStatus (prolificId : string)
| GetAllImages (prolificId : string)
| SaveRatings (formattedRatings : list FormattedRating.t)
| MarkCompletion (prolificId : string).

(** The fields the handlers read from a parsed JSON object; an absent
    field reads as [undefined]. *)
Record JsonObject := {
  status : option string;
  images : option (list Image.t);
  detail : option string
}.

Inductive Body :=
| BInvalid                    (* not JSON: [response.json()] rejects *)
| BNull                       (* the JSON value [null] *)
| BObject (o : JsonObject).

Inductive NetResult :=
| Response (ok : bool) (body : Body)
| NetworkError.               (* transport failure: [fetch] rejects *)

(** The backend: its answer to a request, given the requests it has
    received before. *)
Definition Backend : Type := list Request → Request → NetResult.

Definition isStatusCheck (r : Request) : bool :=
  match r with CheckGenerationStatus _ => true | _ => false end.

Definition isSavePrompt (r : Request) : bool :=
  match r with SavePrompt _ => true | _ => false end.

Definition isSaveRatings (r : Request) : bool :=
  match r with SaveRatings _ => true | _ => false end.

(** Messages of errors raised by the engine; their text is
    engine-specific. *)
Definition FETCH_FAILED : string := "Failed to fetch".
Definition JSON_SYNTAX_ERROR : string := "Unexpected token in JSON".
Definition TYPE_ERROR : string := "Cannot read properties of undefined".

End Net.

(** ** The page machine (App.js lines 751-1309) *)

Module MainApp.
Import Net.

Record AppState := {
  currentPage : Page.t;
  prolificId : string;
  currentTrialIndex : nat;
  generatedImages : list Image.t;
  isLoading : bool;
  error : option string
}.

Definition with_currentPage (v : Page.t) (s : AppState) : AppState :=
  {| currentPage := v; prolificId := prolificId s;
     currentTrialIndex := currentTrialIndex s;
     generatedImages := generatedImages s; isLoading := isLoading s;
     error := error s |}.

Definition with_prolificId (v : string) (s : AppState) : AppState :=
  {| currentPage := currentPage s; prolificId := v;
     currentTrialIndex := currentTrialIndex s;
     generatedImages := generatedImages s; isLoading := isLoading s;
     error := error s |}.

Definition with_currentTrialIndex (v : nat) (s : AppState) : AppState :=
  {| currentPage := currentPage s; prolificId := prolificId s;
     currentTrialIndex := v; generatedImages := generatedImages s;
     isLoading := isLoading s; error := error s |}.

Definition with_generatedImages (v : list Image.t) (s : AppState) : AppState :=
  {| currentPage := currentPage s; prolificId := prolificId s;
     currentTrialIndex := currentTrialIndex s; generatedImages := v;
     isLoading := isLoading s; error := error s |}.

Definition with_isLoading (v : bool) (s : AppState) : AppState :=
  {| currentPage := currentPage s; prolificId := prolificId s;
     currentTrialIndex := currentTrialIndex s;
     generatedImages := generatedImages s; isLoading := v;
     error := error s |}.

Definition with_error (v : option string) (s : AppState) : AppState :=
  {| currentPage := currentPage s; prolificId := prolificId s;
     currentTrialIndex := currentTrialIndex s;
     generatedImages := generatedImages s; isLoading := isLoading s;
     error := v |}.

(** The application state together with what lies outside React: the
    request log, the [attempts] counter shared by the [poll] closures,
    the pending [setTimeout(poll, pollInterval)] (with the [prolificId]
    its closure captured), and the promise rejections that no handler
    caught. *)
Record World := {
  app : AppState;
  sent : list Request;
  attempts : nat;
  pollTimeout : option string;
  unhandled : list string
}.

Definition with_app (v : AppState) (s : World) : World :=
  {| app := v; sent := sent s; attempts := attempts s;
     pollTimeout := pollTimeout s; unhandled := unhandled s |}.

Definition with_sent (v : list Request) (s : World) : World :=
  {| app := app s; sent := v; attempts := attempts s;
     pollTimeout := pollTimeout s; unhandled := unhandled s |}.

Definition with_attempts (v : nat) (s : World) : World :=
  {| app := app s; sent := sent s; attempts := v;
     pollTimeout := pollTimeout s; unhandled := unhandled s |}.

Definition with_pollTimeout (v : option string) (s : World) : World :=
  {| app := app s; sent := sent s; attempts := attempts s;
     pollTimeout := v; unhandled := unhandled s |}.

Definition with_unhandled (v : list string) (s : World) : World :=
  {| app := app s; sent := sent s; attempts := attempts s;
     pollTimeout := pollTimeout s; unhandled := v |}.

Definition initialState : AppState :=
  {| currentPage := Page.prolificId;
     prolificId := EmptyString;
     currentTrialIndex := 0;
     generatedImages := [];
     isLoading := false;
     error := None |}.

Definition initialWorld : World :=
  {| app := initialState; sent := []; attempts := 0;
     pollTimeout := None; unhandled := [] |}.

(** *** Asynchronous handlers

    An [async] function body run to completion: it updates the world
    and either finishes or throws.  A handler runs without other events
    in between (the loading overlay covers the page meanwhile). *)
Inductive Outcome (A : Type) :=
| Done (a : A)
| Thrown (message : string).
Arguments Done {A} a.
Arguments Thrown {A} message.

Definition Async (A : Type) : Type := World → Outcome A * World.

#[global] Instance Async_ret : MRet Async := λ A a w, (Done a, w).

#[global] Instance Async_bind : MBind Async := λ A B f m w,
  match m w with
  | (Done a, w') => f a w'
  | (Thrown message, w') => (Thrown message, w')
  end.

Definition throw {A} (message : string) : Async A :=
  λ w, (Thrown message, w).

(** [try { body } catch (err) { handler(err.message) }] *)
Definition try_catch {A} (body : Async A) (handler : string → Async A)
  : Async A :=
  λ w, match body w with
       | (Done a, w') => (Done a, w')
       | (Thrown message, w') => handler message w'
       end.

(** [try { body } finally { cleanup }], for a [cleanup] that does not
    throw. *)
Definition try_finally {A} (body : Async A) (cleanup : Async unit)
  : Async A :=
  λ w, let '(r, w') := body w in (r, (cleanup w').2).

Definition update (f : World → World) : Async unit := λ w, (Done (), f w).

Definition read {A} (f : World → A) : Async A := λ w, (Done (f w), w).

(** The world after running a handler from [w]. *)
Definition exec {A} (m : Async A) (w : World) : World := (m w).2.

Definition setCurrentPage (page : Page.t) : Async unit :=
  update (λ w, with_app (with_currentPage page (app w)) w).
Definition setProlificId (id : string) : Async unit :=
  update (λ w, with_app (with_prolificId id (app w)) w).
Definition setCurrentTrialIndex (i : nat) : Async unit :=
  update (λ w, with_app (with_currentTrialIndex i (app w)) w).
Definition setGeneratedImages (images : list Image.t) : Async unit :=
  update (λ w, with_app (with_generatedImages images (app w)) w).
Definition setIsLoading (b : bool) : Async unit :=
  update (λ w, with_app (with_isLoading b (app w)) w).
Definition setError (e : option string) : Async unit :=
  update (λ w, with_app (with_error e (app w)) w).

(** *** Child components whose callbacks reach the handlers *)


(** [ConsentForm.handleSubmit] (lines 376-382): whether [onAccept] is
    called. *)
Definition ConsentForm_handleSubmit (agreed : bool) : bool := agreed.

(** [AiExperienceSurvey.handleSubmit] (lines 273-281): the local error
    it sets, or the responses it passes to [onSubmit]. *)
Definition AiExperienceSurvey_handleSubmit (responses : Survey.Responses)
  : string + Survey.Responses :=
  if negb (PromptInput.truthy (Survey.genAiExperience responses))
     || negb (PromptInput.truthy (Survey.textToImageExperience responses))
  then inl "Please complete all required fields"
  else inr responses.

(** [ImageRatingInterface.handleSubmit] (lines 1066-1077): the local
    error it sets, or the arguments it passes to [onSubmit]. *)
Definition ImageRatingInterface_handleSubmit
    (ratings : list Rating.t) (randomizedImages : list Image.t)
  : string + (list Rating.t * list Image.t) :=
  let missingRatings :=
    existsb (λ r, bool_decide (Rating.creativity r = None)
                  || bool_decide (Rating.intention r = None)) ratings in
  if missingRatings
  then inl "Please provide both ratings for all images before continuing."
  else inr (ratings, randomizedImages).

(** *** The handlers of [MainApp] *)

Definition maxAttempts : nat := 4.
Definition pollInterval : Z := 5000.

Section Handlers.
(** The backend, the plan drawn at session creation, and the state of
    the render whose closures the handlers are. *)
Variable backend : Backend.
Variable plan : Planner.Plan.
Variable render : AppState.

(** [await fetch(...)]: the request is logged; a transport failure
    throws. *)
Definition fetch (req : Request) : Async (bool * Body) := λ w,
  let w' := with_sent (sent w ++ [req]) w in
  match backend (sent w) req with
  | Response ok body => (Done (ok, body), w')
  | NetworkError => (Thrown FETCH_FAILED, w')
  end.

(** [await response.json()]; [None] is the value [null]. *)
Definition json (body : Body) : Async (option JsonObject) :=
  match body with
  | BInvalid => throw JSON_SYNTAX_ERROR
  | BNull => mret None
  | BObject o => mret (Some o)
  end.

(** [data.f]: reading a property of [null] throws. *)
Definition field {A} (data : option JsonObject)
    (f : JsonObject → option A) : Async (option A) :=
  match data with
  | None => throw TYPE_ERROR
  | Some o => mret (f o)
  end.

(** The [case 'ready':] arm of [poll] (lines 875-899). *)
Definition fetchAllImages (prolificId : string) : Async unit :=
  try_catch
    ('(ok, body) ← fetch (GetAllImages prolificId);
     if negb ok then throw "Failed to fetch images"
     else
       imageData ← json body;
       imgs ← field imageData images;
       match imgs with
       | Some (image :: rest) =>
           setGeneratedImages (image :: rest);;
           setCurrentPage Page.imageRating;;
           setIsLoading false
       | _ => setCurrentPage Page.noImages
       end)
    (λ _, setCurrentPage Page.noImages).

(** [poll] (lines 858-916). *)
Definition poll (prolificId : string) : Async unit :=
  n ← read attempts;
  if decide (maxAttempts ≤ n)%nat then setCurrentPage Page.noImages
  else
    update (with_attempts (n + 1));;
    '(_, body) ← fetch (CheckGenerationStatus prolificId);
    data ← json body;
    status ← field data status;
    if decide (status = Some "ready") then fetchAllImages prolificId
    else if decide (status = Some "no_trials") then
      setCurrentPage Page.noImages
    else if decide (status = Some "all_failed") then
      setCurrentPage Page.noImages
    else if decide (status = Some "pending") then
      update (with_pollTimeout (Some prolificId))
    else setCurrentPage Page.noImages.

(** [pollGenerationStatus] (lines 852-925): the first [poll] is
    awaited inside the [try]. *)
Definition pollGenerationStatus (prolificId : string) : Async unit :=
  try_catch
    (update (with_attempts 0);; poll prolificId)
    (λ _, setError (Some "Failed to load images");;
          setIsLoading false;;
          setCurrentPage Page.noImages).

(** The pending [setTimeout(poll, pollInterval)] fires: [poll] runs as
    a timer callback, nothing awaits the promise it returns, and a
    rejection of that promise reaches no handler. *)
Definition fireTimeout (w : World) : World :=
  match pollTimeout w with
  | None => w
  | Some prolificId =>
      match poll prolificId (with_pollTimeout None w) with
      | (Done _, w') => w'
      | (Thrown message, w') =>
          with_unhandled (unhandled w' ++ [message]) w'
      end
  end.

Definition fireTimeouts (n : nat) (w : World) : World :=
  Nat.iter n fireTimeout w.

(** [handleNextTrial] (lines 941-955).  [pollGenerationStatus()] is
    started without being awaited; the model runs its first [poll]
    to its end here. *)
Definition handleNextTrial : Async unit :=
  let nextTrialIndex := currentTrialIndex render + 1 in
  if decide (currentTrialIndex render = 0) then
    setCurrentTrialIndex nextTrialIndex;;
    setCurrentPage Page.mainTrialTransition
  else if decide (7 ≤ nextTrialIndex)%nat then
    setIsLoading true;;
    setCurrentPage Page.processing;;
    pollGenerationStatus (prolificId render)
  else
    setCurrentTrialIndex nextTrialIndex;;
    setCurrentPage Page.betweenTrials.

Definition getCurrentTrial : Async (option string * string) :=
  match Planner.getCurrentTrial plan (currentTrialIndex render) with
  | Some currentTrial => mret currentTrial
  | None => throw TYPE_ERROR
  end.

(** [handlePromptSubmission] (lines 806-850). *)
Definition handlePromptSubmission (submittedPrompts : list string)
    (selectedPrompt : option string)
    (timingData : PromptInput.TimingData) : Async unit :=
  try_finally
    (try_catch
       (setIsLoading true;;
        setError None;;
        if decide (length submittedPrompts = 0) then
          handleNextTrial
        else if negb (PromptInput.truthy_opt selectedPrompt)
                && bool_decide (0 < length submittedPrompts) then
          mret ()
        else
          currentTrial ← getCurrentTrial;
          let submission :=
            {| Submission.prolificId := prolificId render;
               Submission.trialIndex := currentTrialIndex render;
               Submission.condition := currentTrial.2;
               Submission.theme := currentTrial.1;
               Submission.prompts := submittedPrompts;
               Submission.selectedPrompt := selectedPrompt;
               Submission.isPractice :=
                 bool_decide (currentTrialIndex render = 0);
               Submission.conditionOrder :=
                 Planner.order (Planner.conditions plan);
               Submission.timingData := timingData |} in
          '(ok, _) ← fetch (SavePrompt submission);
          if negb ok then throw "Failed to save prompt"
          else handleNextTrial)
       (λ message, setError (Some message)))
    (setIsLoading false).

(** [images.map((image, index) => ...)] of [handleRatingSubmission];
    [None] when [ratings[index]] is [undefined] for some image
    (reading its property throws). *)
Definition formatRatings (ratings : list Rating.t)
    (images : list Image.t) : option (list FormattedRating.t) :=
  mapM id
    (imap (λ index image,
             rating ← ratings !! index;
             Some {| FormattedRating.prolificId := prolificId render;
                     FormattedRating.trialIndex := Image.trialIndex image;
                     FormattedRating.creativityRating :=
                       Rating.creativity rating;
                     FormattedRating.intentionRating :=
                       Rating.intention rating;
                     FormattedRating.theme := Image.theme image;
                     FormattedRating.condition := Image.condition image;
                     FormattedRating.prompt := Image.prompt image |})
          images).

(** [handleRatingSubmission] (lines 1001-1045). *)
Definition handleRatingSubmission (ratings : list Rating.t)
    (images : list Image.t) : Async unit :=
  try_finally
    (try_catch
       (setIsLoading true;;
        setError None;;
        match formatRatings ratings images with
        | None => throw TYPE_ERROR
        | Some formattedRatings =>
            '(ok, body) ← fetch (SaveRatings formattedRatings);
            (if negb ok then
               error ← json body;
               detail ← field error detail;
               throw (if PromptInput.truthy_opt detail
                      then default EmptyString detail
                      else "Failed to save ratings")
             else mret ());;
            '(ok, _) ← fetch (MarkCompletion (prolificId render));
            if negb ok then throw "Failed to mark completion"
            else setCurrentPage Page.thankYou
        end)
       (λ message, setError (Some message)))
    (setIsLoading false).

(** *** [getPageProps] (lines 1222-1296)

    The callbacks handed to the component of the current page. *)
Inductive Callback :=
| onSubmitId (id : string)
| onAccept
| onContinue
| onSubmitSurvey (responses : Survey.Responses)
| onSubmitPrompts (call : PromptInput.OnSubmit)
| onSubmitRatings (ratings : list Rating.t) (images : list Image.t).

Definition getPageProps (cb : Callback) : Async unit :=
  match currentPage render, cb with
  | Page.prolificId, onSubmitId id =>
      setProlificId id;; setCurrentPage Page.consent
  | Page.consent, onAccept => setCurrentPage Page.internetUsage
  | Page.internetUsage, onContinue =>
      setCurrentPage Page.aiExperienceSurvey
  | Page.aiExperienceSurvey, onSubmitSurvey _ =>
      setCurrentPage Page.generalInstructions
  | Page.generalInstructions, onContinue =>
      setCurrentPage Page.practiceInstructions
  | Page.practiceInstructions, onContinue =>
      setCurrentPage Page.promptInput
  | Page.promptInput, onSubmitPrompts call =>
      handlePromptSubmission
        (PromptInput.submittedPrompts call)
        (PromptInput.submittedSelection call)
        (PromptInput.submittedTiming call)
  | Page.betweenTrials, onContinue => setCurrentPage Page.promptInput
  | Page.mainTrialTransition, onContinue =>
      setCurrentPage Page.promptInput
  | Page.imageRating, onSubmitRatings ratings images =>
      handleRatingSubmission ratings images
  | _, _ => mret ()
  end.

End Handlers.

(** A callback of the current page's component is invoked: it is the
    closure of the latest render. *)
Definition invoke (backend : Backend) (plan : Planner.Plan)
    (cb : Callback) (w : World) : World :=
  exec (getPageProps backend plan (app w) cb) w.

(** The Continue button of the survey form: the component validates,
    then calls the [onSubmit] it was given. *)
Definition submitSurvey (backend : Backend) (plan : Planner.Plan)
    (responses : Survey.Responses) (w : World) : World :=
  match AiExperienceSurvey_handleSubmit responses with
  | inl _ => w
  | inr responses => invoke backend plan (onSubmitSurvey responses) w
  end.

(** The "Submit All Ratings" button, pressed while the rating screen
    holds [ratings] for [randomizedImages]. *)
Definition submitAllRatings (backend : Backend) (plan : Planner.Plan)
    (ratings : list Rating.t) (randomizedImages : list Image.t) (w : World)
  : World :=
  match ImageRatingInterface_handleSubmit ratings randomizedImages with
  | inl _ => w
  | inr (ratings, images) =>
      invoke backend plan (onSubmitRatings ratings images) w
  end.

(** *** Vocabulary of the statements about the handlers *)

(** Status requests in the log of a world. *)
Definition statusChecks (w : World) : nat :=
  length (filter (λ r, Is_true (isStatusCheck r)) (sent w)).

(** The budget of status requests still open to the poller. *)
Definition budget (w : World) : nat :=
  statusChecks w + (maxAttempts - attempts w).

(** Every status request is answered [pending]. *)
Definition alwaysPending (backend : Backend) (prolificId : string) : Prop :=
  ∀ history, ∃ ok o,
    backend history (CheckGenerationStatus prolificId)
      = Response ok (BObject o)
    ∧ status o = Some "pending".

(** The requests of the poller. *)
Definition pollRequest (prolificId : string) (r : Request) : Prop :=
  r = CheckGenerationStatus prolificId ∨ r = GetAllImages prolificId.

(** What a run of the poller may do to the world: append poller requests
    to the log, and leave the page alone or end on [noImages] or
    [imageRating]; the participant and the trial index stay. *)
Record pollerFrame (participant : string) (w w' : World) : Prop := {
  frame_sent :
    ∃ extra, sent w' = sent w ++ extra ∧ Forall (pollRequest participant) extra;
  frame_page :
    currentPage (app w') = currentPage (app w)
    ∨ currentPage (app w') = Page.noImages
    ∨ currentPage (app w') = Page.imageRating;
  frame_trial : currentTrialIndex (app w') = currentTrialIndex (app w);
  frame_id : prolificId (app w') = prolificId (app w)
}.

(** The ways a response fails a handler that checks [response.ok]. *)
Definition failed (r : NetResult) : Prop :=
  r = NetworkError ∨ ∃ body, r = Response false body.

End MainApp.

(** ** The page machine together with its prompt input child *)

Module Experiment.
Import Net MainApp.

(** [promptInput] holds the state of the mounted [PromptInput]; React
    keeps the instance for as long as [currentPage] stays
    ['promptInput'], and mounts a fresh one when the page is entered. *)
Record UI := {
  world : World;
  promptInput : option PromptInput.State
}.

Definition initialUI : UI :=
  {| world := initialWorld; promptInput := None |}.

(** What can happen to the page: a callback of the component of a page
    other than the input page is invoked, an event reaches the mounted
    [PromptInput], or the pending poll timeout fires. *)
Inductive Event :=
| Invoke (cb : Callback)
| Input (ev : PromptInput.Event)
| Timeout.

(** The render after the world moved from [before] to [w], at clock
    reading [now]. *)
Definition rerender (now : Z) (before : UI) (w : World)
    (child : option PromptInput.State) : UI :=
  {| world := w;
     promptInput :=
       if decide (currentPage (app w) = Page.promptInput) then
         if decide (currentPage (app (world before)) = Page.promptInput)
         then child
         else Some (PromptInput.mount now
                      (bool_decide (currentTrialIndex (app w) = 0)))
       else None |}.

Definition step (backend : Backend) (plan : Planner.Plan) (now : Z)
    (ev : Event) (ui : UI) : UI :=
  match ev with
  | Invoke (onSubmitPrompts _) => ui
  | Invoke cb =>
      rerender now ui (invoke backend plan cb (world ui)) (promptInput ui)
  | Input ev =>
      match promptInput ui with
      | None => ui
      | Some c =>
          match PromptInput.step ev c with
          | (c', None) => rerender now ui (world ui) (Some c')
          | (c', Some call) =>
              rerender now ui
                (invoke backend plan (onSubmitPrompts call) (world ui))
                (Some c')
          end
      end
  | Timeout =>
      rerender now ui
        (fireTimeout backend (world ui)) (promptInput ui)
  end.

(** A run: each event with the clock reading at which it is handled. *)
Fixpoint run (backend : Backend) (plan : Planner.Plan)
    (evs : list (Z * Event)) (ui : UI) : UI :=
  match evs with
  | [] => ui
  | (now, ev) :: evs => run backend plan evs (step backend plan now ev ui)
  end.

End Experiment.

(** ** The survey handler of the earlier variant
       (src/unnamed/part_000 lines 779-846) *)

Module Legacy.
Import Net.

Record AppState := {
  currentPage : Page.t;
  prolificId : string;
  isLoading : bool;
  error : option string;
  surveyResponses : option Survey.Responses
}.

Definition handleAiExperienceSurveySubmit (backend : Backend)
    (responses : Survey.Responses) (w : AppState * list Request)
  : AppState * list Request :=
  let '(s, sent) := w in
  let surveyData :=
    {| Survey.prolificId := prolificId s;
       Survey.survey_genAiExperience := Survey.genAiExperience responses;
       Survey.survey_textToImageExperience :=
         Survey.textToImageExperience responses;
       Survey.survey_toolsUsed := Survey.toolsUsed responses;
       Survey.survey_otherTools :=
         if PromptInput.truthy (Survey.otherTools responses)
         then Some (Survey.otherTools responses) else None |} in
  let failed (message : string) :=
    {| currentPage := currentPage s; prolificId := prolificId s;
       isLoading := false;
       error := Some ("Failed to save survey: " +:+ message);
       surveyResponses := surveyResponses s |} in
  let sent' := (sent ++ [SaveSurvey surveyData])%list in
  match backend sent (SaveSurvey surveyData) with
  | NetworkError => (failed FETCH_FAILED, sent')
  | Response false (BObject o) =>
      (failed (if PromptInput.truthy_opt (detail o)
               then default EmptyString (detail o)
               else "Failed to save survey"), sent')
  | Response false _ => (failed "Failed to save survey", sent')
  | Response true BInvalid => (failed JSON_SYNTAX_ERROR, sent')
  | Response true _ =>
      ({| currentPage := Page.consent; prolificId := prolificId s;
          isLoading := false; error := None;
          surveyResponses := Some responses |}, sent')
  end.

End Legacy.

(** ** What the instruction screens announce *)

Module Instructions.

(** [GeneralInstructions], lines 523 and 525. *)
Definition GENERAL_PRACTICE_LINE : string :=
  "One practice trial (30s) to familiarize you with the task".
Definition GENERAL_MAIN_LINE : string :=
  "For each main trial, you will have 2 minutes to write prompts".

(** [PracticeInstructions], line 557. *)
Definition PRACTICE_LINE : string :=
  "Have 30 seconds to write prompts for a given theme".

(** The underlined sentences of [CONDITIONS] (lines 29 and 45). *)
Definition condition_line (c : Condition) : string :=
  match c with
  | BE_CREATIVE => "You'll have 2 minutes to enter prompts."
  | BE_FLUENT => "You'll have 2 minutes to enter as many prompts as you can."
  end.

(** [needle] occurs in [text]. *)
Definition mentions (text needle : string) : bool :=
  match String.index 0 needle text with
  | Some _ => true
  | None => false
  end.

(** The announced durations, in seconds. *)
Definition ANNOUNCED_MAIN : Z := 2 * 60.
Definition ANNOUNCED_PRACTICE : Z := 30.

End Instructions.

(** ** Sample sessions *)

Module Scenario.
Import Net MainApp Experiment.

Definition draws (k : nat) : Z := (2 ^ 52 + Z.of_nat (k `mod` 4) * 2 ^ 50)%Z.

(** The plan drawn from [draws]. *)
Definition plan : Planner.Plan :=
  {| Planner.conditions := Planner.initConditions (draws 0);
     Planner.trialThemes :=
       PRACTICE_THEME
       :: default TRIAL_THEMES (Planner.shuffleArray draws 1 TRIAL_THEMES) |}.

Definition unreachable : Backend := λ _ _, NetworkError.

Definition rejecting : Backend := λ _ _, Response false BNull.

Definition healthy : Backend :=
  λ _ _, Response true
           (BObject {| status := None; images := None; detail := None |}).

(** Accepts the ratings, then fails to mark the completion. *)
Definition completionDown : Backend :=
  λ _ req,
    match req with
    | MarkCompletion _ => Response false BNull
    | _ => Response true BNull
    end.

Definition responses : Survey.Responses :=
  {| Survey.genAiExperience := "basic";
     Survey.textToImageExperience := "often";
     Survey.toolsUsed :=
       {| Survey.dall_e := true; Survey.midjourney := false;
          Survey.stable_diffusion := false; Survey.other := false |};
     Survey.otherTools := EmptyString |}.

(** From the id entry to the practice trial. *)
Definition toPractice : list (Z * Event) :=
  [ (0, Invoke (onSubmitId "R7X9")); (0, Invoke onAccept);
    (0, Invoke onContinue); (0, Invoke (onSubmitSurvey responses));
    (0, Invoke onContinue); (0, Invoke onContinue) ]%Z.

(** The practice trial of the end-to-end scenario: two prompts typed, the
    countdown runs out, the second prompt is selected and submitted. *)
Definition practiceTrial : list (Z * Event) :=
  [ (100, Input (PromptInput.KeyDown 100));
    (200, Input (PromptInput.Change 0 "a quiet forest"));
    (300, Input (PromptInput.Change 1 "a neon city at night"));
    (10000, Input (PromptInput.Tick 10000));
    (10600, Input (PromptInput.Select 1));
    (11000, Input (PromptInput.Continue 11000)) ]%Z.

(** A practice trial in which nothing is typed. *)
Definition idleTrial : list (Z * Event) :=
  [ (10000, Input (PromptInput.Tick 10000));
    (11000, Input (PromptInput.Continue 11000)) ]%Z.

Definition image : Image.t :=
  {| Image.imagePath := "/images/1.png"; Image.trialIndex := 1;
     Image.theme := "TIME"; Image.condition := "BE_FLUENT";
     Image.prompt := "a clock melting" |}.

Definition rating : Rating.t :=
  {| Rating.creativity := Some 3%Z; Rating.intention := Some 4%Z |}.

(** The world on the rating screen. *)
Definition ratingWorld : World :=
  with_app
    (with_currentPage Page.imageRating
       (with_generatedImages [image]
          (with_currentTrialIndex 6 (with_prolificId "R7X9" initialState))))
    initialWorld.

(** The world at the start of the practice trial. *)
Definition practiceWorld : World :=
  with_app
    (with_currentPage Page.promptInput (with_prolificId "R7X9" initialState))
    initialWorld.

(** The world on the survey page. *)
Definition surveyWorld : World :=
  with_app
    (with_currentPage Page.aiExperienceSurvey
       (with_prolificId "R7X9" initialState))
    initialWorld.

(** Answers every request with a [pending] status. *)
Definition pendingBackend : Backend :=
  λ _ _, Response true
           (BObject {| status := Some "pending"; images := None;
                       detail := None |}).

(** A backend that answers the first status request [pending] and is
    unreachable from then on. *)
Definition pendingThenUnreachable : Backend :=
  λ history req,
    if forallb (λ r, negb (isStatusCheck r)) history
    then Response true
           (BObject {| status := Some "pending"; images := None;
                       detail := None |})
    else NetworkError.

(** The world on entering the processing page (the last
    [handleNextTrial]). *)
Definition processingWorld : World :=
  with_app
    (with_currentPage Page.processing
       (with_isLoading true
          (with_currentTrialIndex 6 (with_prolificId "R7X9" initialState))))
    initialWorld.

End Scenario.

(** ** Bookkeeping of a mounted prompt input *)

Module InputTrace.
Import PromptInput.

(** What the timing refs of a component mounted at clock reading [now0]
    hold after any events: the start reading is kept; the first-keypress
    latch is set exactly when a keypress time is stored; the selection
    phase has a start reading exactly when the time is up on a non-empty
    frozen set, and that reading is not before the deadline. *)
Record traced (now0 : Z) (s : State) : Prop := {
  traced_start : responseStartRef s = now0;
  traced_unlatched :
    firstKeypressRecorded s = false → firstKeypressTime s = None;
  traced_latched :
    firstKeypressRecorded s = true → is_Some (firstKeypressTime s);
  traced_running : isTimeUp s = false → selectionStartTimeRef s = None;
  traced_frozen :
    isTimeUp s = true →
    match selectionStartTimeRef s with
    | Some expiry => prompts s ≠ [] ∧ (deadline s ≤ expiry)%Z
    | None => prompts s = []
    end
}.


End InputTrace.

(** ** The rating screen (App.js lines 1047-1203) *)

Module ImageRatingInterface.

(** The [type] argument of [handleRatingChange]. *)
Inductive RatingType := creativity | intention.

#[global] Instance RatingType_eq_dec : EqDecision RatingType.
Proof. solve_decision. Defined.

Record State := {
  randomizedImages : list Image.t;
  ratings : list Rating.t;
  error : option string
}.



(** [{...rating, [type]: value}] *)
Definition setRating (type : RatingType) (value : Z) (r : Rating.t)
  : Rating.t :=
  match type with
  | creativity =>
      {| Rating.creativity := Some value;
         Rating.intention := Rating.intention r |}
  | intention =>
      {| Rating.creativity := Rating.creativity r;
         Rating.intention := Some value |}
  end.

(** [handleRatingChange] (lines 1080-1089), called from a slider of the
    image at [imageIndex]; the model covers the indices of [ratings]
    only. *)
Definition handleRatingChange (imageIndex : nat) (type : RatingType)
    (value : Z) (s : State) : State :=
  {| randomizedImages := randomizedImages s;
     ratings := alter (setRating type value) imageIndex (ratings s);
     error := error s |}.

(** [handleSubmit] (lines 1066-1077): the next state, and the arguments
    of the call to [onSubmit] if one is made. *)
Definition handleSubmit (s : State)
  : State * option (list Rating.t * list Image.t) :=
  match MainApp.ImageRatingInterface_handleSubmit
          (ratings s) (randomizedImages s) with
  | inl message =>
      ({| randomizedImages := randomizedImages s; ratings := ratings s;
          error := Some message |}, None)
  | inr call => (s, Some call)
  end.

(** What the participant can do on the screen: move one of the two
    sliders rendered for an entry of [randomizedImages], or press
    "Submit All Ratings". *)
Inductive Event :=
| Slide (imageIndex : nat) (type : RatingType) (value : Z)
| Submit.

Definition step (ev : Event) (s : State)
  : State * option (list Rating.t * list Image.t) :=
  match ev with
  | Slide imageIndex type value =>
      if decide (imageIndex < length (randomizedImages s)) then
        (handleRatingChange imageIndex type value s, None)
      else (s, None)
  | Submit => handleSubmit s
  end.

Fixpoint steps (evs : list Event) (s : State)
  : State * list (list Rating.t * list Image.t) :=
  match evs with
  | [] => (s, [])
  | ev :: evs =>
      let '(s1, call) := step ev s in
      let '(s2, calls) := steps evs s1 in
      (s2, (option_list call ++ calls)%list)
  end.


End ImageRatingInterface.

(** ** How far a session has come *)

Module Progress.
Import Net MainApp.

(** The place of a page in the session: the six pages before the
    trials, then for each trial its instruction page and its input
    page, then the processing page, the rating or no-images page, and
    the thank-you page. *)
Definition position (s : AppState) : nat :=
  match currentPage s with
  | Page.prolificId => 0
  | Page.consent => 1
  | Page.internetUsage => 2
  | Page.aiExperienceSurvey => 3
  | Page.generalInstructions => 4
  | Page.practiceInstructions => 5
  | Page.mainTrialTransition | Page.betweenTrials =>
      5 + 2 * currentTrialIndex s
  | Page.promptInput => 6 + 2 * currentTrialIndex s
  | Page.processing => 19
  | Page.noImages | Page.imageRating => 20
  | Page.thankYou => 21
  end.

(** The participant a request is made for. *)
Definition requestFor (participant : string) (r : Request) : Prop :=
  match r with
  | SaveSurvey surveyData => Survey.prolificId surveyData = participant
  | SavePrompt submission => Submission.prolificId submission = participant
  | CheckGenerationStatus id | GetAllImages id | MarkCompletion id =>
      id = participant
  | SaveRatings formattedRatings =>
      Forall (λ r, FormattedRating.prolificId r = participant)
        formattedRatings
  end.

(** The trial indices of the save-prompt requests of a log. *)
Definition savedTrials (log : list Request) : list nat :=
  omap (λ r, match r with
             | SavePrompt submission => Some (Submission.trialIndex submission)
             | _ => None
             end) log.

(** What holds of the page machine and its input child in every state a
    session can be in. *)
Record sane (ui : Experiment.UI) : Prop := {
  sane_trial : currentTrialIndex (app (Experiment.world ui)) ≤ 6;
  sane_before :
    position (app (Experiment.world ui)) ≤ 5 →
    currentTrialIndex (app (Experiment.world ui)) = 0;
  sane_transition :
    currentPage (app (Experiment.world ui)) = Page.mainTrialTransition →
    currentTrialIndex (app (Experiment.world ui)) = 1;
  sane_between :
    currentPage (app (Experiment.world ui)) = Page.betweenTrials →
    2 ≤ currentTrialIndex (app (Experiment.world ui));
  sane_after :
    19 ≤ position (app (Experiment.world ui)) →
    currentTrialIndex (app (Experiment.world ui)) = 6;
  sane_timeout :
    ∀ id, pollTimeout (Experiment.world ui) = Some id →
          currentPage (app (Experiment.world ui)) = Page.processing
          ∧ id = prolificId (app (Experiment.world ui));
  sane_images :
    currentPage (app (Experiment.world ui)) = Page.imageRating →
    generatedImages (app (Experiment.world ui)) ≠ [];
  sane_first :
    currentPage (app (Experiment.world ui)) = Page.prolificId →
    sent (Experiment.world ui) = [];
  sane_sent :
    Forall (requestFor (prolificId (app (Experiment.world ui))))
      (sent (Experiment.world ui));
  sane_child :
    match Experiment.promptInput ui with
    | Some c =>
        currentPage (app (Experiment.world ui)) = Page.promptInput
        ∧ PromptInput.wf c
        ∧ PromptInput.isPractice c
          = bool_decide (currentTrialIndex (app (Experiment.world ui)) = 0)
    | None => currentPage (app (Experiment.world ui)) ≠ Page.promptInput
    end;
  sane_saved :
    NoDup (savedTrials (sent (Experiment.world ui)))
    ∧ ∀ i, i ∈ savedTrials (sent (Experiment.world ui)) →
           i < currentTrialIndex (app (Experiment.world ui))
           ∨ i = currentTrialIndex (app (Experiment.world ui))
             ∧ match Experiment.promptInput ui with
               | Some c => PromptInput.hasSubmitted c = true
               | None => 19 ≤ position (app (Experiment.world ui))
               end
}.

(** The ways a step may change the world: the position and the trial
    index do not decrease, the participant stays once the first page is
    left, and the log only grows. *)
Definition advances (w w' : World) : Prop :=
  position (app w) ≤ position (app w')
  ∧ currentTrialIndex (app w) ≤ currentTrialIndex (app w')
  ∧ (currentPage (app w) ≠ Page.prolificId →
     prolificId (app w') = prolificId (app w))
  ∧ ∃ extra, sent w' = sent w ++ extra.

(** What a run of the poller for [participant] makes of the world [w]:
    it leaves the page and the stored images alone, possibly scheduling
    a timeout for the participant; or it ends on [noImages]; or it ends
    on the rating page with a non-empty array of images stored. *)
Definition polled (participant : string) (w w' : World) : Prop :=
  currentPage (app w') = currentPage (app w)
  ∧ generatedImages (app w') = generatedImages (app w)
  ∧ (pollTimeout w' = pollTimeout w ∨ pollTimeout w' = Some participant)
  ∨ currentPage (app w') = Page.noImages
    ∧ generatedImages (app w') = generatedImages (app w)
    ∧ pollTimeout w' = pollTimeout w
  ∨ currentPage (app w') = Page.imageRating
    ∧ generatedImages (app w') ≠ []
    ∧ pollTimeout w' = pollTimeout w.

End Progress.

(** ** Page timing (App.js lines 89-114 and 759-773) *)

Module PageTracking.
Import MainApp.

(** The string a page is named by in [currentPage]. *)
Definition key (p : Page.t) : string :=
  match p with
  | Page.prolificId => "prolificId"
  | Page.consent => "consent"
  | Page.aiExperienceSurvey => "aiExperienceSurvey"
  | Page.internetUsage => "internetUsage"
  | Page.generalInstructions => "generalInstructions"
  | Page.practiceInstructions => "practiceInstructions"
  | Page.promptInput => "promptInput"
  | Page.betweenTrials => "betweenTrials"
  | Page.mainTrialTransition => "mainTrialTransition"
  | Page.processing => "processing"
  | Page.noImages => "noImages"
  | Page.imageRating => "imageRating"
  | Page.thankYou => "thankYou"
  end.

(** [getPageName] (lines 759-767); the template literal prints the
    index in decimal. *)
Definition getPageName (currentPage : Page.t) (currentTrialIndex : nat)
  : string :=
  if decide (key currentPage = "promptInput") then
    "Trial " +:+ pretty currentTrialIndex +:+ " Input Phase"
  else if String.prefix "promptSelection_trial_" (key currentPage) then
    "Trial " +:+ pretty currentTrialIndex +:+ " Selection Phase"
  else key currentPage.

(** The body of [/api/save-timing]; [timestamp] is not modelled.  The
    request is fire-and-forget: its rejection is caught and logged, and
    its answer is never read. *)
Record Beacon := {
  prolificId : string;
  page : string;
  duration : Z
}.

(** The two refs of [usePageTracking], and the beacons sent so far. *)
Record State := {
  startTimeRef : Z;
  previousPageRef : string;
  beacons : list Beacon
}.

(** The first render at clock reading [now]; the effect of that render
    finds the page unchanged and returns. *)
Definition mount (now : Z) (currentPage : string) : State :=
  {| startTimeRef := now; previousPageRef := currentPage; beacons := [] |}.








End PageTracking.

(** * Properties *)

Module PlannerFacts.
Import Planner.

Lemma randomIndex_bound r n :
  valid_draw r → 0 < n → randomIndex r n < n.
Proof.
  unfold valid_draw, randomIndex, RANDOM_DEN. intros [Hlo Hhi] Hn.
  assert (r * Z.of_nat n / 2 ^ 53 < Z.of_nat n)%Z.
  { apply Z.div_lt_upper_bound; [lia | nia]. }
  assert (0 <= r * Z.of_nat n / 2 ^ 53)%Z by (apply Z.div_pos; lia).
  lia.
Qed.

Lemma swap_in_range {A} (a : list A) i j :
  i < length a → j < length a →
  ∃ a', swap a i j = Some a' ∧ length a' = length a ∧ a' ≡ₚ a.
Proof.
  intros Hi Hj. unfold swap.
  destruct (lookup_lt_is_Some_2 a i Hi) as [ai Hai].
  destruct (lookup_lt_is_Some_2 a j Hj) as [aj Haj].
  rewrite Hai, Haj. eexists; split; [done|]. split.
  - by rewrite !length_insert.
  - by apply Permutation_insert_swap.
Qed.

Lemma shuffleLoop_perm {A} rng k i (a : list A) :
  (∀ n, valid_draw (rng n)) → i < length a →
  ∃ a', shuffleLoop rng k i a = Some a' ∧ a' ≡ₚ a.
Proof.
  intros Hrng. revert k a.
  induction i as [|i IH]; intros k a Hi; cbn [shuffleLoop]; [by eexists|].
  assert (Hj : randomIndex (rng k) (S i + 1) < S i + 1)
    by (apply randomIndex_bound; [done | lia]).
  destruct (swap_in_range a (S i) (randomIndex (rng k) (S i + 1)))
    as (a1 & -> & Hlen & Hperm); [lia | lia |]. cbn [mbind option_bind].
  destruct (IH (S k) a1) as (a2 & -> & Hperm2); [lia|].
  exists a2. split; [done|]. by rewrite Hperm2.
Qed.

Lemma shuffleArray_perm {A} rng k (a : list A) :
  (∀ n, valid_draw (rng n)) →
  ∃ a', shuffleArray rng k a = Some a' ∧ a' ≡ₚ a.
Proof.
  intros Hrng. unfold shuffleArray. destruct a as [|x a]; [by eexists|].
  apply shuffleLoop_perm; [done | simpl; lia].
Qed.

Lemma isCreativeFirst_spec r :
  isCreativeFirst r = true ↔ (r * 2 < RANDOM_DEN)%Z.
Proof. unfold isCreativeFirst. apply Z.ltb_lt. Qed.

(** The half-turn is an involution of the draws that flips the coin:
    the draws yielding each order are equally many. *)
Lemma half_turn_flips r :
  valid_draw r →
  valid_draw (half_turn r) ∧ half_turn (half_turn r) = r
  ∧ isCreativeFirst (half_turn r) = negb (isCreativeFirst r).
Proof.
  unfold valid_draw, half_turn, isCreativeFirst, RANDOM_DEN.
  change (2 ^ 53 / 2)%Z with (2 ^ 52)%Z. change (2 ^ 53)%Z with (2 * 2 ^ 52)%Z.
  intros [Hlo Hhi].
  destruct (decide (r < 2 ^ 52)%Z) as [Hlt|Hge].
  - rewrite (Z.mod_small (r + 2 ^ 52)) by lia.
    replace (r + 2 ^ 52 + 2 ^ 52)%Z with (r + 1 * (2 * 2 ^ 52))%Z by lia.
    rewrite Z.mod_add, Z.mod_small by lia.
    split; [lia|]. split; [done|].
    rewrite (proj2 (Z.ltb_lt (r * 2) _)) by lia.
    apply Z.ltb_ge. lia.
  - assert (Hm : ((r + 2 ^ 52) mod (2 * 2 ^ 52) = r - 2 ^ 52)%Z).
    { replace (r + 2 ^ 52)%Z with (r - 2 ^ 52 + 1 * (2 * 2 ^ 52))%Z by lia.
      rewrite Z.mod_add, Z.mod_small; lia. }
    rewrite Hm. replace (r - 2 ^ 52 + 2 ^ 52)%Z with r by lia.
    rewrite Z.mod_small by lia.
    split; [lia|]. split; [done|].
    rewrite (proj2 (Z.ltb_ge (r * 2) _)) by lia.
    apply Z.ltb_lt. lia.
Qed.

Lemma initConditions_blocks r :
  ∃ a b, a ≠ b
    ∧ sequence (initConditions r) = replicate 3 a ++ replicate 3 b
    ∧ (a = BE_CREATIVE ↔ (r * 2 < RANDOM_DEN)%Z).
Proof.
  unfold initConditions, createSequence. simpl.
  destruct (isCreativeFirst r) eqn:Hc.
  - exists BE_CREATIVE, BE_FLUENT. split; [done|]. split; [done|].
    split; [intros _; by apply isCreativeFirst_spec | done].
  - exists BE_FLUENT, BE_CREATIVE. split; [done|]. split; [done|].
    split; [done|]. intros H%isCreativeFirst_spec. congruence.
Qed.

Lemma TRIAL_THEMES_NoDup : NoDup TRIAL_THEMES.
Proof. by apply (bool_decide_unpack (NoDup TRIAL_THEMES)); vm_compute. Qed.

(** C8: for every draw of the random source, session creation succeeds;
    the condition sequence is two contiguous blocks of three equal
    conditions, creative first exactly when the single coin draw is
    below one half, and the two blocks cover main trials 1-3 and 4-6;
    the theme sequence is the practice theme followed by a duplicate-free
    permutation of the six-theme pool; and the coin is fair, the
    half-turn pairing each creative-first draw with a fluent-first one. *)
Theorem plan_two_blocks_and_theme_permutation (rng : nat → Z) :
  (∀ n, valid_draw (rng n)) →
  ∃ p, createPlan rng = Some p
    ∧ length (sequence (conditions p)) = 6
    ∧ (∃ a b, a ≠ b
         ∧ sequence (conditions p) = replicate 3 a ++ replicate 3 b
         ∧ (a = BE_CREATIVE ↔ (rng 0%nat * 2 < RANDOM_DEN)%Z)
         ∧ ∀ i, 1 ≤ i ≤ 6 →
             ∃ theme, getCurrentTrial p i
                      = Some (Some theme,
                              condition_id (if decide (i ≤ 3) then a else b)))
    ∧ (∃ themes, trialThemes p = PRACTICE_THEME :: themes
         ∧ themes ≡ₚ TRIAL_THEMES ∧ NoDup themes ∧ length themes = 6)
    ∧ (∀ r, valid_draw r →
         valid_draw (half_turn r) ∧ half_turn (half_turn r) = r
         ∧ isCreativeFirst (half_turn r) = negb (isCreativeFirst r)).
Proof.
  intros Hrng.
  destruct (shuffleArray_perm rng 1 TRIAL_THEMES Hrng) as (themes & Hs & Hp).
  assert (Hlen : length themes = 6) by (by rewrite Hp).
  destruct (initConditions_blocks (rng 0)) as (a & b & Hab & Hseq & Hcoin).
  exists {| conditions := initConditions (rng 0);
            trialThemes := PRACTICE_THEME :: themes |}.
  split; [by unfold createPlan, initTrialThemes; rewrite Hs|].
  cbn [conditions trialThemes].
  split; [by rewrite Hseq|]. split.
  - exists a, b. split; [done|]. split; [done|]. split; [done|].
    intros i Hi. unfold getCurrentTrial. cbn [conditions trialThemes].
    rewrite Hseq.
    destruct i as [|i]; [lia|].
    destruct (lookup_lt_is_Some_2 themes i) as [theme Ht]; [lia|].
    exists theme. simpl. rewrite Nat.sub_0_r, Ht.
    do 6 (destruct i as [|i]; [simpl; done|]). lia.
  - split; [|apply half_turn_flips].
    exists themes. split; [done|]. split; [done|]. split; [|done].
    rewrite Hp. apply TRIAL_THEMES_NoDup.
Qed.

Lemma plan_two_blocks_and_theme_permutation_witness :
  (∀ n, valid_draw (Scenario.draws n))
  ∧ ∃ p, createPlan Scenario.draws = Some p
      ∧ length (sequence (conditions p)) = 6.
Proof.
  assert (H : ∀ n, valid_draw (Scenario.draws n)).
  { intros n. unfold valid_draw, RANDOM_DEN, Scenario.draws.
    pose proof (Nat.mod_upper_bound n 4). lia. }
  split; [exact H|].
  destruct (plan_two_blocks_and_theme_permutation _ H) as (p & Hp & Hl & _).
  exists p. split; [exact Hp | exact Hl].
Defined.

End PlannerFacts.

Module TimerFacts.
Import Timer.

Lemma ceil_div_nonpos n : (ceil_div n 1000 ≤ 0 ↔ n ≤ 0)%Z.
Proof.
  unfold ceil_div. split; intros H.
  - destruct (decide (n ≤ 0)%Z) as [|Hn]; [done|].
    assert (- n / 1000 < 0)%Z by (apply Z.div_lt_upper_bound; lia). lia.
  - assert (0 ≤ - n / 1000)%Z by (apply Z.div_pos; lia). lia.
Qed.

Lemma mount_running now seconds : running (mount now seconds).
Proof. by unfold running. Qed.

Lemma tick_before now t :
  running t → (now < endTimeRef t)%Z →
  running (tick now t) ∧ endTimeRef (tick now t) = endTimeRef t.
Proof.
  intros (Hi & Hc & Hn) Hnow. unfold tick. rewrite Hi.
  rewrite (bool_decide_eq_false_2 (_ ≤ 0)%Z); [by unfold running|].
  rewrite ceil_div_nonpos. lia.
Qed.

Lemma tick_at_or_after now t :
  running t → (endTimeRef t ≤ now)%Z → finished (tick now t).
Proof.
  intros (Hi & Hc & Hn) Hnow. unfold tick. rewrite Hi.
  rewrite (bool_decide_eq_true_2 (_ ≤ 0)%Z); [|rewrite ceil_div_nonpos; lia].
  unfold finished. simpl. by rewrite Hc, Hn.
Qed.

Lemma tick_finished now t : finished t → tick now t = t.
Proof. intros (Hi & _). unfold tick. by rewrite Hi. Qed.

Lemma run_finished nows t : finished t → run nows t = t.
Proof.
  unfold run. induction nows as [|now nows IH]; intros Hf; [done|].
  simpl. rewrite (tick_finished now t Hf). by apply IH.
Qed.

Lemma run_before nows t :
  running t → Forall (λ now, now < endTimeRef t)%Z nows →
  running (run nows t).
Proof.
  unfold run. revert t.
  induction nows as [|now nows IH]; intros t Hr Hall; [done|].
  apply Forall_cons in Hall as [Hnow Hall]. simpl.
  destruct (tick_before now t Hr Hnow) as [Hr' He].
  apply IH; [done|]. by rewrite He.
Qed.

Lemma run_reaching nows t :
  running t → Exists (λ now, endTimeRef t ≤ now)%Z nows →
  finished (run nows t).
Proof.
  unfold run. revert t.
  induction nows as [|now nows IH]; intros t Hr Hex.
  - by apply Exists_nil in Hex.
  - simpl. destruct (decide (endTimeRef t ≤ now)%Z) as [Hle|Hgt].
    + pose proof (tick_at_or_after now t Hr Hle) as Hf.
      fold (run nows (tick now t)). by rewrite run_finished.
    + apply Exists_cons in Hex as [Hnow|Hex]; [lia|].
      destruct (tick_before now t Hr) as [Hr' He]; [lia|].
      apply IH; [done|]. by rewrite He.
Qed.

Lemma run_at_most_once nows t :
  running t → running (run nows t) ∨ finished (run nows t).
Proof.
  intros Hr.
  destruct (decide (Exists (λ now, endTimeRef t ≤ now)%Z nows)) as [He|Hn].
  - right. by apply run_reaching.
  - left. apply run_before; [done|].
    apply not_Exists_Forall in Hn; [|intros x; apply _].
    eapply Forall_impl; [exact Hn|]. simpl. lia.
Qed.

(** Cancelling: after the effect cleanup no tick calls [onComplete]. *)
Lemma unmount_silences nows t : run nows (unmount t) = unmount t.
Proof.
  unfold run. induction nows as [|now nows IH]; [done|]. exact IH.
Qed.

(** C5 as the code has it: a timer started with [d ≥ 0] seconds calls
    [onComplete] at most once whatever the ticks; it has not called it
    while every tick read the clock before [d] seconds had passed; it
    has called it exactly once as soon as some tick read the clock at
    or after the deadline; and for [d = 0] nothing is called at mount,
    the interval is scheduled, and the first tick makes the call. *)
Theorem timer_fires_once_not_early (d now0 : Z) (nows : list Z) :
  (0 ≤ d)%Z →
  completions (run nows (mount now0 d)) ≤ 1
  ∧ (Forall (λ now, now < now0 + d * 1000)%Z nows →
       completions (run nows (mount now0 d)) = 0)
  ∧ (Exists (λ now, now0 + d * 1000 ≤ now)%Z nows →
       completions (run nows (mount now0 d)) = 1)
  ∧ (d = 0%Z →
       completions (mount now0 d) = 0
       ∧ timerInterval (mount now0 d) = true
       ∧ ∀ now, (now0 ≤ now)%Z →
           completions (tick now (mount now0 d)) = 1).
Proof.
  intros Hd. pose proof (mount_running now0 d) as Hr.
  split; [|split; [|split]].
  - destruct (run_at_most_once nows _ Hr) as [(_ & _ & ->)|(_ & _ & ->)]; lia.
  - intros Hall. by apply (run_before nows _ Hr).
  - intros Hex. by apply (run_reaching nows _ Hr).
  - intros ->. split; [done|]. split; [done|]. intros now Hnow.
    apply (tick_at_or_after now (mount now0 0)); [done|]. simpl. lia.
Qed.

Lemma timer_fires_once_not_early_witness :
  (0 ≤ 12)%Z
  ∧ completions (run [100; 11900; 12000; 12100]%Z (mount 0 12)) = 1.
Proof.
  assert (Hd : (0 ≤ 12)%Z) by lia.
  split; [exact Hd|].
  destruct (timer_fires_once_not_early 12 0 [100; 11900; 12000; 12100]%Z Hd)
    as (_ & _ & Hfires & _).
  apply Hfires.
  apply Exists_cons_tl, Exists_cons_tl, Exists_cons_hd. simpl. lia.
Defined.

(** C5, the zero-duration edge as the claim states it, fails: a timer
    started with 0 seconds has called nothing when it is mounted and has
    an interval tick scheduled; completion comes with that tick. *)
Lemma timer_zero_waits_for_tick :
  completions (mount 0 0) ≠ 1
  ∧ timerInterval (mount 0 0) = true
  ∧ completions (run [100%Z] (mount 0 0)) = 1.
Proof. split; [discriminate | split; reflexivity]. Qed.

End TimerFacts.

Module PollerFacts.
Import Net MainApp.

Lemma statusChecks_snoc_check w prolificId :
  length (filter (λ r, Is_true (isStatusCheck r))
            (sent w ++ [CheckGenerationStatus prolificId]))
  = S (statusChecks w).
Proof.
  unfold statusChecks. rewrite filter_app, length_app. simpl. lia.
Qed.

Lemma statusChecks_after_check w w' prolificId :
  sent w' = sent w ++ [CheckGenerationStatus prolificId] →
  statusChecks w' = S (statusChecks w).
Proof.
  intros H. unfold statusChecks at 1. rewrite H.
  apply statusChecks_snoc_check.
Qed.

Lemma statusChecks_snoc_images (l : list Request) prolificId :
  length (filter (λ r, Is_true (isStatusCheck r))
            (l ++ [GetAllImages prolificId]))
  = length (filter (λ r, Is_true (isStatusCheck r)) l).
Proof. rewrite filter_app, length_app. simpl. lia. Qed.

(** What the [case 'ready':] arm does to the log and the poller: one
    image request, nothing thrown, no timeout set. *)
Lemma fetchAllImages_effect backend prolificId w :
  ∃ w', fetchAllImages backend prolificId w = (Done (), w')
    ∧ sent w' = sent w ++ [GetAllImages prolificId]
    ∧ attempts w' = attempts w
    ∧ pollTimeout w' = pollTimeout w
    ∧ unhandled w' = unhandled w
    ∧ (currentPage (app w') = Page.noImages
       ∨ currentPage (app w') = Page.imageRating).
Proof.
  unfold fetchAllImages, try_catch, fetch, json, field, throw, setCurrentPage,
    setGeneratedImages, setIsLoading, update, mbind, mret, Async_bind,
    Async_ret.
  destruct (backend (sent w) (GetAllImages prolificId))
    as [[] [| |[st [[|image rest]|] dt]]|];
    simpl; eexists; (split; [reflexivity|]); simpl; auto 10.
Qed.

Ltac unfold_async :=
  unfold try_catch, try_finally, fetch, json, field, throw, setCurrentPage,
    setGeneratedImages, setIsLoading, setError, setCurrentTrialIndex,
    setProlificId, update, read, exec, mbind, mret, Async_bind, Async_ret.

Lemma poll_exhausted backend prolificId w :
  maxAttempts ≤ attempts w →
  poll backend prolificId w
  = (Done (), with_app (with_currentPage Page.noImages (app w)) w).
Proof.
  intros Hmax. unfold poll. unfold_async.
  destruct (decide (maxAttempts ≤ attempts w)); [done | lia].
Qed.

(** A [poll] below the bound issues exactly one status request and
    counts it. *)
Lemma poll_attempt backend prolificId w :
  attempts w < maxAttempts →
  ∃ r w', poll backend prolificId w = (r, w')
    ∧ attempts w' = S (attempts w)
    ∧ statusChecks w' = S (statusChecks w)
    ∧ unhandled w' = unhandled w.
Proof.
  intros Hlt. unfold poll. unfold_async.
  destruct (decide (maxAttempts ≤ attempts w)) as [|_]; [lia|]. simpl.
  destruct (backend (sent w) (CheckGenerationStatus prolificId))
    as [ok [| |o]|]; simpl.
  1,2,4: do 2 eexists; (split; [reflexivity|]); simpl;
    rewrite ?Nat.add_1_r; split; [done|]; split; [|done];
    apply statusChecks_snoc_check.
  repeat case_decide.
  2-5: do 2 eexists; (split; [reflexivity|]); simpl;
    rewrite ?Nat.add_1_r; split; [done|]; split; [|done];
    apply statusChecks_snoc_check.
  match goal with
  | |- context [fetchAllImages ?b ?p ?w0] =>
      destruct (fetchAllImages_effect b p w0) as (w' & -> & Hs & Ha & _ & Hu & _)
  end.
  do 2 eexists. split; [reflexivity|]. simpl in *.
  rewrite Ha, Hu, Nat.add_1_r. split; [done|]. split; [|done].
  unfold statusChecks. rewrite Hs, statusChecks_snoc_images.
  apply statusChecks_snoc_check.
Qed.

Lemma poll_pending backend prolificId w ok o :
  attempts w < maxAttempts →
  backend (sent w) (CheckGenerationStatus prolificId)
    = Response ok (BObject o) →
  status o = Some "pending" →
  poll backend prolificId w
  = (Done (),
     with_pollTimeout (Some prolificId)
       (with_sent (sent w ++ [CheckGenerationStatus prolificId])
          (with_attempts (attempts w + 1) w))).
Proof.
  intros Hlt Hb Hst. unfold poll. unfold_async.
  destruct (decide (maxAttempts ≤ attempts w)) as [|_]; [lia|]. simpl.
  rewrite Hb. simpl. rewrite Hst.
  repeat (case_decide; [discriminate|]). by case_decide.
Qed.

Lemma poll_network_error backend prolificId w :
  attempts w < maxAttempts →
  backend (sent w) (CheckGenerationStatus prolificId) = NetworkError →
  poll backend prolificId w
  = (Thrown FETCH_FAILED,
     with_sent (sent w ++ [CheckGenerationStatus prolificId])
       (with_attempts (attempts w + 1) w)).
Proof.
  intros Hlt Hb. unfold poll. unfold_async.
  destruct (decide (maxAttempts ≤ attempts w)) as [|_]; [lia|]. simpl.
  by rewrite Hb.
Qed.

Lemma poll_budget backend prolificId w :
  budget (poll backend prolificId w).2 = budget w.
Proof.
  unfold budget.
  destruct (decide (maxAttempts ≤ attempts w)) as [Hge|Hlt].
  - by rewrite poll_exhausted.
  - destruct (poll_attempt backend prolificId w) as (r & w' & -> & Ha & Hs & _);
      [lia|]. simpl. rewrite Ha, Hs. lia.
Qed.

Lemma fireTimeout_budget backend w :
  budget (fireTimeout backend w) = budget w.
Proof.
  unfold fireTimeout. destruct (pollTimeout w) as [prolificId|]; [|done].
  pose proof (poll_budget backend prolificId (with_pollTimeout None w)) as H.
  destruct (poll backend prolificId (with_pollTimeout None w)) as [[|m] w'];
    exact H.
Qed.

Lemma fireTimeouts_budget backend n w :
  budget (fireTimeouts backend n w) = budget w.
Proof.
  unfold fireTimeouts. induction n as [|n IH]; [done|].
  simpl. by rewrite fireTimeout_budget.
Qed.

Lemma pollGenerationStatus_unfold backend prolificId w :
  pollGenerationStatus backend prolificId w
  = match poll backend prolificId (with_attempts 0 w) with
    | (Done a, w') => (Done a, w')
    | (Thrown _, w') =>
        (Done (),
         with_app
           (with_currentPage Page.noImages
              (with_isLoading false
                 (with_error (Some "Failed to load images") (app w')))) w')
    end.
Proof.
  unfold pollGenerationStatus, try_catch.
  unfold mbind at 1. unfold Async_bind. unfold update at 1.
  by destruct (poll backend prolificId (with_attempts 0 w)) as [[|m] w'].
Qed.

Lemma pollGenerationStatus_budget backend prolificId w :
  budget (exec (pollGenerationStatus backend prolificId) w)
  = statusChecks w + maxAttempts.
Proof.
  unfold exec. rewrite pollGenerationStatus_unfold.
  pose proof (poll_budget backend prolificId (with_attempts 0 w)) as H.
  by destruct (poll backend prolificId (with_attempts 0 w)) as [[|m] w'].
Qed.

Lemma pendingBackend_alwaysPending prolificId :
  alwaysPending Scenario.pendingBackend prolificId.
Proof. intros history. by eexists _, _. Qed.

Lemma fireTimeouts_S backend n w :
  fireTimeouts backend (S n) w = fireTimeout backend (fireTimeouts backend n w).
Proof. done. Qed.

(** While the backend keeps answering [pending], the poller after the
    first poll and [k ≤ 3] timeouts has made [k + 1] attempts, waits on a
    timeout, and has left the page alone. *)
Lemma pending_chain backend prolificId w k :
  alwaysPending backend prolificId → k < maxAttempts →
  let wk := fireTimeouts backend k
              (exec (pollGenerationStatus backend prolificId) w) in
  attempts wk = S k ∧ pollTimeout wk = Some prolificId
  ∧ statusChecks wk = statusChecks w + S k ∧ app wk = app w
  ∧ unhandled wk = unhandled w.
Proof.
  intros Hp. induction k as [|k IH]; intros Hk.
  - cbv zeta. change (fireTimeouts backend 0 ?x) with x. unfold exec.
    rewrite pollGenerationStatus_unfold.
    destruct (Hp (sent (with_attempts 0 w))) as (ok & o & Hb & Hst).
    rewrite (poll_pending _ _ _ ok o); [|simpl; unfold maxAttempts; lia|done..].
    simpl. split; [done|]. split; [done|]. split; [|done].
    erewrite statusChecks_after_check; [|done]. simpl. lia.
  - specialize (IH ltac:(lia)). simpl in IH.
    destruct IH as (Ha & Ht & Hs & Happ & Hu).
    cbv zeta. rewrite fireTimeouts_S.
    set (wk := fireTimeouts backend k _) in *.
    unfold fireTimeout. rewrite Ht.
    destruct (Hp (sent (with_pollTimeout None wk))) as (ok & o & Hb & Hst).
    rewrite (poll_pending _ _ _ ok o); [|simpl; lia|done..].
    simpl. rewrite Ha. split; [lia|]. split; [done|]. split; [|done].
    erewrite statusChecks_after_check; [|done]. unfold statusChecks in *.
    simpl. lia.
Qed.

(** A [poll] either leaves the timeout slot alone, or, below the bound,
    counts an attempt and sets the timeout. *)
Lemma poll_timeout backend prolificId w :
  pollTimeout (poll backend prolificId w).2 = pollTimeout w
  ∨ pollTimeout (poll backend prolificId w).2 = Some prolificId
    ∧ attempts w < maxAttempts
    ∧ attempts (poll backend prolificId w).2 = S (attempts w).
Proof.
  destruct (decide (maxAttempts ≤ attempts w)) as [Hge|Hlt].
  { left. by rewrite poll_exhausted. }
  unfold poll. unfold_async.
  destruct (decide (maxAttempts ≤ attempts w)) as [|_]; [lia|]. simpl.
  destruct (backend (sent w) (CheckGenerationStatus prolificId))
    as [ok [| |o]|]; simpl; auto.
  repeat case_decide; simpl; auto.
  - match goal with
    | |- context [fetchAllImages ?b ?p ?w0] =>
        destruct (fetchAllImages_effect b p w0) as (w' & -> & _ & _ & Ht & _)
    end.
    left. simpl in *. by rewrite Ht.
  - right. rewrite Nat.add_1_r. split; [done|]. split; [lia|done].
Qed.

(** After the first poll and [k] timeouts, a timeout is pending only if
    more than [k] attempts were made, and never with more than
    [maxAttempts]. *)
Lemma pending_needs_attempts backend prolificId w k :
  pollTimeout w = None →
  let wk := fireTimeouts backend k
              (exec (pollGenerationStatus backend prolificId) w) in
  pollTimeout wk = None ∨ S k ≤ attempts wk ≤ maxAttempts.
Proof.
  intros Hnone. induction k as [|k IH]; cbv zeta.
  - change (fireTimeouts backend 0 ?x) with x. unfold exec.
    rewrite pollGenerationStatus_unfold.
    pose proof (poll_timeout backend prolificId (with_attempts 0 w)) as Hp.
    destruct (poll backend prolificId (with_attempts 0 w)) as [[[]|m] w'];
      simpl in *; (destruct Hp as [Hp | (Hp & Ha & Hs)];
        [left; congruence | right; unfold maxAttempts in *; lia]).
  - cbv zeta in IH. rewrite fireTimeouts_S.
    set (wk := fireTimeouts backend k _) in *.
    unfold fireTimeout. destruct (pollTimeout wk) as [pending|] eqn:Ht.
    + destruct IH as [IH|IH]; [done|].
      pose proof (poll_timeout backend pending (with_pollTimeout None wk))
        as Hp.
      destruct (poll backend pending (with_pollTimeout None wk))
        as [[[]|m] w']; simpl in *;
        (destruct Hp as [Hp | (Hp & Ha & Hs)]; [by left | right; lia]).
    + left. exact Ht.
Qed.

(** C4: started with no poll pending, the poller never issues more than
    4 status requests, whatever the backend answers and however many
    timeouts fire, and after the fourth timeout no further poll is ever
    scheduled; when every status request is answered [pending], the first
    poll and the next three timeouts each issue one request and leave the
    page alone, and the fourth timeout, finding 4 attempts made, issues
    nothing, moves to [noImages] and schedules nothing more. *)
Theorem poller_stops_at_max_attempts backend prolificId w :
  pollTimeout w = None →
  (∀ n, statusChecks
          (fireTimeouts backend n
             (exec (pollGenerationStatus backend prolificId) w))
        ≤ statusChecks w + 4)
  ∧ (∀ n, 4 ≤ n →
       pollTimeout
         (fireTimeouts backend n
            (exec (pollGenerationStatus backend prolificId) w))
       = None)
  ∧ (alwaysPending backend prolificId →
     (∀ k, k < 4 →
        let wk := fireTimeouts backend k
                    (exec (pollGenerationStatus backend prolificId) w) in
        statusChecks wk = statusChecks w + S k
        ∧ pollTimeout wk = Some prolificId
        ∧ currentPage (app wk) = currentPage (app w))
     ∧ let w4 := fireTimeouts backend 4
                   (exec (pollGenerationStatus backend prolificId) w) in
       statusChecks w4 = statusChecks w + 4
       ∧ currentPage (app w4) = Page.noImages
       ∧ pollTimeout w4 = None
       ∧ unhandled w4 = unhandled w
       ∧ ∀ n, fireTimeouts backend n w4 = w4).
Proof.
  intros Hnone. split; [|split].
  - intros n.
    pose proof (fireTimeouts_budget backend n
                  (exec (pollGenerationStatus backend prolificId) w)) as H.
    rewrite pollGenerationStatus_budget in H. unfold budget, maxAttempts in H.
    lia.
  - intros n Hn.
    destruct (pending_needs_attempts backend prolificId w n Hnone)
      as [Hdone|Hmore]; [done | unfold maxAttempts in Hmore; lia].
  - intros Hp. split.
    + intros k Hk.
      destruct (pending_chain backend prolificId w k Hp Hk)
        as (_ & Ht & Hs & Happ & _).
      cbv zeta. by rewrite Hs, Ht, Happ.
    + destruct (pending_chain backend prolificId w 3 Hp)
        as (Ha & Ht & Hs & Happ & Hu); [unfold maxAttempts; lia|].
      cbv zeta. rewrite (fireTimeouts_S backend 3).
      set (w3 := fireTimeouts backend 3 _) in *.
      assert (Hw4 : fireTimeout backend w3
                    = with_app (with_currentPage Page.noImages (app w3))
                        (with_pollTimeout None w3)).
      { unfold fireTimeout. rewrite Ht.
        rewrite poll_exhausted; [done|]. simpl. rewrite Ha. done. }
      rewrite Hw4. simpl.
      split; [unfold statusChecks in *; simpl; rewrite Hs; lia|].
      split; [done|]. split; [done|]. split; [done|].
      intros n. unfold fireTimeouts. induction n as [|n IH]; [done|].
      simpl. rewrite IH. done.
Qed.

Lemma poller_stops_at_max_attempts_witness :
  pollTimeout initialWorld = None
  ∧ currentPage
      (app (fireTimeouts Scenario.pendingBackend 4
              (exec (pollGenerationStatus Scenario.pendingBackend "R7X9")
                 initialWorld)))
    = Page.noImages.
Proof.
  assert (H0 : pollTimeout initialWorld = None) by reflexivity.
  split; [exact H0|].
  destruct (poller_stops_at_max_attempts Scenario.pendingBackend "R7X9" initialWorld H0)
    as (_ & _ & Hpending).
  destruct (Hpending (pendingBackend_alwaysPending "R7X9"))
    as (_ & _ & Hpage & _).
  exact Hpage.
Defined.

(** The first poll is awaited inside the [try] of
    [pollGenerationStatus]: its transport failure is caught there and
    routed to [noImages]. *)
Lemma first_poll_failure_caught backend prolificId w :
  backend (sent w) (CheckGenerationStatus prolificId) = NetworkError →
  currentPage (app (exec (pollGenerationStatus backend prolificId) w))
    = Page.noImages
  ∧ unhandled (exec (pollGenerationStatus backend prolificId) w)
    = unhandled w.
Proof.
  intros Hb. unfold exec. rewrite pollGenerationStatus_unfold.
  rewrite poll_network_error; [done | simpl; unfold maxAttempts; lia | done].
Qed.

(** A failure of the image request is caught by the inner [try] of the
    ['ready'] arm, in the first poll and in every later one. *)
Lemma images_failure_caught backend prolificId w :
  backend (sent w) (GetAllImages prolificId) = NetworkError →
  fetchAllImages backend prolificId w
  = (Done (),
     with_app (with_currentPage Page.noImages (app w))
       (with_sent (sent w ++ [GetAllImages prolificId]) w)).
Proof. intros Hb. unfold fetchAllImages. unfold_async. by rewrite Hb. Qed.

(** A poll run by the timeout is awaited by nobody: a transport failure of
    its status request leaves the page where it was, reaches no handler,
    and ends the polling. *)
Lemma later_poll_failure_escapes backend prolificId w :
  pollTimeout w = Some prolificId → attempts w < maxAttempts →
  backend (sent w) (CheckGenerationStatus prolificId) = NetworkError →
  currentPage (app (fireTimeout backend w)) = currentPage (app w)
  ∧ unhandled (fireTimeout backend w) = unhandled w ++ [FETCH_FAILED]
  ∧ pollTimeout (fireTimeout backend w) = None.
Proof.
  intros Ht Ha Hb. unfold fireTimeout. rewrite Ht.
  by rewrite poll_network_error.
Qed.

(** C6 at its failing input: the first status request is answered
    [pending], the request of the second poll fails in transport.  The
    page is still [processing], the rejection reached no handler, no
    timeout is pending, and nothing further ever happens. *)
Lemma second_poll_failure_is_unhandled :
  let w := fireTimeout Scenario.pendingThenUnreachable
             (exec (pollGenerationStatus Scenario.pendingThenUnreachable "R7X9")
                Scenario.processingWorld) in
  currentPage (app w) = Page.processing
  ∧ currentPage (app w) ≠ Page.noImages
  ∧ unhandled w = [FETCH_FAILED]
  ∧ pollTimeout w = None
  ∧ statusChecks w = 2
  ∧ ∀ n, fireTimeouts Scenario.pendingThenUnreachable n w = w.
Proof.
  cbv zeta.
  set (w := fireTimeout _ _).
  assert (Hw : w = with_unhandled [FETCH_FAILED]
                     (with_sent [CheckGenerationStatus "R7X9";
                                 CheckGenerationStatus "R7X9"]
                        (with_attempts 2 Scenario.processingWorld)))
    by (by vm_compute).
  rewrite Hw. repeat split; try done.
  intros n. unfold fireTimeouts. induction n as [|n IH]; [done|].
  simpl. by rewrite IH.
Qed.

End PollerFacts.

Module PromptInputFacts.
Import PromptInput.

Lemma wf_mount now isPractice : wf (mount now isPractice).
Proof.
  split; simpl; [done | | discriminate | discriminate].
  intros _. split; [done|]. split; [done|]. eexists. split; [done|].
  split; [apply TimerFacts.mount_running | done].
Qed.

Lemma handleTimerComplete_spec now s :
  wf s → isTimeUp s = false →
  isTimeUp (handleTimerComplete now s) = true
  ∧ filter (λ p, Is_true (nonblank p)) (prompts (handleTimerComplete now s))
    = prompts (handleTimerComplete now s)
  ∧ selectedPrompt (handleTimerComplete now s) = None
  ∧ prompts (handleTimerComplete now s)
    = filter (λ p, Is_true (nonblank p)) (prompts s)
  ∧ hasSubmitted (handleTimerComplete now s) = false
  ∧ (prompts (handleTimerComplete now s) = [] →
     error (handleTimerComplete now s) = Some NO_PROMPT_NOTICE).
Proof.
  intros Hwf Hrun. destruct (wf_running s Hwf Hrun) as (Hsel & Hsub & _).
  unfold handleTimerComplete. simpl. rewrite (wf_ref s Hwf).
  destruct (decide (length (filter _ (prompts s)) = 0)) as [He|Hne]; simpl.
  - apply length_zero_iff_nil in He. by rewrite He.
  - split; [done|]. split; [by apply list_filter_filter_r|].
    split; [done|]. split; [done|]. split; [done|].
    intros He. by rewrite He in Hne.
Qed.

(** A tick of a running component: before the deadline nothing changes
    but the timer child; at or after the deadline the completion callback
    runs. *)
Lemma onTick_before now s :
  wf s → isTimeUp s = false → (now < deadline s)%Z →
  ∃ t', onTick now s = setTimer (Some t') s
        ∧ Timer.running t' ∧ Timer.endTimeRef t' = deadline s.
Proof.
  intros Hwf Hrun Hnow.
  destruct (wf_running s Hwf Hrun) as (_ & _ & t & Ht & Hr & He).
  destruct (TimerFacts.tick_before now t Hr) as [Hr' He']; [lia|].
  exists (Timer.tick now t). unfold onTick. rewrite Ht.
  destruct Hr as (_ & _ & Hc). destruct Hr' as (Hi' & Hh' & Hc').
  rewrite decide_True by congruence. rewrite Hrun.
  split; [done|]. split; [done|]. congruence.
Qed.

Lemma onTick_reaching now s :
  wf s → isTimeUp s = false → (deadline s ≤ now)%Z →
  onTick now s = setTimer None (handleTimerComplete now s).
Proof.
  intros Hwf Hrun Hnow.
  destruct (wf_running s Hwf Hrun) as (_ & _ & t & Ht & Hr & He).
  destruct (TimerFacts.tick_at_or_after now t Hr) as (_ & _ & Hc'); [lia|].
  destruct Hr as (_ & _ & Hc). unfold onTick. rewrite Ht.
  rewrite decide_False by lia.
  by destruct (handleTimerComplete_spec now s Hwf Hrun) as (-> & _).
Qed.

Lemma step_keeps_deadline ev s : deadline (step ev s).1 = deadline s.
Proof.
  unfold deadline.
  destruct ev as [now|index value|now|index|now]; simpl.
  - destruct (isTimeUp s); [done|]. unfold handleKeyPress.
    by destruct (negb (firstKeypressRecorded s)).
  - destruct (isTimeUp s) eqn:Hup; [done|]. case_decide; [|done].
    unfold handlePromptChange. by rewrite Hup.
  - unfold onTick. destruct (timer s); [|done].
    case_decide; [by destruct (isTimeUp s)|].
    unfold handleTimerComplete. simpl. by case_decide.
  - destruct (isTimeUp s) eqn:Hup; [|done].
    destruct (prompts s !! index); [|done]. simpl.
    unfold handlePromptSelection. by rewrite Hup.
  - destruct (isTimeUp s); [|done]. unfold handleSubmit.
    destruct (hasSubmitted s); [done|]. by destruct (negb _ && _).
Qed.

Lemma wf_step ev s : wf s → wf (step ev s).1.
Proof.
  intros Hwf. destruct ev as [now|index value|now|index|now]; simpl.
  - (* KeyDown *)
    destruct (isTimeUp s) eqn:Hup; [done|]. unfold handleKeyPress.
    destruct (firstKeypressRecorded s); [done|]. simpl.
    destruct Hwf. split; simpl; auto.
  - (* Change *)
    destruct (isTimeUp s) eqn:Hup; [done|].
    destruct (decide (index < length (prompts s))); [|done].
    unfold handlePromptChange. rewrite Hup.
    destruct (wf_running s Hwf Hup) as (Hsel & Hsub & Ht).
    split; simpl; [done | done | rewrite Hup; discriminate
                  | rewrite Hsel; discriminate].
  - (* Tick *)
    destruct (isTimeUp s) eqn:Hup.
    + destruct (wf_frozen s Hwf Hup) as [Hf Hnone].
      unfold onTick. rewrite Hnone. destruct Hwf. split; simpl; auto.
    + destruct (decide (now < deadline s)%Z) as [Hlt|Hge].
      * destruct (onTick_before now s Hwf Hup Hlt) as (t' & -> & Hr' & He').
        destruct (wf_running s Hwf Hup) as (Hsel & Hsub & _).
        split; simpl;
          [done | | rewrite Hup; discriminate | apply (wf_selected s Hwf)].
        intros _. split; [done|]. split; [done|]. by exists t'.
      * rewrite (onTick_reaching now s Hwf Hup) by lia.
        destruct (handleTimerComplete_spec now s Hwf Hup)
          as (Hup' & Hf & Hs & _ & _).
        split; simpl; [done | rewrite Hup'; discriminate | done
                      | rewrite Hs; discriminate].
  - (* Select *)
    destruct (isTimeUp s) eqn:Hup; [|done].
    destruct (prompts s !! index) as [prompt|] eqn:Hp; [|done]. simpl.
    unfold handlePromptSelection. rewrite Hup. simpl.
    destruct Hwf as [Hr Hrun Hf Hs].
    split; simpl; [done | rewrite Hup; discriminate | done |].
    intros p [= <-]. by eapply list_elem_of_lookup_2.
  - (* Continue *)
    destruct (isTimeUp s) eqn:Hup; [|done]. unfold handleSubmit.
    destruct (hasSubmitted s); [done|].
    destruct Hwf as [Hr Hrun Hf Hs].
    destruct (negb _ && _); split; simpl; auto;
      rewrite Hup; discriminate.
Qed.

(** The selection step lets through only admissible submissions. *)
Lemma step_admissible ev s call :
  wf s → (step ev s).2 = Some call →
  admissible call ∧ submittedPrompts call = prompts s
  ∧ isTimeUp s = true.
Proof.
  intros Hwf. destruct ev as [now|index value|now|index|now]; simpl;
    try (repeat case_match; simpl; discriminate).
  destruct (isTimeUp s) eqn:Hup; [|discriminate].
  destruct (wf_frozen s Hwf Hup) as [Hfrozen _].
  unfold handleSubmit. destruct (hasSubmitted s); [discriminate|].
  rewrite (wf_ref s Hwf), Hfrozen.
  destruct (negb _ && _) eqn:Hguard; [discriminate|].
  intros [= <-]. simpl. split; [|done]. unfold admissible. simpl.
  destruct (selectedPrompt s) as [p|] eqn:Hsel.
  - pose proof (wf_selected s Hwf p Hsel) as Hin.
    destruct (prompts s); [by apply elem_of_nil in Hin | by exists p].
  - destruct (prompts s); [done|]. simpl in Hguard. discriminate.
Qed.

Lemma steps_wf evs s :
  wf s → wf (steps evs s).1 ∧ Forall admissible (steps evs s).2.
Proof.
  revert s. induction evs as [|ev evs IH]; intros s Hwf; simpl; [done|].
  pose proof (wf_step ev s Hwf) as Hwf1.
  pose proof (step_admissible ev s) as Hcall.
  destruct (step ev s) as [s1 call]. simpl in *.
  destruct (IH s1 Hwf1) as [Hwf2 Hcalls].
  destruct (steps evs s1) as [s2 calls]. simpl in *.
  split; [done|]. apply Forall_app. split; [|done].
  destruct call as [call|]; simpl; [|done].
  apply Forall_singleton. by apply (Hcall call Hwf).
Qed.

(** Ticks that all read the clock before the deadline leave the time
    running, whatever else the participant does. *)
Lemma steps_before_deadline evs s :
  wf s → isTimeUp s = false →
  Forall (λ ev, ∀ now, ev = Tick now → (now < deadline s)%Z) evs →
  isTimeUp (steps evs s).1 = false.
Proof.
  revert s. induction evs as [|ev evs IH]; intros s Hwf Hrun Hall; [done|].
  apply Forall_cons in Hall as [Hev Hall]. simpl.
  pose proof (wf_step ev s Hwf) as Hwf1.
  pose proof (step_keeps_deadline ev s) as Hd.
  assert (Hrun1 : isTimeUp (step ev s).1 = false).
  { destruct ev as [now|index value|now|index|now]; simpl.
    - rewrite Hrun. unfold handleKeyPress.
      by destruct (negb (firstKeypressRecorded s)).
    - rewrite Hrun. case_decide; [|done]. unfold handlePromptChange.
      by rewrite Hrun.
    - destruct (onTick_before now s Hwf Hrun) as (t' & -> & _); [by apply Hev|].
      done.
    - by rewrite Hrun.
    - by rewrite Hrun. }
  destruct (step ev s) as [s1 call]. simpl in *.
  specialize (IH s1 Hwf1 Hrun1). rewrite Hd in IH. specialize (IH Hall).
  by destruct (steps evs s1).
Qed.

End PromptInputFacts.

Module HandlerFacts.
Import Net MainApp PollerFacts.

Lemma pollerFrame_refl prolificId w : pollerFrame prolificId w w.
Proof.
  split; auto. exists []. by rewrite app_nil_r.
Qed.

Lemma pollerFrame_trans prolificId w1 w2 w3 :
  pollerFrame prolificId w1 w2 → pollerFrame prolificId w2 w3 →
  pollerFrame prolificId w1 w3.
Proof.
  intros [(e1 & Hs1 & Hf1) Hp1 Ht1 Hi1] [(e2 & Hs2 & Hf2) Hp2 Ht2 Hi2].
  split; [| |congruence..].
  - exists (e1 ++ e2). rewrite Hs2, Hs1, <-(assoc_L (++)).
    split; [done|]. by apply Forall_app.
  - destruct Hp2 as [Hp2|[Hp2|Hp2]]; [rewrite Hp2; exact Hp1 | auto..].
Qed.

Ltac frame_by_log extra :=
  split; simpl; auto; exists extra; rewrite ?app_nil_r, <-?(assoc_L (++));
  (split; [reflexivity|]);
  repeat first
    [ apply Forall_nil_2
    | apply Forall_cons; split; [(by left) || (by right)|] ].

Lemma fetchAllImages_frame backend prolificId w :
  ∃ w', fetchAllImages backend prolificId w = (Done (), w')
    ∧ pollerFrame prolificId w w'.
Proof.
  unfold fetchAllImages. unfold_async.
  destruct (backend (sent w) (GetAllImages prolificId))
    as [[] [| |[st [[|image rest]|] dt]]|];
    simpl; eexists; (split; [reflexivity|]);
    frame_by_log [GetAllImages prolificId].
Qed.

Lemma poll_frame backend prolificId w :
  pollerFrame prolificId w (poll backend prolificId w).2.
Proof.
  unfold poll. unfold_async.
  destruct (decide (maxAttempts ≤ attempts w)) as [|_]; simpl.
  { frame_by_log (@nil Request). }
  destruct (backend (sent w) (CheckGenerationStatus prolificId))
    as [ok [| |o]|]; simpl.
  1,2,4: frame_by_log [CheckGenerationStatus prolificId].
  repeat case_decide.
  2-5: frame_by_log [CheckGenerationStatus prolificId].
  match goal with
  | |- context [fetchAllImages ?b ?p ?w0] =>
      destruct (fetchAllImages_frame b p w0) as (w' & -> & Hframe)
  end.
  simpl. eapply pollerFrame_trans; [|exact Hframe].
  frame_by_log [CheckGenerationStatus prolificId].
Qed.

Lemma pollGenerationStatus_frame backend prolificId w :
  ∃ w', pollGenerationStatus backend prolificId w = (Done (), w')
    ∧ pollerFrame prolificId w w'.
Proof.
  rewrite pollGenerationStatus_unfold.
  pose proof (poll_frame backend prolificId (with_attempts 0 w)) as Hframe.
  destruct (poll backend prolificId (with_attempts 0 w)) as [[[]|m] w'];
    simpl in *; eexists; (split; [reflexivity|]).
  - eapply pollerFrame_trans; [|exact Hframe]. frame_by_log (@nil Request).
  - eapply pollerFrame_trans;
      [eapply pollerFrame_trans; [|exact Hframe]|];
      frame_by_log (@nil Request).
Qed.

Lemma pollRequests_no_save_prompt prolificId (l extra : list Request) :
  Forall (pollRequest prolificId) extra →
  filter (λ r, Is_true (isSavePrompt r)) (l ++ extra)
  = filter (λ r, Is_true (isSavePrompt r)) l.
Proof.
  intros Hall. rewrite filter_app.
  assert (He : filter (λ r, Is_true (isSavePrompt r)) extra = []).
  { induction Hall as [|r extra [-> | ->] _ IH]; [done|..];
      rewrite filter_cons; exact IH. }
  by rewrite He, app_nil_r.
Qed.

Lemma handleNextTrial_spec backend render w :
  ∃ w', handleNextTrial backend render w = (Done (), w')
    ∧ (currentTrialIndex render = 0 →
       w' = with_app
              (with_currentPage Page.mainTrialTransition
                 (with_currentTrialIndex 1 (app w))) w)
    ∧ (0 < currentTrialIndex render < 6 →
       w' = with_app
              (with_currentPage Page.betweenTrials
                 (with_currentTrialIndex (currentTrialIndex render + 1)
                    (app w))) w)
    ∧ (6 ≤ currentTrialIndex render →
       pollerFrame (prolificId render)
         (with_app
            (with_currentPage Page.processing
               (with_isLoading true (app w))) w) w').
Proof.
  unfold handleNextTrial.
  destruct (decide (currentTrialIndex render = 0)) as [H0|Hn0].
  { unfold_async. simpl. eexists. split; [done|]. rewrite H0.
    split; [done|]. split; intros; lia. }
  destruct (decide (7 ≤ currentTrialIndex render + 1)) as [Hlast|Hmore].
  - unfold mbind at 1. unfold Async_bind. unfold setIsLoading at 1.
    unfold update at 1. unfold mbind at 1. unfold Async_bind.
    unfold setCurrentPage at 1. unfold update at 1.
    match goal with
    | |- context [pollGenerationStatus ?b ?p ?w0] =>
        destruct (pollGenerationStatus_frame b p w0) as (w' & -> & Hframe)
    end.
    exists w'. split; [done|]. split; [lia|]. split; [lia|]. done.
  - unfold_async. simpl. eexists. split; [done|].
    split; [lia|]. split; [done|]. lia.
Qed.

Lemma handlePromptSubmission_empty backend plan render selected timing w :
  ∃ w1,
    handleNextTrial backend render
      (with_app (with_error None (with_isLoading true (app w))) w)
    = (Done (), w1)
    ∧ exec (handlePromptSubmission backend plan render [] selected timing) w
      = with_app (with_isLoading false (app w1)) w1.
Proof.
  destruct (handleNextTrial_spec backend render
              (with_app (with_error None (with_isLoading true (app w))) w))
    as (w1 & Hnext & _).
  exists w1. split; [done|].
  unfold handlePromptSubmission. simpl.
  unfold exec, try_finally, try_catch.
  unfold mbind at 1. unfold Async_bind. unfold setIsLoading at 1.
  unfold update at 1. unfold mbind at 1. unfold Async_bind.
  unfold setError at 1. unfold update at 1.
  change (handleNextTrial backend render ?x)
    with (handleNextTrial backend render
            (with_app (with_error None (with_isLoading true (app w))) w)).
  by rewrite Hnext.
Qed.

(** A submission with no prompts: no request of its own; the trial
    sequence moves on. *)
Lemma invoke_empty_submission backend plan call w :
  currentPage (app w) = Page.promptInput →
  PromptInput.submittedPrompts call = [] →
  let w' := invoke backend plan (onSubmitPrompts call) w in
  filter (λ r, Is_true (isSavePrompt r)) (sent w')
  = filter (λ r, Is_true (isSavePrompt r)) (sent w)
  ∧ (currentTrialIndex (app w) = 0 →
     currentPage (app w') = Page.mainTrialTransition
     ∧ currentTrialIndex (app w') = 1 ∧ sent w' = sent w)
  ∧ (0 < currentTrialIndex (app w) < 6 →
     currentPage (app w') = Page.betweenTrials
     ∧ currentTrialIndex (app w') = currentTrialIndex (app w) + 1
     ∧ sent w' = sent w)
  ∧ (6 ≤ currentTrialIndex (app w) →
     (currentPage (app w') = Page.processing
      ∨ currentPage (app w') = Page.noImages
      ∨ currentPage (app w') = Page.imageRating)
     ∧ currentTrialIndex (app w') = currentTrialIndex (app w)).
Proof.
  intros Hpage Hempty w'.
  destruct (handlePromptSubmission_empty backend plan (app w)
              (PromptInput.submittedSelection call)
              (PromptInput.submittedTiming call) w) as (w1 & Hnext & Hexec).
  assert (Hw' : w' = with_app (with_isLoading false (app w1)) w1).
  { subst w'. unfold invoke, getPageProps. rewrite Hpage, Hempty.
    exact Hexec. }
  clearbody w'. subst w'.
  destruct (handleNextTrial_spec backend (app w)
              (with_app (with_error None (with_isLoading true (app w))) w))
    as (w1' & Hnext' & H0 & Hmid & Hlast).
  assert (Heq : w1' = w1) by congruence. subst w1'.
  destruct (decide (currentTrialIndex (app w) = 0)) as [Hz|Hnz].
  { rewrite (H0 Hz). simpl. split; [done|]. split; [done|]. split; lia. }
  destruct (decide (currentTrialIndex (app w) < 6)) as [Hlt|Hge].
  { rewrite Hmid by lia. simpl. split; [done|]. split; [lia|].
    split; [done|]. lia. }
  destruct Hlast as [(extra & Hs & Hextra) Hp Ht _]; [lia|]. simpl in *.
  split; [rewrite Hs; by eapply pollRequests_no_save_prompt|].
  split; [lia|]. split; [lia|]. intros _. split; [|done].
  destruct Hp as [-> | [-> | ->]]; auto.
Qed.

(** The survey callback of [getPageProps] takes no argument: whatever
    the responses and the backend, nothing is sent and the page moves
    on. *)
Lemma invoke_survey_submit backend plan responses w :
  currentPage (app w) = Page.aiExperienceSurvey →
  invoke backend plan (onSubmitSurvey responses) w
  = with_app (with_currentPage Page.generalInstructions (app w)) w.
Proof. intros Hpage. unfold invoke, getPageProps. by rewrite Hpage. Qed.

Lemma handleRatingSubmission_posts_batch backend render ratings images
    batch w :
  formatRatings render ratings images = Some batch →
  ∃ rest, sent (exec (handleRatingSubmission backend render ratings images) w)
          = sent w ++ SaveRatings batch :: rest.
Proof.
  intros Hbatch. unfold handleRatingSubmission. rewrite Hbatch. unfold_async.
  simpl.
  destruct (backend (sent w) (SaveRatings batch)) as [[] body|]; simpl.
  - destruct (backend _ (MarkCompletion _)) as [[] body'|]; simpl;
      rewrite <-(assoc_L (++)); by eexists.
  - destruct body as [| |o]; simpl; by eexists.
  - by eexists.
Qed.

Lemma handleRatingSubmission_completion_fails backend render ratings images
    batch body w :
  formatRatings render ratings images = Some batch →
  backend (sent w) (SaveRatings batch) = Response true body →
  failed (backend (sent w ++ [SaveRatings batch])
            (MarkCompletion (prolificId render))) →
  ∃ message,
    exec (handleRatingSubmission backend render ratings images) w
    = with_app (with_isLoading false (with_error (Some message) (app w)))
        (with_sent
           (sent w ++ [SaveRatings batch; MarkCompletion (prolificId render)])
           w).
Proof.
  intros Hbatch Hsave Hfail. unfold handleRatingSubmission.
  rewrite Hbatch. unfold_async. simpl. rewrite Hsave. simpl.
  destruct Hfail as [-> | [body' ->]]; simpl;
    rewrite <-(assoc_L (++)); by eexists.
Qed.

End HandlerFacts.

Module ExperimentFacts.
Import Net MainApp Experiment PromptInput PromptInputFacts.

Lemma steps_keeps_deadline evs s : deadline (steps evs s).1 = deadline s.
Proof.
  revert s. induction evs as [|ev evs IH]; intros s; [done|]. simpl.
  pose proof (step_keeps_deadline ev s) as Hd.
  destruct (step ev s) as [s1 call]. specialize (IH s1).
  destruct (steps evs s1) as [s2 calls]. simpl in *. congruence.
Qed.

(** An event of the input component that makes no [onSubmit] call leaves
    the page machine where it is. *)
Lemma input_without_call backend plan now ev w c c' :
  currentPage (app w) = Page.promptInput →
  PromptInput.step ev c = (c', None) →
  Experiment.step backend plan now (Input ev)
    {| world := w; promptInput := Some c |}
  = {| world := w; promptInput := Some c' |}.
Proof.
  intros Hpage Hstep. unfold Experiment.step. cbn [promptInput world].
  rewrite Hstep. unfold rerender. simpl. by rewrite !decide_True.
Qed.

(** C7: after any events on a mounted input component, a selection is an
    entry of the frozen set and exists only once the time is up; the
    prompts [handleSubmit] validates are the frozen set on screen; every
    submission let through carries a member of its non-empty prompt set,
    or no selection with an empty one; with a non-empty frozen set and
    nothing selected, Continue shows the error, calls nothing and leaves
    the page machine unchanged; with an empty frozen set, Continue submits
    without a selection. *)
Theorem selection_within_frozen_set (now0 : Z) (isPractice : bool)
    (evs : list PromptInput.Event) :
  let s := (steps evs (mount now0 isPractice)).1 in
  let calls := (steps evs (mount now0 isPractice)).2 in
  (∀ p, selectedPrompt s = Some p → isTimeUp s = true ∧ p ∈ prompts s)
  ∧ (isTimeUp s = true →
     filter (λ p, Is_true (nonblank p)) (promptsRef s) = prompts s)
  ∧ Forall admissible calls
  ∧ (∀ now, isTimeUp s = true → hasSubmitted s = false →
       prompts s ≠ [] → selectedPrompt s = None →
       PromptInput.step (Continue now) s
       = (PromptInput.setError (Some SELECT_PROMPT_ERROR) s, None)
       ∧ ∀ backend plan w,
           currentPage (app w) = Page.promptInput →
           Experiment.step backend plan now (Input (Continue now))
             {| world := w; promptInput := Some s |}
           = {| world := w;
                promptInput :=
                  Some (PromptInput.setError (Some SELECT_PROMPT_ERROR) s) |})
  ∧ (∀ now, isTimeUp s = true → hasSubmitted s = false → prompts s = [] →
       ∃ timing,
         PromptInput.step (Continue now) s
         = (setHasSubmitted true s,
            Some {| submittedPrompts := []; submittedSelection := None;
                    submittedTiming := timing |})).
Proof.
  intros s calls.
  destruct (steps_wf evs (mount now0 isPractice) (wf_mount now0 isPractice))
    as [Hwf Hcalls]. fold s in Hwf. fold calls in Hcalls.
  clearbody s calls.
  split; [|split; [|split; [done|split]]].
  - intros p Hsel. split; [|by apply (wf_selected s Hwf)].
    destruct (isTimeUp s) eqn:Hup; [done|].
    destruct (wf_running s Hwf Hup) as (Hnone & _). congruence.
  - intros Hup. rewrite (wf_ref s Hwf). by apply (wf_frozen s Hwf).
  - intros now Hup Hsub Hne Hsel.
    assert (Hstep : PromptInput.step (Continue now) s
                    = (PromptInput.setError (Some SELECT_PROMPT_ERROR) s,
                       None)).
    { simpl. rewrite Hup. unfold handleSubmit. rewrite Hsub, Hsel.
      rewrite (wf_ref s Hwf), (proj1 (wf_frozen s Hwf Hup)).
      destruct (prompts s); [done|]. simpl. done. }
    split; [done|]. intros backend plan w Hpage.
    by apply input_without_call.
  - intros now Hup Hsub Hempty. eexists. simpl. rewrite Hup.
    unfold handleSubmit. rewrite Hsub, (wf_ref s Hwf), Hempty. simpl.
    destruct (selectedPrompt s) as [p|] eqn:Hsel; [|by rewrite andb_false_r].
    pose proof (wf_selected s Hwf p Hsel) as Hin. rewrite Hempty in Hin.
    by apply elem_of_nil in Hin.
Qed.

(** The end-to-end scenario of the practice trial with a healthy backend:
    the blank third entry is filtered out, the payload carries the two
    prompts, the selection and [isPractice], and the page moves to the
    main-task transition at trial 1. *)
Example practice_trial_end_to_end :
  let ui := Experiment.run Scenario.healthy Scenario.plan
              (Scenario.toPractice ++ Scenario.practiceTrial) initialUI in
  (∃ submission,
     sent (world ui) = [SavePrompt submission]
     ∧ Submission.prompts submission
       = ["a quiet forest"; "a neon city at night"]
     ∧ Submission.selectedPrompt submission = Some "a neon city at night"
     ∧ Submission.isPractice submission = true
     ∧ Submission.theme submission = Some PRACTICE_THEME)
  ∧ currentPage (app (world ui)) = Page.mainTrialTransition
  ∧ currentTrialIndex (app (world ui)) = 1
  ∧ promptInput ui = None.
Proof.
  cbv zeta. split; [eexists; by vm_compute|]. by vm_compute.
Qed.

(** Entering the input page from an instruction page mounts the input
    component, as practice exactly on trial 0. *)
Lemma entering_input_page_mounts backend plan now w :
  currentPage (app w) = Page.practiceInstructions
  ∨ currentPage (app w) = Page.betweenTrials
  ∨ currentPage (app w) = Page.mainTrialTransition →
  Experiment.step backend plan now (Invoke onContinue)
    {| world := w; promptInput := None |}
  = {| world := with_app (with_currentPage Page.promptInput (app w)) w;
       promptInput :=
         Some (mount now (bool_decide (currentTrialIndex (app w) = 0))) |}.
Proof.
  intros Hpage. unfold Experiment.step, rerender, invoke, getPageProps.
  simpl. by destruct Hpage as [-> | [-> | ->]].
Qed.

(** C9: the countdown of an input phase is [PRACTICE_TIME = 10] seconds
    on trial 0 and [TRIAL_TIME = 12] seconds on every other trial: the
    timer child is mounted with that duration, the time is not up while
    every tick reads the clock before that many seconds have passed, and
    it is up with the first tick at or after them; the instruction
    screens announce 30 seconds and 2 minutes. *)
Theorem countdown_shorter_than_announced (now0 : Z) (trialIndex : nat)
    (evs : list PromptInput.Event) :
  let isPractice := bool_decide (trialIndex = 0) in
  let seconds := if isPractice then 10%Z else 12%Z in
  let s := (steps evs (mount now0 isPractice)).1 in
  TRIAL_TIME = 12%Z ∧ PRACTICE_TIME = 10%Z
  ∧ currentTime isPractice = seconds
  ∧ timer (mount now0 isPractice) = Some (Timer.mount now0 seconds)
  ∧ (Forall (λ ev, ∀ now, ev = Tick now → (now < now0 + seconds * 1000)%Z)
       evs →
     isTimeUp s = false)
  ∧ (isTimeUp s = false →
     ∀ now, (now0 + seconds * 1000 ≤ now)%Z →
       isTimeUp (PromptInput.step (Tick now) s).1 = true)
  ∧ Instructions.mentions Instructions.GENERAL_MAIN_LINE "2 minutes" = true
  ∧ (∀ c, Instructions.mentions (Instructions.condition_line c) "2 minutes"
          = true)
  ∧ Instructions.mentions Instructions.GENERAL_PRACTICE_LINE "30s" = true
  ∧ Instructions.mentions Instructions.PRACTICE_LINE "30 seconds" = true
  ∧ seconds ≠ (if isPractice then Instructions.ANNOUNCED_PRACTICE
               else Instructions.ANNOUNCED_MAIN).
Proof.
  intros isPractice seconds s.
  assert (Hsec : currentTime isPractice = seconds)
    by (subst seconds; by destruct isPractice).
  assert (Hdl : deadline (mount now0 isPractice)
                = (now0 + seconds * 1000)%Z)
    by (unfold deadline; simpl; by rewrite Hsec).
  pose proof (wf_mount now0 isPractice) as Hwf0.
  destruct (steps_wf evs _ Hwf0) as [Hwf _]. fold s in Hwf.
  pose proof (steps_keeps_deadline evs (mount now0 isPractice)) as Hd.
  fold s in Hd. rewrite Hdl in Hd.
  split; [done|]. split; [done|]. split; [done|].
  split; [by simpl; rewrite Hsec|]. split; [|split].
  - intros Hall. apply steps_before_deadline; [done | done |].
    by rewrite Hdl.
  - intros Hrun now Hnow. simpl.
    rewrite (onTick_reaching now s Hwf Hrun) by lia.
    by destruct (handleTimerComplete_spec now s Hwf Hrun) as (Hup & _).
  - split; [done|]. split; [by intros []|]. split; [done|]. split; [done|].
    subst seconds. by destruct isPractice.
Qed.

(** The countdown ends with nothing but blank entries: the component
    freezes an empty set and shows the participation notice. *)
Lemma timeout_with_nothing_typed now c :
  wf c → isTimeUp c = false →
  filter (λ p, Is_true (nonblank p)) (prompts c) = [] →
  (deadline c ≤ now)%Z →
  ∃ c1, PromptInput.step (Tick now) c = (c1, None)
    ∧ isTimeUp c1 = true ∧ prompts c1 = [] ∧ promptsRef c1 = []
    ∧ PromptInput.error c1 = Some NO_PROMPT_NOTICE
    ∧ hasSubmitted c1 = false ∧ selectedPrompt c1 = None.
Proof.
  intros Hwf Hrun Hblank Hnow. eexists. split; [reflexivity|].
  rewrite (onTick_reaching now c Hwf Hrun Hnow).
  destruct (handleTimerComplete_spec now c Hwf Hrun)
    as (Hup & _ & Hsel & Hp & Hsub & Herr).
  rewrite Hblank in Hp. simpl. rewrite Hup, Hp, Hsel, Hsub.
  repeat split; try done. by apply Herr.
Qed.

(** C2 as the code has it: when the countdown of an input phase ends with
    nothing typed, the component freezes an empty set and shows the
    participation notice; Continue then moves the trial sequence on (to
    the main-task transition after the practice trial, to the next
    between-trials page after main trials 1-5, to processing and the
    poller after trial 6) and the input component is gone; no save-prompt
    request is added to the log, and before trial 6 no request at all. *)
Theorem empty_outcome_advances_unrecorded backend plan (now1 now2 : Z) w c :
  currentPage (app w) = Page.promptInput →
  wf c → isTimeUp c = false →
  filter (λ p, Is_true (nonblank p)) (prompts c) = [] →
  (deadline c ≤ now1)%Z →
  let ui1 := Experiment.step backend plan now1 (Input (Tick now1))
               {| world := w; promptInput := Some c |} in
  let ui2 := Experiment.step backend plan now2 (Input (Continue now2)) ui1 in
  (world ui1 = w
   ∧ ∃ c1, promptInput ui1 = Some c1 ∧ isTimeUp c1 = true ∧ prompts c1 = []
       ∧ PromptInput.error c1 = Some NO_PROMPT_NOTICE)
  ∧ filter (λ r, Is_true (isSavePrompt r)) (sent (world ui2))
    = filter (λ r, Is_true (isSavePrompt r)) (sent w)
  ∧ promptInput ui2 = None
  ∧ (currentTrialIndex (app w) = 0 →
     currentPage (app (world ui2)) = Page.mainTrialTransition
     ∧ currentTrialIndex (app (world ui2)) = 1 ∧ sent (world ui2) = sent w)
  ∧ (0 < currentTrialIndex (app w) < 6 →
     currentPage (app (world ui2)) = Page.betweenTrials
     ∧ currentTrialIndex (app (world ui2)) = currentTrialIndex (app w) + 1
     ∧ sent (world ui2) = sent w)
  ∧ (6 ≤ currentTrialIndex (app w) →
     currentPage (app (world ui2)) = Page.processing
     ∨ currentPage (app (world ui2)) = Page.noImages
     ∨ currentPage (app (world ui2)) = Page.imageRating).
Proof.
  intros Hpage Hwf Hrun Hblank Hnow ui1 ui2.
  destruct (timeout_with_nothing_typed now1 c Hwf Hrun Hblank Hnow)
    as (c1 & Hstep1 & Hup & Hp & Href & Herr & Hsub & Hsel).
  assert (Hui1 : ui1 = {| world := w; promptInput := Some c1 |})
    by (by apply input_without_call).
  clearbody ui1. subst ui1.
  set (call := {| submittedPrompts := [];
                  submittedSelection := None;
                  submittedTiming :=
                    {| firstKeypressLatency :=
                         (λ t, t - responseStartRef c1)%Z
                           <$> firstKeypressTime c1;
                       totalResponseTime :=
                         Some (now2 - responseStartRef c1)%Z;
                       selectionPhaseStart := selectionStartTimeRef c1;
                       selectionPhaseDuration :=
                         (λ t, now2 - t)%Z <$> selectionStartTimeRef c1 |} |}).
  assert (Hstep2 : PromptInput.step (Continue now2) c1
                   = (setHasSubmitted true c1, Some call)).
  { simpl. rewrite Hup. unfold handleSubmit.
    by rewrite Hsub, Href, Hsel, Hup. }
  pose proof (HandlerFacts.invoke_empty_submission backend plan call w
                Hpage eq_refl) as Hinv.
  set (w2 := invoke backend plan (onSubmitPrompts call) w) in *.
  assert (Hui2 : ui2 = rerender now2 {| world := w; promptInput := Some c1 |}
                         w2 (Some (setHasSubmitted true c1))).
  { subst ui2. unfold Experiment.step. cbn [promptInput world].
    by rewrite Hstep2. }
  clearbody ui2 w2. subst ui2. cbv zeta in Hinv.
  destruct Hinv as (Hlog & H0 & Hmid & Hlast).
  split; [split; [done|by exists c1]|]. simpl.
  split; [done|].
  assert (Hleft : currentPage (app w2) ≠ Page.promptInput).
  { destruct (decide (currentTrialIndex (app w) = 0)) as [Hz|Hnz];
      [destruct (H0 Hz) as (-> & _); done|].
    destruct (decide (currentTrialIndex (app w) < 6)) as [Hlt|Hge];
      [destruct Hmid as (-> & _); [lia | done]|].
    destruct Hlast as [[-> | [-> | ->]] _]; [lia | done..]. }
  split; [by rewrite decide_False|].
  split; [done|]. split; [done|]. intros Hge. by apply Hlast.
Qed.

Lemma empty_outcome_advances_unrecorded_witness :
  currentPage (app Scenario.practiceWorld) = Page.promptInput
  ∧ wf (mount 0 true)
  ∧ isTimeUp (mount 0 true) = false
  ∧ filter (λ p, Is_true (nonblank p)) (prompts (mount 0 true)) = []
  ∧ (deadline (mount 0 true) ≤ 10000)%Z
  ∧ sent (world
            (Experiment.step Scenario.healthy Scenario.plan 11000
               (Input (Continue 11000))
               (Experiment.step Scenario.healthy Scenario.plan 10000
                  (Input (Tick 10000))
                  {| world := Scenario.practiceWorld;
                     promptInput := Some (mount 0 true) |})))
    = sent Scenario.practiceWorld.
Proof.
  assert (Hpage : currentPage (app Scenario.practiceWorld) = Page.promptInput)
    by reflexivity.
  assert (Hrun : isTimeUp (mount 0 true) = false) by reflexivity.
  assert (Hblank : filter (λ p, Is_true (nonblank p)) (prompts (mount 0 true))
                   = []) by reflexivity.
  assert (Hnow : (deadline (mount 0 true) ≤ 10000)%Z)
    by (vm_compute; discriminate).
  split; [exact Hpage|]. split; [exact (wf_mount 0 true)|].
  split; [exact Hrun|]. split; [exact Hblank|]. split; [exact Hnow|].
  destruct (empty_outcome_advances_unrecorded Scenario.healthy Scenario.plan
              10000 11000 Scenario.practiceWorld (mount 0 true)
              Hpage (wf_mount 0 true) Hrun Hblank Hnow)
    as (_ & _ & _ & Hpractice & _).
  destruct (Hpractice eq_refl) as (_ & _ & Hsent). exact Hsent.
Defined.

(** C2 as stated fails: a practice trial in which nothing is typed ends
    with the machine on the main-task transition at trial 1, and not one
    request has been sent to the backend. *)
Lemma empty_outcome_is_not_persisted :
  let ui := Experiment.run Scenario.healthy Scenario.plan
              (Scenario.toPractice ++ Scenario.idleTrial) initialUI in
  currentPage (app (world ui)) = Page.mainTrialTransition
  ∧ currentTrialIndex (app (world ui)) = 1
  ∧ sent (world ui) = [].
Proof. by vm_compute. Qed.

(** Once a submission has been handed to [onSubmit], Continue does
    nothing for as long as the component stays mounted: [hasSubmitted] is
    never reset. *)
Lemma continue_after_submission_is_dead backend plan now w c :
  currentPage (app w) = Page.promptInput →
  hasSubmitted c = true →
  Experiment.step backend plan now (Input (Continue now))
    {| world := w; promptInput := Some c |}
  = {| world := w; promptInput := Some c |}.
Proof.
  intros Hpage Hsub. apply input_without_call; [done|]. simpl.
  unfold handleSubmit. rewrite Hsub. by destruct (isTimeUp c).
Qed.

(** C3 at its failing input: the practice trial of the end-to-end
    scenario is submitted and the backend answers non-2xx.  The page stays
    on the input phase with the error set, the prompts and the selection
    are retained, and one save-prompt request was sent; pressing Continue
    again, with the backend healthy, changes nothing and sends nothing. *)
Lemma failed_submission_cannot_be_retried :
  let ui1 := Experiment.run Scenario.rejecting Scenario.plan
               (Scenario.toPractice ++ Scenario.practiceTrial) initialUI in
  let ui2 := Experiment.step Scenario.healthy Scenario.plan 12000
               (Input (Continue 12000)) ui1 in
  currentPage (app (world ui1)) = Page.promptInput
  ∧ MainApp.error (app (world ui1)) = Some "Failed to save prompt"
  ∧ length (sent (world ui1)) = 1
  ∧ (∃ c, promptInput ui1 = Some c
       ∧ prompts c = ["a quiet forest"; "a neon city at night"]
       ∧ selectedPrompt c = Some "a neon city at night"
       ∧ hasSubmitted c = true)
  ∧ ui2 = ui1.
Proof.
  cbv zeta. split; [by vm_compute|]. split; [by vm_compute|].
  split; [by vm_compute|]. split; [eexists; by vm_compute|]. by vm_compute.
Qed.

(** The same with a transport failure in place of the non-2xx answer. *)
Lemma unreachable_submission_cannot_be_retried :
  let ui1 := Experiment.run Scenario.unreachable Scenario.plan
               (Scenario.toPractice ++ Scenario.practiceTrial) initialUI in
  currentPage (app (world ui1)) = Page.promptInput
  ∧ MainApp.error (app (world ui1)) = Some FETCH_FAILED
  ∧ Experiment.step Scenario.healthy Scenario.plan 12000
      (Input (Continue 12000)) ui1 = ui1.
Proof.
  cbv zeta. split; [by vm_compute|]. split; by vm_compute.
Qed.

(** In App.js a valid survey moves the page on and sends nothing, whatever
    the backend would answer. *)
Lemma survey_submit_sends_nothing backend plan responses w :
  currentPage (app w) = Page.aiExperienceSurvey →
  AiExperienceSurvey_handleSubmit responses = inr responses →
  submitSurvey backend plan responses w
  = with_app (with_currentPage Page.generalInstructions (app w)) w.
Proof.
  intros Hpage Hvalid. unfold submitSurvey. rewrite Hvalid.
  by apply HandlerFacts.invoke_survey_submit.
Qed.

(** C1 at its failing input: a complete survey is submitted while the
    backend is unreachable.  The page has advanced to the general
    instructions, no request was sent and no error is set. *)
Lemma survey_responses_are_dropped :
  let w := submitSurvey Scenario.unreachable Scenario.plan Scenario.responses
             Scenario.surveyWorld in
  AiExperienceSurvey_handleSubmit Scenario.responses = inr Scenario.responses
  ∧ currentPage (app w) = Page.generalInstructions
  ∧ sent w = []
  ∧ MainApp.error (app w) = None.
Proof. by vm_compute. Qed.

(** The earlier variant does what C1 says: the survey is posted, and the
    page moves on exactly when the save succeeded. *)
Lemma legacy_survey_is_saved_first backend responses s log :
  let r := Legacy.handleAiExperienceSurveySubmit backend responses (s, log) in
  (∃ surveyData, r.2 = log ++ [SaveSurvey surveyData]
     ∧ ((∃ body, backend log (SaveSurvey surveyData) = Response true body
                 ∧ body ≠ BInvalid)
        ∧ Legacy.currentPage r.1 = Page.consent
        ∧ Legacy.error r.1 = None
        ∧ Legacy.surveyResponses r.1 = Some responses
        ∨ Legacy.currentPage r.1 = Legacy.currentPage s
          ∧ is_Some (Legacy.error r.1)
          ∧ Legacy.surveyResponses r.1 = Legacy.surveyResponses s)).
Proof.
  cbv zeta. unfold Legacy.handleAiExperienceSurveySubmit. eexists.
  destruct (backend log _) as [[] [| |o]|] eqn:Hb; simpl;
    (split; [reflexivity|]);
    first [ right; split; [done|]; split; [by eexists|done]
          | left; split; [by eexists|done] ].
Qed.

(** C10: on the rating screen, with complete ratings, when the backend
    accepts the ratings and the completion mark then fails (non-2xx or
    transport failure), the page is still the rating screen with an error
    set, both requests are in the log, and pressing Submit again posts the
    whole batch a second time. *)
Theorem ratings_reposted_after_completion_failure backend plan w ratings
    images batch body :
  currentPage (app w) = Page.imageRating →
  ImageRatingInterface_handleSubmit ratings images = inr (ratings, images) →
  formatRatings (app w) ratings images = Some batch →
  backend (sent w) (SaveRatings batch) = Response true body →
  failed
    (backend (sent w ++ [SaveRatings batch])
       (MarkCompletion (prolificId (app w)))) →
  let w1 := submitAllRatings backend plan ratings images w in
  let w2 := submitAllRatings backend plan ratings images w1 in
  currentPage (app w1) = Page.imageRating
  ∧ is_Some (MainApp.error (app w1))
  ∧ sent w1
    = sent w ++ [SaveRatings batch; MarkCompletion (prolificId (app w))]
  ∧ ∃ rest,
      sent w2
      = sent w
        ++ [SaveRatings batch; MarkCompletion (prolificId (app w));
            SaveRatings batch]
        ++ rest.
Proof.
  intros Hpage Hvalid Hbatch Hsave Hfail w1 w2.
  destruct (HandlerFacts.handleRatingSubmission_completion_fails backend
              (app w) ratings images batch body w Hbatch Hsave Hfail)
    as (message & Hexec).
  assert (Hw1 : w1 = with_app
                       (with_isLoading false
                          (with_error (Some message) (app w)))
                       (with_sent
                          (sent w ++ [SaveRatings batch;
                                      MarkCompletion (prolificId (app w))])
                          w)).
  { subst w1. unfold submitAllRatings. rewrite Hvalid.
    unfold invoke, getPageProps. by rewrite Hpage. }
  clearbody w1. subst w1.
  split; [done|]. split; [by eexists|]. split; [done|].
  subst w2. unfold submitAllRatings. rewrite Hvalid.
  unfold invoke, getPageProps. cbn [app currentPage with_app with_isLoading
    with_error]. rewrite Hpage.
  match goal with
  | |- context [exec (handleRatingSubmission ?b ?r ?rs ?ims) ?w0] =>
      destruct (HandlerFacts.handleRatingSubmission_posts_batch b r rs ims
                  batch w0) as (rest & ->); [exact Hbatch|]
  end.
  exists rest. simpl. by rewrite <-(assoc_L (++)).
Qed.

Lemma ratings_reposted_after_completion_failure_witness :
  currentPage (app Scenario.ratingWorld) = Page.imageRating
  ∧ length
      (filter (λ r, Is_true (isSaveRatings r))
         (sent (submitAllRatings Scenario.completionDown Scenario.plan
                  [Scenario.rating] [Scenario.image]
                  (submitAllRatings Scenario.completionDown Scenario.plan
                     [Scenario.rating] [Scenario.image]
                     Scenario.ratingWorld))))
    = 2.
Proof.
  assert (Hpage : currentPage (app Scenario.ratingWorld) = Page.imageRating)
    by reflexivity.
  split; [exact Hpage|].
  destruct (ratings_reposted_after_completion_failure
              Scenario.completionDown Scenario.plan Scenario.ratingWorld
              [Scenario.rating] [Scenario.image]
              [ {| FormattedRating.prolificId := "R7X9";
                   FormattedRating.trialIndex := 1;
                   FormattedRating.creativityRating := Some 3%Z;
                   FormattedRating.intentionRating := Some 4%Z;
                   FormattedRating.theme := "TIME";
                   FormattedRating.condition := "BE_FLUENT";
                   FormattedRating.prompt := "a clock melting" |} ]
              BNull Hpage eq_refl eq_refl eq_refl
              (or_intror (ex_intro _ BNull eq_refl)))
    as (_ & _ & _ & rest & Hsent).
  by vm_compute.
Defined.

End ExperimentFacts.

(** ** Further properties of the planner *)

Module PlannerExtras.
Import Planner PlannerFacts.



Lemma swap_length_eq {A} (a a' : list A) i j :
  swap a i j = Some a' → length a' = length a.
Proof.
  unfold swap. destruct (a !! j), (a !! i); [|done..].
  intros [= <-]. by rewrite !length_insert.
Qed.




(** X1: for every array and every stream of draws in the unit interval,
    [shuffleArray] returns an array of the same length holding the same
    elements with the same multiplicities. *)
Theorem shuffleArray_permutes_any_array {A} (rng : nat → Z) (k : nat)
    (array : list A) :
  (∀ n, valid_draw (rng n)) →
  ∃ shuffled, shuffleArray rng k array = Some shuffled
    ∧ shuffled ≡ₚ array
    ∧ length shuffled = length array
    ∧ ∀ x, x ∈ shuffled ↔ x ∈ array.
Proof.
  intros Hrng.
  destruct (shuffleArray_perm rng k array Hrng) as (shuffled & Hs & Hp).
  exists shuffled. split; [done|]. split; [done|].
  split; [by rewrite Hp|]. intros x. by rewrite Hp.
Qed.

Lemma shuffleArray_permutes_any_array_witness :
  (∀ n, valid_draw (Scenario.draws n))
  ∧ ∃ shuffled, shuffleArray Scenario.draws 0 [1; 2; 3; 4] = Some shuffled
      ∧ length shuffled = 4.
Proof.
  assert (H : ∀ n, valid_draw (Scenario.draws n)).
  { intros n. unfold valid_draw, RANDOM_DEN, Scenario.draws.
    pose proof (Nat.mod_upper_bound n 4). lia. }
  split; [exact H|].
  destruct (shuffleArray_permutes_any_array Scenario.draws 0 [1; 2; 3; 4] H)
    as (shuffled & Hs & _ & Hl & _).
  exists shuffled. split; [exact Hs | exact Hl].
Defined.



Lemma PRACTICE_THEME_not_in_pool : PRACTICE_THEME ∉ TRIAL_THEMES.
Proof.
  by apply (bool_decide_unpack (PRACTICE_THEME ∉ TRIAL_THEMES)); vm_compute.
Qed.

(** X3: in a session created from draws in the unit interval,
    [getCurrentTrial] is defined exactly for the trial indices 0 to 6 (at
    any higher index reading the condition throws), every defined trial
    has a theme, and no theme is used by two trials of the session, the
    practice trial included. *)
Theorem trials_defined_up_to_six_with_distinct_themes (rng : nat → Z)
    (p : Plan) :
  (∀ n, valid_draw (rng n)) →
  createPlan rng = Some p →
  (∀ i, is_Some (getCurrentTrial p i) ↔ i ≤ 6)
  ∧ (∀ i, i ≤ 6 →
       ∃ theme condition,
         getCurrentTrial p i = Some (Some theme, condition)
         ∧ trialThemes p !! i = Some theme)
  ∧ NoDup (trialThemes p)
  ∧ (∀ i j theme,
       trialThemes p !! i = Some theme → trialThemes p !! j = Some theme →
       i = j).
Proof.
  intros Hrng Hplan.
  destruct (shuffleArray_perm rng 1 TRIAL_THEMES Hrng) as (themes & Hs & Hp).
  assert (Hlen : length themes = 6) by (by rewrite Hp).
  destruct (initConditions_blocks (rng 0)) as (a & b & _ & Hseq & _).
  unfold createPlan, initTrialThemes in Hplan. rewrite Hs in Hplan.
  injection Hplan as <-.
  assert (Hnd : NoDup (PRACTICE_THEME :: themes)).
  { apply NoDup_cons. split.
    - rewrite Hp. apply PRACTICE_THEME_not_in_pool.
    - rewrite Hp. apply TRIAL_THEMES_NoDup. }
  assert (Hdef : ∀ i, i ≤ 6 →
            ∃ theme condition,
              getCurrentTrial
                {| conditions := initConditions (rng 0);
                   trialThemes := PRACTICE_THEME :: themes |} i
              = Some (Some theme, condition)
              ∧ (PRACTICE_THEME :: themes) !! i = Some theme).
  { intros i Hi. unfold getCurrentTrial. cbn [conditions trialThemes].
    destruct i as [|i]; [by eexists _, _|].
    rewrite decide_False by lia. rewrite Hseq.
    destruct (lookup_lt_is_Some_2 themes i) as [theme Ht]; [lia|].
    destruct (lookup_lt_is_Some_2 (replicate 3 a ++ replicate 3 b) i)
      as [c Hc]; [simpl; lia|].
    exists theme, (condition_id c). simpl. rewrite Nat.sub_0_r.
    simpl in Hc. rewrite Hc. simpl. by rewrite Ht. }
  cbn [trialThemes]. split; [|split; [done|split; [done|]]].
  - intros i. split.
    + intros [t Ht]. destruct (decide (i ≤ 6)) as [|Hgt]; [done|].
      unfold getCurrentTrial in Ht. cbn [conditions trialThemes] in Ht.
      rewrite decide_False in Ht by lia. rewrite Hseq in Ht.
      rewrite (lookup_ge_None_2 _ (i - 1)) in Ht by (simpl; lia). done.
    + intros Hi. destruct (Hdef i Hi) as (theme & c & -> & _). by eexists.
  - intros i j theme Hi Hj. by eapply NoDup_lookup.
Qed.

Lemma trials_defined_up_to_six_with_distinct_themes_witness :
  (∀ n, valid_draw (Scenario.draws n))
  ∧ createPlan Scenario.draws = Some Scenario.plan
  ∧ ¬ is_Some (getCurrentTrial Scenario.plan 7).
Proof.
  assert (H : ∀ n, valid_draw (Scenario.draws n)).
  { intros n. unfold valid_draw, RANDOM_DEN, Scenario.draws.
    pose proof (Nat.mod_upper_bound n 4). lia. }
  assert (Hp : createPlan Scenario.draws = Some Scenario.plan)
    by (by vm_compute).
  split; [exact H|]. split; [exact Hp|].
  destruct (trials_defined_up_to_six_with_distinct_themes Scenario.draws
              Scenario.plan H Hp) as (Hdef & _).
  intros Hsome. apply Hdef in Hsome. lia.
Defined.

End PlannerExtras.

(** ** Further properties of the countdown timer *)

Module TimerExtras.
Import Timer TimerFacts.

Lemma run_snoc nows now t : run (nows ++ [now]) t = tick now (run nows t).
Proof. unfold run. by rewrite foldl_app. Qed.

Lemma tick_endTimeRef now t : endTimeRef (tick now t) = endTimeRef t.
Proof.
  unfold tick. destruct (timerInterval t); [|done].
  by destruct (bool_decide _).
Qed.

Lemma run_endTimeRef nows t : endTimeRef (run nows t) = endTimeRef t.
Proof.
  induction nows as [|now nows IH] using rev_ind; [done|].
  by rewrite run_snoc, tick_endTimeRef.
Qed.

Lemma running_not_finished t : running t → finished t → False.
Proof. intros (Hi & _) (Hi' & _). congruence. Qed.

Lemma run_finished_inv nows t :
  running t → finished (run nows t) →
  Exists (λ now, endTimeRef t ≤ now)%Z nows.
Proof.
  intros Hr Hf.
  destruct (decide (Exists (λ now, endTimeRef t ≤ now)%Z nows)) as [|Hn];
    [done|].
  apply not_Exists_Forall in Hn; [|intros x; apply _].
  exfalso. apply (running_not_finished (run nows t)); [|done].
  apply run_before; [done|]. eapply Forall_impl; [exact Hn|]. simpl. lia.
Qed.


(** X4: cancelling a timer (the cleanup of its mount effect) stops it for
    good: whatever ticks were handled before and whatever ticks arrive
    after, the number of completion calls is what it was at the moment of
    the cancellation; cancelled before any tick reached the deadline, the
    timer never calls completion. *)
Theorem unmount_cancels_completion (now0 d : Z) (before after : list Z) :
  completions (run after (unmount (run before (mount now0 d))))
  = completions (run before (mount now0 d))
  ∧ (Forall (λ now, now < now0 + d * 1000)%Z before →
     completions (run after (unmount (run before (mount now0 d)))) = 0).
Proof.
  rewrite unmount_silences. split; [done|]. intros Hall. simpl.
  by apply (run_before before (mount now0 d) (mount_running now0 d)).
Qed.



Lemma tick_isWarning now t :
  isWarning (tick now t) = true
  ↔ isWarning t = true
    ∨ timerInterval t = true ∧ (endTimeRef t - 1000 * WARNING_TIME ≤ now)%Z.
Proof.
  assert (Hrem : (ceil_div (endTimeRef t - now) 1000 ≤ WARNING_TIME
                  ↔ endTimeRef t - 1000 * WARNING_TIME ≤ now)%Z).
  { unfold ceil_div, WARNING_TIME. split; intros H.
    - destruct (decide (endTimeRef t - 1000 * 30 ≤ now)%Z) as [|Hn]; [done|].
      assert (- (endTimeRef t - now) / 1000 < - 30)%Z
        by (apply Z.div_lt_upper_bound; lia). lia.
    - assert (- 30 ≤ - (endTimeRef t - now) / 1000)%Z
        by (apply Z.div_le_lower_bound; lia). lia. }
  unfold tick. destruct (timerInterval t) eqn:Hi.
  2: { split; [by left | by intros [H|[? _]]]. }
  destruct (decide (ceil_div (endTimeRef t - now) 1000 ≤ WARNING_TIME)%Z)
    as [Hw|Hw].
  - rewrite (bool_decide_eq_true_2 _ Hw).
    destruct (bool_decide (_ ≤ 0)%Z); simpl;
      (split; [intros _; right; split; [done | by apply Hrem] | done]).
  - rewrite (bool_decide_eq_false_2 _ Hw).
    destruct (bool_decide (_ ≤ 0)%Z); simpl;
      (split; [by left | intros [H|[_ H]]; [done | by apply Hrem in H]]).
Qed.

(** X6: the warning style is switched on by the first tick that reads the
    clock within [WARNING_TIME] = 30 seconds of the deadline and stays
    on; so a timer of at most 30 seconds, as every input phase uses, shows
    the warning from its first tick on. *)
Theorem warning_within_thirty_seconds_of_deadline (now0 d : Z)
    (nows : list Z) :
  (isWarning (run nows (mount now0 d)) = true
   ↔ Exists (λ now, now0 + d * 1000 - 30000 ≤ now)%Z nows)
  ∧ ((d ≤ 30)%Z → nows ≠ [] → Forall (λ now, now0 ≤ now)%Z nows →
     isWarning (run nows (mount now0 d)) = true).
Proof.
  assert (Hiff : isWarning (run nows (mount now0 d)) = true
                 ↔ Exists (λ now, now0 + d * 1000 - 30000 ≤ now)%Z nows).
  { pose proof (mount_running now0 d) as Hr.
    induction nows as [|now nows IH] using rev_ind.
    { simpl. split; [done|]. intros H. by apply Exists_nil in H. }
    rewrite run_snoc, tick_isWarning, IH, Exists_app, Exists_cons, Exists_nil.
    rewrite run_endTimeRef. simpl. unfold WARNING_TIME.
    split.
    - intros [H|[_ H]]; [by left | right; left; lia].
    - intros [H|[H|[]]]; [by left|].
      destruct (run_at_most_once nows _ Hr) as [(Hi & _)|Hfin].
      + right. split; [done | lia].
      + left. apply (run_finished_inv nows _ Hr) in Hfin.
        eapply Exists_impl; [exact Hfin|]. simpl. lia. }
  split; [done|]. intros Hd Hne Hall. apply Hiff.
  destruct nows as [|now nows]; [done|]. apply Exists_cons_hd.
  apply Forall_cons in Hall as [Hnow _]. lia.
Qed.

End TimerExtras.

(** ** Further properties of the prompt input component *)

Module PromptInputExtras.
Import PromptInput PromptInputFacts.

Lemma steps_app evs1 evs2 s :
  steps (evs1 ++ evs2) s
  = ((steps evs2 (steps evs1 s).1).1,
     (steps evs1 s).2 ++ (steps evs2 (steps evs1 s).1).2).
Proof.
  revert s. induction evs1 as [|ev evs1 IH]; intros s; simpl.
  { by destruct (steps evs2 s). }
  destruct (step ev s) as [s1 call]. rewrite IH.
  destruct (steps evs1 s1) as [s2 calls]. simpl.
  destruct (steps evs2 s2) as [s3 calls']. simpl.
  by rewrite (assoc_L (++)).
Qed.

Lemma step_isTimeUp_mono ev s :
  wf s → isTimeUp s = true →
  isTimeUp (step ev s).1 = true ∧ prompts (step ev s).1 = prompts s.
Proof.
  intros Hwf Hup. destruct (wf_frozen s Hwf Hup) as [_ Hnone].
  destruct ev as [now|index value|now|index|now]; simpl; rewrite ?Hup;
    try done.
  - unfold onTick. by rewrite Hnone.
  - destruct (prompts s !! index); [|done]. simpl.
    unfold handlePromptSelection. by rewrite Hup.
  - unfold handleSubmit. destruct (hasSubmitted s); [done|].
    by destruct (negb _ && _).
Qed.

Lemma step_running_no_call ev s :
  isTimeUp s = false → (step ev s).2 = None.
Proof.
  intros Hrun. destruct ev; simpl; rewrite ?Hrun; try done.
  by case_decide.
Qed.

Lemma steps_running_no_calls evs s :
  wf s → isTimeUp (steps evs s).1 = false → (steps evs s).2 = [].
Proof.
  revert s. induction evs as [|ev evs IH]; intros s Hwf Hrun; [done|].
  simpl in *. pose proof (wf_step ev s Hwf) as Hwf1.
  pose proof (step_isTimeUp_mono ev s Hwf) as Hmono.
  pose proof (step_running_no_call ev s) as Hnone.
  destruct (step ev s) as [s1 call]. specialize (IH s1 Hwf1).
  pose proof (steps_wf evs s1 Hwf1) as [Hwf2 _].
  destruct (steps evs s1) as [s2 calls] eqn:Hsteps. simpl in *.
  assert (Hrun1 : isTimeUp s1 = false).
  { destruct (isTimeUp s1) eqn:Hup1; [|done].
    assert (Hfinal : isTimeUp (steps evs s1).1 = true).
    { clear -Hwf1 Hup1. revert s1 Hwf1 Hup1.
      induction evs as [|ev' evs IH']; intros s1 Hwf1 Hup1; [done|].
      simpl. pose proof (wf_step ev' s1 Hwf1) as Hwf'.
      destruct (step_isTimeUp_mono ev' s1 Hwf1 Hup1) as [Hup' _].
      destruct (step ev' s1) as [s' c']. specialize (IH' s' Hwf' Hup').
      by destruct (steps evs s'). }
    rewrite Hsteps in Hfinal. simpl in Hfinal. congruence. }
  assert (Hrun0 : isTimeUp s = false).
  { destruct (isTimeUp s) eqn:Hup; [|done].
    destruct (Hmono eq_refl) as [Hup1 _]. congruence. }
  rewrite (Hnone Hrun0), (IH Hrun). done.
Qed.




Lemma step_submission_latch ev s :
  (hasSubmitted s = true →
   (step ev s).2 = None ∧ hasSubmitted (step ev s).1 = true)
  ∧ (hasSubmitted s = false →
     (step ev s).2 = None ∧ hasSubmitted (step ev s).1 = false
     ∨ is_Some (step ev s).2 ∧ hasSubmitted (step ev s).1 = true).
Proof.
  destruct ev as [now|index value|now|index|now]; simpl.
  - destruct (isTimeUp s); [simpl; auto|]. unfold handleKeyPress.
    destruct (negb (firstKeypressRecorded s)); simpl; auto.
  - destruct (isTimeUp s) eqn:Hup; [auto|]. case_decide; [|auto].
    unfold handlePromptChange. rewrite Hup. simpl. auto.
  - unfold onTick. destruct (timer s); [|simpl; auto].
    assert (Hh : ∀ x, hasSubmitted (handleTimerComplete x s) = hasSubmitted s)
      by (intros x; unfold handleTimerComplete; by case_decide).
    case_decide; [destruct (isTimeUp s); simpl; auto|].
    destruct (isTimeUp (handleTimerComplete now s)); simpl; rewrite Hh; auto.
  - destruct (isTimeUp s) eqn:Hup; [|auto].
    destruct (prompts s !! index); [|auto]. simpl.
    unfold handlePromptSelection. rewrite Hup. simpl. auto.
  - destruct (isTimeUp s); [|by auto]. unfold handleSubmit. cbv zeta.
    destruct (hasSubmitted s) eqn:Hs; [by simpl; auto|].
    destruct (negb _ && _); simpl; rewrite ?Hs;
      (split; [done|]); intros _; [by left|].
    right. split; [by eexists|done].
Qed.

Lemma steps_submission_latch evs s :
  (hasSubmitted s = true →
   (steps evs s).2 = [] ∧ hasSubmitted (steps evs s).1 = true)
  ∧ (hasSubmitted s = false →
     length (steps evs s).2 ≤ 1
     ∧ (hasSubmitted (steps evs s).1 = true ↔ (steps evs s).2 ≠ [])).
Proof.
  revert s. induction evs as [|ev evs IH]; intros s.
  { simpl. split; [done|]. intros ->. split; [lia|]. split; done. }
  simpl. destruct (step_submission_latch ev s) as [Hdone Hopen].
  destruct (step ev s) as [s1 call]. destruct (IH s1) as [IHdone IHopen].
  destruct (steps evs s1) as [s2 calls]. simpl in *. split.
  - intros Hs. destruct (Hdone Hs) as [-> Hs1].
    destruct (IHdone Hs1) as [-> Hs2]. done.
  - intros Hs. destruct (Hopen Hs) as [[-> Hs1]|[[c ->] Hs1]].
    + by apply IHopen.
    + destruct (IHdone Hs1) as [-> Hs2]. simpl. split; [lia|]. done.
Qed.

(** X8: a mounted input component calls [onSubmit] at most once, however
    often Continue is pressed, and it has done so exactly when its
    [hasSubmitted] latch is set. *)
Theorem onSubmit_called_at_most_once (now0 : Z) (isPractice : bool)
    (evs : list Event) :
  length (steps evs (mount now0 isPractice)).2 ≤ 1
  ∧ (hasSubmitted (steps evs (mount now0 isPractice)).1 = true
     ↔ (steps evs (mount now0 isPractice)).2 ≠ []).
Proof.
  by apply (steps_submission_latch evs (mount now0 isPractice)).
Qed.


Import InputTrace.

Lemma traced_mount now0 isPractice : traced now0 (mount now0 isPractice).
Proof. by split. Qed.

Lemma traced_step now0 ev s :
  wf s → traced now0 s → traced now0 (step ev s).1.
Proof.
  intros Hwf Htr.
  destruct ev as [now|index value|now|index|now]; cbn [step].
  - destruct (isTimeUp s) eqn:Hup; [exact Htr|]. cbn [fst].
    unfold handleKeyPress.
    destruct (firstKeypressRecorded s) eqn:Hrec; cbn [negb]; [exact Htr|].
    destruct Htr as [Hstart Hunl Hlat Hrun Hfro].
    split; simpl; rewrite ?Hup; try done; by eauto.
  - destruct (isTimeUp s) eqn:Hup; [exact Htr|].
    case_decide; [|exact Htr]. cbn [fst].
    unfold handlePromptChange. rewrite Hup.
    destruct Htr as [Hstart Hunl Hlat Hrun Hfro].
    split; simpl; rewrite ?Hup; try done; by eauto.
  - cbn [fst]. destruct (isTimeUp s) eqn:Hup.
    { destruct (wf_frozen s Hwf Hup) as [_ Hnone].
      unfold onTick. rewrite Hnone.
      destruct Htr as [Hstart Hunl Hlat Hrun Hfro].
      split; simpl; try done; try (intros _; exact (Hfro Hup)). }
    destruct (wf_running s Hwf Hup) as (_ & _ & t & Ht & Hrunning & Hend).
    destruct Htr as [Hstart Hunl Hlat Hrun Hfro].
    destruct (decide (now < deadline s)%Z) as [Hlt|Hge].
    + destruct (onTick_before now s Hwf Hup Hlt) as (t' & -> & _).
      split; simpl; rewrite ?Hup; try done; by eauto.
    + rewrite (onTick_reaching now s Hwf Hup) by lia.
      unfold handleTimerComplete. cbv zeta. cbn [promptsRef setIsTimeUp].
      case_decide as Hlen; split; simpl; try done; try (by eauto).
      * intros _. by rewrite (Hrun Hup).
      * intros _. split; [|unfold deadline in *; simpl in *; lia].
        intros Hnil. by rewrite Hnil in Hlen.
  - destruct (isTimeUp s) eqn:Hup; [|exact Htr].
    destruct (prompts s !! index); [|exact Htr]. cbn [fst].
    unfold handlePromptSelection. rewrite Hup.
    destruct Htr as [Hstart Hunl Hlat Hrun Hfro].
    split; simpl; try done; try (intros _; exact (Hfro Hup)).
  - destruct (isTimeUp s) eqn:Hup; [|exact Htr]. unfold handleSubmit.
    destruct (hasSubmitted s); [exact Htr|]. cbv zeta.
    destruct Htr as [Hstart Hunl Hlat Hrun Hfro].
    destruct (negb _ && _); split; simpl; try done;
      try (intros _; exact (Hfro Hup)).
Qed.

Lemma steps_traced now0 evs s :
  wf s → traced now0 s → traced now0 (steps evs s).1.
Proof.
  revert s. induction evs as [|ev evs IH]; intros s Hwf Htr; [done|].
  simpl. pose proof (wf_step ev s Hwf) as Hwf1.
  pose proof (traced_step now0 ev s Hwf Htr) as Htr1.
  destruct (step ev s) as [s1 call]. specialize (IH s1 Hwf1 Htr1).
  by destruct (steps evs s1).
Qed.

(** What a submission carries, read off the state it is made from. *)
Lemma step_call_timing ev s call :
  (step ev s).2 = Some call →
  ∃ now,
    ev = Continue now ∧ isTimeUp s = true
    ∧ submittedPrompts call
      = filter (λ p, Is_true (nonblank p)) (promptsRef s)
    ∧ firstKeypressLatency (submittedTiming call)
      = (λ t, t - responseStartRef s)%Z <$> firstKeypressTime s
    ∧ totalResponseTime (submittedTiming call)
      = Some (now - responseStartRef s)%Z
    ∧ selectionPhaseStart (submittedTiming call) = selectionStartTimeRef s
    ∧ selectionPhaseDuration (submittedTiming call)
      = (λ t, now - t)%Z <$> selectionStartTimeRef s.
Proof.
  destruct ev as [now|index value|now|index|now]; simpl;
    try (repeat case_match; simpl; discriminate).
  destruct (isTimeUp s) eqn:Hup; [|discriminate].
  unfold handleSubmit. rewrite Hup. cbv zeta.
  destruct (hasSubmitted s); [discriminate|].
  destruct (negb _ && _); [discriminate|].
  intros [= <-]. exists now. simpl. by repeat split.
Qed.

(** A property of the state each submission is made from holds of every
    submission of a run. *)
Lemma steps_calls_forall (P : OnSubmit → Prop) (I : State → Prop) evs s :
  (∀ ev s, I s → I (step ev s).1) →
  (∀ ev s call, I s → (step ev s).2 = Some call → P call) →
  I s → Forall P (steps evs s).2.
Proof.
  intros Hstep Hcall. revert s.
  induction evs as [|ev evs IH]; intros s HI; [by apply Forall_nil|].
  simpl. pose proof (Hstep ev s HI) as HI1.
  pose proof (Hcall ev s) as Hc.
  destruct (step ev s) as [s1 call]. specialize (IH s1 HI1).
  destruct (steps evs s1) as [s2 calls]. simpl in *.
  apply Forall_app. split; [|done].
  destruct call as [call|]; simpl; [|by apply Forall_nil].
  apply Forall_singleton. by apply Hc.
Qed.

(** X10: the first keystroke is latched.  If no key is pressed the stored
    keypress time stays null and every submission carries a null latency;
    the first key pressed while the time runs sets it, nothing that
    happens later changes it, and every submission carries that reading
    minus the reading at mount as its latency. *)
Theorem first_keystroke_is_latched (now0 : Z) (isPractice : bool)
    (evs : list Event) :
  (Forall (λ ev, ∀ t, ev ≠ KeyDown t) evs →
   firstKeypressTime (steps evs (mount now0 isPractice)).1 = None
   ∧ Forall (λ call, firstKeypressLatency (submittedTiming call) = None)
       (steps evs (mount now0 isPractice)).2)
  ∧ (∀ pre t post,
       evs = pre ++ KeyDown t :: post →
       Forall (λ ev, ∀ t', ev ≠ KeyDown t') pre →
       isTimeUp (steps pre (mount now0 isPractice)).1 = false →
       firstKeypressTime (steps evs (mount now0 isPractice)).1 = Some t
       ∧ Forall (λ call, firstKeypressLatency (submittedTiming call)
                         = Some (t - now0)%Z)
           (steps evs (mount now0 isPractice)).2).
Proof.
  assert (Hquiet : ∀ l s,
            wf s → traced now0 s → firstKeypressTime s = None →
            Forall (λ ev, ∀ t, ev ≠ KeyDown t) l →
            firstKeypressTime (steps l s).1 = None
            ∧ firstKeypressRecorded (steps l s).1 = firstKeypressRecorded s
            ∧ Forall (λ call, firstKeypressLatency (submittedTiming call)
                              = None) (steps l s).2).
  { induction l as [|ev l IH]; intros s Hwf Htr Hnone Hall.
    { simpl. split; [done|]. split; [done|]. by apply Forall_nil. }
    apply Forall_cons in Hall as [Hev Hall]. simpl.
    pose proof (wf_step ev s Hwf) as Hwf1.
    pose proof (traced_step now0 ev s Hwf Htr) as Htr1.
    pose proof (step_call_timing ev s) as Hc.
    assert (Hk : firstKeypressTime (step ev s).1 = None
                 ∧ firstKeypressRecorded (step ev s).1
                   = firstKeypressRecorded s).
    { destruct ev as [now|index value|now|index|now]; simpl.
      - by destruct (Hev now).
      - destruct (isTimeUp s) eqn:Hup; [done|]. case_decide; [|done].
        unfold handlePromptChange. by rewrite Hup.
      - unfold onTick. destruct (timer s); [|done].
        case_decide; [by destruct (isTimeUp s)|].
        unfold handleTimerComplete. simpl. by case_decide.
      - destruct (isTimeUp s) eqn:Hup; [|done].
        destruct (prompts s !! index); [|done]. simpl.
        unfold handlePromptSelection. by rewrite Hup.
      - destruct (isTimeUp s); [|done]. unfold handleSubmit.
        destruct (hasSubmitted s); [done|]. by destruct (negb _ && _). }
    destruct Hk as [Hk1 Hk2].
    destruct (step ev s) as [s1 call]. simpl in *.
    destruct (IH s1 Hwf1 Htr1 Hk1 Hall) as (Hn & Hr & Hcalls).
    destruct (steps l s1) as [s2 calls]. simpl in *.
    split; [done|]. split; [congruence|].
    apply Forall_app. split; [|done].
    destruct call as [call|]; simpl; [|by apply Forall_nil].
    apply Forall_singleton.
    destruct (Hc call eq_refl) as (now & _ & _ & _ & -> & _).
    by rewrite Hnone. }
  assert (Hkept : ∀ l s t,
            wf s → traced now0 s → firstKeypressTime s = Some t →
            firstKeypressTime (steps l s).1 = Some t
            ∧ Forall (λ call, firstKeypressLatency (submittedTiming call)
                              = Some (t - now0)%Z) (steps l s).2).
  { intros l s t Hwf Htr Hsome.
    assert (HI : ∀ ev s, (wf s ∧ traced now0 s
                          ∧ firstKeypressTime s = Some t) →
                 wf (step ev s).1 ∧ traced now0 (step ev s).1
                 ∧ firstKeypressTime (step ev s).1 = Some t).
    { intros ev s' (Hwf' & Htr' & Hs').
      split; [by apply wf_step|]. split; [by apply traced_step|].
      destruct ev as [now|index value|now|index|now]; simpl.
      - destruct (isTimeUp s'); [done|]. unfold handleKeyPress.
        destruct (firstKeypressRecorded s') eqn:Hrec; [done|].
        rewrite (traced_unlatched now0 s' Htr' Hrec) in Hs'. done.
      - destruct (isTimeUp s') eqn:Hup; [done|]. case_decide; [|done].
        unfold handlePromptChange. by rewrite Hup.
      - unfold onTick. destruct (timer s'); [|done].
        case_decide; [by destruct (isTimeUp s')|].
        unfold handleTimerComplete. simpl. by case_decide.
      - destruct (isTimeUp s') eqn:Hup; [|done].
        destruct (prompts s' !! index); [|done]. simpl.
        unfold handlePromptSelection. by rewrite Hup.
      - destruct (isTimeUp s'); [|done]. unfold handleSubmit.
        destruct (hasSubmitted s'); [done|]. by destruct (negb _ && _). }
    split.
    - clear -HI Hwf Htr Hsome. revert s Hwf Htr Hsome.
      induction l as [|ev l IH]; intros s Hwf Htr Hsome; [done|].
      simpl. destruct (HI ev s (conj Hwf (conj Htr Hsome)))
        as (Hwf1 & Htr1 & Hs1).
      destruct (step ev s) as [s1 call]. specialize (IH s1 Hwf1 Htr1 Hs1).
      by destruct (steps l s1).
    - apply (steps_calls_forall _
               (λ s, wf s ∧ traced now0 s ∧ firstKeypressTime s = Some t));
        [exact HI | | done].
      intros ev s' call (Hwf' & Htr' & Hs') Hcall.
      destruct (step_call_timing ev s' call Hcall)
        as (now & _ & _ & _ & -> & _).
      by rewrite Hs', (traced_start now0 s' Htr'). }
  pose proof (wf_mount now0 isPractice) as Hwf0.
  pose proof (traced_mount now0 isPractice) as Htr0.
  split.
  - intros Hall.
    destruct (Hquiet evs _ Hwf0 Htr0 eq_refl Hall) as (Hn & _ & Hc). done.
  - intros pre t post -> Hpre Hrun. rewrite steps_app.
    destruct (Hquiet pre _ Hwf0 Htr0 eq_refl Hpre) as (Hn & Hr & _).
    destruct (steps_wf pre _ Hwf0) as [Hwf1 _].
    pose proof (steps_traced now0 pre _ Hwf0 Htr0) as Htr1.
    rewrite (steps_running_no_calls pre _ Hwf0 Hrun).
    set (s1 := (steps pre (mount now0 isPractice)).1) in *.
    assert (Hstep : step (KeyDown t) s1
                    = (setFirstKeypressRecorded true
                         (setFirstKeypressTime (Some t) s1), None)).
    { simpl. rewrite Hrun. unfold handleKeyPress. rewrite Hr. done. }
    cbn [steps]. rewrite Hstep.
    pose proof (wf_step (KeyDown t) s1 Hwf1) as Hwf2.
    pose proof (traced_step now0 (KeyDown t) s1 Hwf1 Htr1) as Htr2.
    rewrite Hstep in Hwf2, Htr2. simpl in Hwf2, Htr2.
    destruct (Hkept post _ t Hwf2 Htr2 eq_refl) as [Hk Hc].
    destruct (steps post _) as [s3 calls]. simpl in *. done.
Qed.


End PromptInputExtras.

(** ** Further properties of the handlers of [MainApp] *)

Module HandlerExtras.
Import Net MainApp PollerFacts HandlerFacts.

Lemma nonblank_truthy p :
  PromptInput.nonblank p = true → PromptInput.truthy p = true.
Proof. by destruct p. Qed.

(** X12: a submission with prompts and a selection whose save-prompt
    request fails (non-2xx answer or transport failure) sends that one
    request and nothing else; the page and the trial index stay, the
    error is set to the message of the failure and the loading overlay is
    cleared. *)
Theorem failed_save_keeps_participant_on_trial backend plan render
    prompt rest selected timing w :
  PromptInput.truthy_opt selected = true →
  is_Some (Planner.getCurrentTrial plan (currentTrialIndex render)) →
  (∀ submission, failed (backend (sent w) (SavePrompt submission))) →
  ∃ submission message,
    exec (handlePromptSubmission backend plan render (prompt :: rest)
            selected timing) w
    = with_app (with_isLoading false (with_error (Some message) (app w)))
        (with_sent (sent w ++ [SavePrompt submission]) w)
    ∧ Submission.prompts submission = prompt :: rest
    ∧ Submission.selectedPrompt submission = selected
    ∧ (message = "Failed to save prompt" ∨ message = FETCH_FAILED).
Proof.
  intros Hsel [trial Htrial] Hfail.
  unfold handlePromptSubmission, getCurrentTrial. rewrite Htrial, Hsel.
  unfold_async. simpl.
  match goal with
  | |- context [backend ?l (SavePrompt ?s)] =>
      destruct (Hfail s) as [Hb | [body Hb]]; rewrite Hb
  end; simpl; do 2 eexists; (split; [reflexivity|]); auto.
Qed.

Lemma failed_save_keeps_participant_on_trial_witness :
  ∃ submission message,
    exec (handlePromptSubmission Scenario.unreachable Scenario.plan
            (app Scenario.practiceWorld) ["a quiet forest"]
            (Some "a quiet forest")
            {| PromptInput.firstKeypressLatency := None;
               PromptInput.totalResponseTime := Some 11000%Z;
               PromptInput.selectionPhaseStart := Some 10000%Z;
               PromptInput.selectionPhaseDuration := Some 1000%Z |})
      Scenario.practiceWorld
    = with_app
        (with_isLoading false
           (with_error (Some message) (app Scenario.practiceWorld)))
        (with_sent (sent Scenario.practiceWorld ++ [SavePrompt submission])
           Scenario.practiceWorld)
    ∧ Submission.prompts submission = ["a quiet forest"]
    ∧ Submission.selectedPrompt submission = Some "a quiet forest"
    ∧ (message = "Failed to save prompt" ∨ message = FETCH_FAILED).
Proof.
  apply (failed_save_keeps_participant_on_trial Scenario.unreachable
           Scenario.plan (app Scenario.practiceWorld)).
  - reflexivity.
  - simpl. by eexists.
  - intros submission. by left.
Defined.

(** X13: a submission with prompts and a selection whose save-prompt
    request is answered 2xx posts the trial index of the render, the
    theme and condition of the plan for that index, the prompts and the
    selection, and then moves on: from the practice trial to the
    main-task transition at trial 1, from a main trial below 6 to the
    between-trials page at the next index, both with no error and the
    overlay cleared; from trial 6 on to the processing page or to what
    the poller makes of it, the index staying, the overlay cleared, and
    only poller requests following the save. *)
Theorem saved_trial_advances backend plan render prompt rest selected
    timing trial body w :
  PromptInput.truthy_opt selected = true →
  Planner.getCurrentTrial plan (currentTrialIndex render) = Some trial →
  let submission :=
    {| Submission.prolificId := prolificId render;
       Submission.trialIndex := currentTrialIndex render;
       Submission.condition := trial.2;
       Submission.theme := trial.1;
       Submission.prompts := prompt :: rest;
       Submission.selectedPrompt := selected;
       Submission.isPractice := bool_decide (currentTrialIndex render = 0);
       Submission.conditionOrder := Planner.order (Planner.conditions plan);
       Submission.timingData := timing |} in
  backend (sent w) (SavePrompt submission) = Response true body →
  let w' := exec (handlePromptSubmission backend plan render (prompt :: rest)
                    selected timing) w in
  (currentTrialIndex render = 0 →
   w' = with_app
          (with_isLoading false
             (with_currentPage Page.mainTrialTransition
                (with_currentTrialIndex 1 (with_error None (app w)))))
          (with_sent (sent w ++ [SavePrompt submission]) w))
  ∧ (0 < currentTrialIndex render < 6 →
     w' = with_app
            (with_isLoading false
               (with_currentPage Page.betweenTrials
                  (with_currentTrialIndex (currentTrialIndex render + 1)
                     (with_error None (app w)))))
            (with_sent (sent w ++ [SavePrompt submission]) w))
  ∧ (6 ≤ currentTrialIndex render →
     (∃ extra, sent w' = sent w ++ SavePrompt submission :: extra
               ∧ Forall (pollRequest (prolificId render)) extra)
     ∧ (currentPage (app w') = Page.processing
        ∨ currentPage (app w') = Page.noImages
        ∨ currentPage (app w') = Page.imageRating)
     ∧ currentTrialIndex (app w') = currentTrialIndex (app w)
     ∧ isLoading (app w') = false).
Proof.
  intros Hsel Htrial submission Hsave w'.
  set (w0 := with_sent (sent w ++ [SavePrompt submission])
               (with_app (with_error None (with_isLoading true (app w))) w)).
  destruct (handleNextTrial_spec backend render w0)
    as (w1 & Hnext & H0 & Hmid & Hlast).
  assert (Hw' : w' = with_app (with_isLoading false (app w1)) w1).
  { subst w' submission. unfold handlePromptSubmission, getCurrentTrial.
    rewrite Htrial, Hsel. cbn [length negb andb].
    destruct (decide (S (length rest) = 0)) as [|_]; [lia|].
    unfold exec, try_finally, try_catch.
    unfold mbind at 1. unfold Async_bind. unfold setIsLoading at 1.
    unfold update at 1. unfold mbind at 1. unfold Async_bind.
    unfold MainApp.setError at 1. unfold update at 1.
    unfold mbind at 1. unfold Async_bind. unfold mret at 1.
    unfold Async_ret. unfold mbind at 1. unfold Async_bind.
    unfold fetch at 1. cbn [sent with_app]. rewrite Hsave.
    cbn [negb].
    change (handleNextTrial backend render ?x)
      with (handleNextTrial backend render w0).
    by rewrite Hnext. }
  clearbody w'. subst w'.
  split; [|split].
  - intros Hz. by rewrite (H0 Hz).
  - intros Hm. by rewrite (Hmid Hm).
  - intros Hl. destruct (Hlast Hl) as [(extra & Hs & Hextra) Hp Ht _].
    simpl in *. split.
    + exists extra. by rewrite Hs, <-(assoc_L (++)).
    + split; [|done]. destruct Hp as [-> | [-> | ->]]; auto.
Qed.

Lemma saved_trial_advances_witness :
  currentPage
    (app (exec (handlePromptSubmission Scenario.healthy Scenario.plan
                  (app Scenario.practiceWorld) ["a quiet forest"]
                  (Some "a quiet forest")
                  {| PromptInput.firstKeypressLatency := None;
                     PromptInput.totalResponseTime := Some 11000%Z;
                     PromptInput.selectionPhaseStart := Some 10000%Z;
                     PromptInput.selectionPhaseDuration := Some 1000%Z |})
            Scenario.practiceWorld))
  = Page.mainTrialTransition.
Proof.
  destruct (saved_trial_advances Scenario.healthy Scenario.plan
              (app Scenario.practiceWorld) "a quiet forest" []
              (Some "a quiet forest")
              {| PromptInput.firstKeypressLatency := None;
                 PromptInput.totalResponseTime := Some 11000%Z;
                 PromptInput.selectionPhaseStart := Some 10000%Z;
                 PromptInput.selectionPhaseDuration := Some 1000%Z |}
              (Some PRACTICE_THEME, "practice")
              (BObject {| status := None; images := None; detail := None |})
              Scenario.practiceWorld eq_refl eq_refl eq_refl)
    as (H0 & _).
  by rewrite (H0 eq_refl).
Defined.

(** X14: when the save-ratings request fails, the completion is never
    marked: that one request is all that is sent, the page stays, the
    overlay is cleared and the error is set, to the [detail] of the
    answer when it is a JSON object with a non-empty one. *)
Theorem unsaved_ratings_are_not_marked_complete backend render ratings
    images batch w :
  formatRatings render ratings images = Some batch →
  failed (backend (sent w) (SaveRatings batch)) →
  ∃ message,
    exec (handleRatingSubmission backend render ratings images) w
    = with_app (with_isLoading false (with_error (Some message) (app w)))
        (with_sent (sent w ++ [SaveRatings batch]) w)
    ∧ ∀ o, backend (sent w) (SaveRatings batch) = Response false (BObject o) →
           PromptInput.truthy_opt (detail o) = true →
           detail o = Some message.
Proof.
  intros Hbatch Hfail. unfold handleRatingSubmission. rewrite Hbatch.
  unfold_async. simpl.
  destruct Hfail as [-> | [body ->]]; simpl.
  { eexists. split; [reflexivity|]. intros o; discriminate. }
  destruct body as [| |o]; simpl.
  1,2: eexists; split; [reflexivity|]; intros o'; discriminate.
  eexists. split; [reflexivity|]. intros o' [= <-] Hd. rewrite Hd.
  by destruct (detail o).
Qed.

Lemma unsaved_ratings_are_not_marked_complete_witness :
  ∃ message,
    exec (handleRatingSubmission Scenario.unreachable
            (app Scenario.ratingWorld) [Scenario.rating] [Scenario.image])
      Scenario.ratingWorld
    = with_app
        (with_isLoading false
           (with_error (Some message) (app Scenario.ratingWorld)))
        (with_sent
           (sent Scenario.ratingWorld
            ++ [SaveRatings
                  [ {| FormattedRating.prolificId := "R7X9";
                       FormattedRating.trialIndex := 1;
                       FormattedRating.creativityRating := Some 3%Z;
                       FormattedRating.intentionRating := Some 4%Z;
                       FormattedRating.theme := "TIME";
                       FormattedRating.condition := "BE_FLUENT";
                       FormattedRating.prompt := "a clock melting" |} ]])
           Scenario.ratingWorld).
Proof.
  destruct (unsaved_ratings_are_not_marked_complete Scenario.unreachable
              (app Scenario.ratingWorld) [Scenario.rating] [Scenario.image]
              _ Scenario.ratingWorld eq_refl (or_introl eq_refl))
    as (message & Hexec & _).
  by exists message.
Defined.

(** X15: the thank-you page is reached by a rating submission exactly
    when every image has a rating at its index, the save-ratings request
    was answered 2xx and the mark-completion request after it was
    answered 2xx. *)
Theorem thank_you_only_after_both_saved backend render ratings images w :
  currentPage (app w) ≠ Page.thankYou →
  currentPage
    (app (exec (handleRatingSubmission backend render ratings images) w))
  = Page.thankYou
  ↔ ∃ batch body body',
      formatRatings render ratings images = Some batch
      ∧ backend (sent w) (SaveRatings batch) = Response true body
      ∧ backend (sent w ++ [SaveRatings batch])
          (MarkCompletion (prolificId render))
        = Response true body'.
Proof.
  intros Hpage. unfold handleRatingSubmission.
  destruct (formatRatings render ratings images) as [batch|] eqn:Hbatch.
  2: { unfold_async. simpl. split; [done|]. by intros (? & ? & ? & ? & _). }
  unfold_async. simpl.
  destruct (backend (sent w) (SaveRatings batch)) as [[] body|] eqn:Hsave;
    simpl.
  - destruct (backend (sent w ++ [SaveRatings batch]) _)
      as [[] body'|] eqn:Hmark; simpl.
    + split; [|done]. intros _. by exists batch, body, body'.
    + split; [done|]. intros (b & ? & ? & [= <-] & _ & Hm). congruence.
    + split; [done|]. intros (b & ? & ? & [= <-] & _ & Hm). congruence.
  - split.
    + by destruct body as [| |o].
    + intros (b & ? & ? & [= <-] & Hs & _). congruence.
  - split; [done|]. intros (b & ? & ? & [= <-] & Hs & _). congruence.
Qed.

Lemma thank_you_only_after_both_saved_witness :
  currentPage
    (app (exec (handleRatingSubmission Scenario.healthy
                  (app Scenario.ratingWorld) [Scenario.rating]
                  [Scenario.image]) Scenario.ratingWorld))
  = Page.thankYou.
Proof.
  apply (thank_you_only_after_both_saved Scenario.healthy
           (app Scenario.ratingWorld) [Scenario.rating] [Scenario.image]
           Scenario.ratingWorld); [discriminate|].
  eexists _, _, _. split; [reflexivity|]. split; reflexivity.
Defined.

Lemma formatRatings_in_range render ratings images :
  length images ≤ length ratings →
  is_Some (formatRatings render ratings images).
Proof.
  intros Hle. unfold formatRatings. rewrite mapM_is_Some, Forall_lookup.
  intros i x. rewrite list_lookup_imap.
  destruct (images !! i) as [image|] eqn:Hi; [|done]. intros [= <-].
  destruct (lookup_lt_is_Some_2 ratings i) as [rating Hr].
  { apply lookup_lt_Some in Hi. lia. }
  simpl. rewrite Hr. by eexists.
Qed.

(** X16: the batch of a rating submission pairs images and ratings by
    index.  It can be built exactly when there are at least as many
    ratings as images; it then has one entry per image, in the order of
    the images, carrying the participant of the render, the trial
    index, theme, condition and prompt of the image at that index and
    the two ratings at that index; ratings beyond the images are
    dropped. *)
Theorem formatRatings_pairs_by_index render ratings images :
  (is_Some (formatRatings render ratings images)
   ↔ length images ≤ length ratings)
  ∧ ∀ batch, formatRatings render ratings images = Some batch →
      length batch = length images
      ∧ ∀ i image, images !! i = Some image →
          ∃ rating, ratings !! i = Some rating
            ∧ batch !! i
              = Some {| FormattedRating.prolificId := prolificId render;
                        FormattedRating.trialIndex := Image.trialIndex image;
                        FormattedRating.creativityRating :=
                          Rating.creativity rating;
                        FormattedRating.intentionRating :=
                          Rating.intention rating;
                        FormattedRating.theme := Image.theme image;
                        FormattedRating.condition := Image.condition image;
                        FormattedRating.prompt := Image.prompt image |}.
Proof.
  unfold formatRatings. split.
  - rewrite mapM_is_Some, Forall_lookup. split.
    + intros Hall. destruct (decide (length images ≤ length ratings)); [done|].
      destruct (lookup_lt_is_Some_2 images (length ratings)) as [image Hi];
        [lia|].
      specialize (Hall (length ratings)). rewrite list_lookup_imap, Hi in Hall.
      specialize (Hall _ eq_refl). simpl in Hall.
      rewrite (lookup_ge_None_2 ratings (length ratings)) in Hall by lia.
      by destruct Hall.
    + intros Hle. apply (formatRatings_in_range render) in Hle.
      unfold formatRatings in Hle.
      by rewrite mapM_is_Some, Forall_lookup in Hle.
  - intros batch Hbatch. apply mapM_Some in Hbatch.
    split.
    { apply Forall2_length in Hbatch. by rewrite length_imap in Hbatch. }
    intros i image Hi.
    destruct (Forall2_lookup_l _ _ _ i
                (rating ← ratings !! i;
                 Some {| FormattedRating.prolificId := prolificId render;
                         FormattedRating.trialIndex := Image.trialIndex image;
                         FormattedRating.creativityRating :=
                           Rating.creativity rating;
                         FormattedRating.intentionRating :=
                           Rating.intention rating;
                         FormattedRating.theme := Image.theme image;
                         FormattedRating.condition := Image.condition image;
                         FormattedRating.prompt := Image.prompt image |})
                Hbatch) as (entry & Hentry & Heq).
    { by rewrite list_lookup_imap, Hi. }
    simpl in Heq. destruct (ratings !! i) as [rating|]; [|done].
    exists rating. split; [done|]. simpl in Heq. congruence.
Qed.

(** X17: a status request below the bound that is answered with a JSON
    object whose status is neither [ready] nor [pending] (absent
    included) ends the polling on [noImages]: one request, no image
    request, no timeout scheduled, nothing thrown, whatever the HTTP
    status of the answer. *)
Theorem poll_gives_up_on_any_other_status backend prolificId w ok o :
  attempts w < maxAttempts →
  backend (sent w) (CheckGenerationStatus prolificId)
    = Response ok (BObject o) →
  status o ≠ Some "ready" → status o ≠ Some "pending" →
  poll backend prolificId w
  = (Done (),
     with_app (with_currentPage Page.noImages (app w))
       (with_sent (sent w ++ [CheckGenerationStatus prolificId])
          (with_attempts (attempts w + 1) w))).
Proof.
  intros Hlt Hb Hready Hpending. unfold poll. unfold_async.
  destruct (decide (maxAttempts ≤ attempts w)) as [|_]; [lia|]. simpl.
  rewrite Hb. simpl. by repeat case_decide.
Qed.

Lemma poll_gives_up_on_any_other_status_witness :
  poll (λ _ _, Response false
                 (BObject {| status := Some "all_failed"; images := None;
                             detail := None |}))
    "R7X9" Scenario.processingWorld
  = (Done (),
     with_app
       (with_currentPage Page.noImages (app Scenario.processingWorld))
       (with_sent [CheckGenerationStatus "R7X9"]
          (with_attempts 1 Scenario.processingWorld))).
Proof.
  apply (poll_gives_up_on_any_other_status _ "R7X9" Scenario.processingWorld
           false
           {| status := Some "all_failed"; images := None; detail := None |});
    [vm_compute; lia | reflexivity | discriminate | discriminate].
Defined.

(** X18: a status request below the bound answered [ready] is followed
    by exactly one image request, schedules no timeout and throws
    nothing.  The rating page is entered exactly when the image request
    is answered 2xx with a JSON object holding a non-empty [images]
    array, which becomes the images to rate (overlay cleared); in every
    other case the page is [noImages] and the stored images are
    untouched. *)
Theorem ready_shows_ratings_only_with_images backend prolificId w ok o :
  attempts w < maxAttempts →
  backend (sent w) (CheckGenerationStatus prolificId)
    = Response ok (BObject o) →
  status o = Some "ready" →
  ∃ w', poll backend prolificId w = (Done (), w')
    ∧ sent w'
      = sent w ++ [CheckGenerationStatus prolificId; GetAllImages prolificId]
    ∧ pollTimeout w' = pollTimeout w
    ∧ attempts w' = S (attempts w)
    ∧ ((∃ o' image rest,
          backend (sent w ++ [CheckGenerationStatus prolificId])
            (GetAllImages prolificId) = Response true (BObject o')
          ∧ images o' = Some (image :: rest)
          ∧ currentPage (app w') = Page.imageRating
          ∧ generatedImages (app w') = image :: rest
          ∧ isLoading (app w') = false)
       ∨ ((∀ body, backend (sent w ++ [CheckGenerationStatus prolificId])
                     (GetAllImages prolificId) = Response true body →
                   ∀ o', body = BObject o' →
                         images o' = None ∨ images o' = Some [])
          ∧ currentPage (app w') = Page.noImages
          ∧ generatedImages (app w') = generatedImages (app w))).
Proof.
  intros Hlt Hb Hready. unfold poll, fetchAllImages. unfold_async.
  destruct (decide (maxAttempts ≤ attempts w)) as [|_]; [lia|]. simpl.
  rewrite Hb. simpl. rewrite Hready.
  destruct (decide (Some "ready" = Some "ready")) as [_|]; [|done].
  simpl.
  destruct (backend (sent w ++ [CheckGenerationStatus prolificId])
              (GetAllImages prolificId))
    as [[] [| |[st [[|image rest]|] dt]]|] eqn:Hi; simpl;
    eexists; (split; [reflexivity|]); simpl;
    rewrite <-?(assoc_L (++)), ?Nat.add_1_r;
    (split; [done|]); (split; [done|]); (split; [done|]).
  all: first
    [ left; eexists _, _, _; by repeat (split; [done|])
    | right; split; [|done]; intros body' [= <-] o' Ho';
      try discriminate; injection Ho' as <-; simpl; by auto
    | right; split; [|done]; intros body' Hbody; discriminate ].
Qed.

Lemma ready_shows_ratings_only_with_images_witness :
  ∃ w', poll (λ _ _, Response true
                       (BObject {| status := Some "ready";
                                   images := Some [Scenario.image];
                                   detail := None |}))
          "R7X9" Scenario.processingWorld = (Done (), w')
    ∧ currentPage (app w') = Page.imageRating.
Proof.
  destruct (ready_shows_ratings_only_with_images
              (λ _ _, Response true
                        (BObject {| status := Some "ready";
                                    images := Some [Scenario.image];
                                    detail := None |}))
              "R7X9" Scenario.processingWorld true
              {| status := Some "ready"; images := Some [Scenario.image];
                 detail := None |})
    as (w' & Hpoll & _); [vm_compute; lia | reflexivity | reflexivity|].
  exists w'. split; [exact Hpoll|].
  revert Hpoll. vm_compute. by intros [= <-].
Defined.

End HandlerExtras.

(** ** Properties of the rating screen *)

Module RatingScreenExtras.
Import MainApp ImageRatingInterface.






End RatingScreenExtras.

(** ** The session as a whole *)

Module ProgressExtras.
Import Net MainApp Experiment Progress PollerFacts HandlerFacts.

Lemma fetchAllImages_polled backend prolificId w :
  ∃ w', fetchAllImages backend prolificId w = (Done (), w')
    ∧ (currentPage (app w') = Page.noImages
       ∧ generatedImages (app w') = generatedImages (app w)
       ∨ currentPage (app w') = Page.imageRating
         ∧ generatedImages (app w') ≠ [])
    ∧ pollTimeout w' = pollTimeout w.
Proof.
  unfold fetchAllImages. unfold_async.
  destruct (backend (sent w) (GetAllImages prolificId))
    as [[] [| |[st [[|image rest]|] dt]]|];
    simpl; eexists; (split; [reflexivity|]); simpl; split; auto.
Qed.

Lemma poll_polled backend prolificId w :
  polled prolificId w (poll backend prolificId w).2
  ∧ ((poll backend prolificId w).1 = Done ()
     ∨ app (poll backend prolificId w).2 = app w
       ∧ pollTimeout (poll backend prolificId w).2 = pollTimeout w).
Proof.
  unfold poll, polled. unfold_async.
  destruct (decide (maxAttempts ≤ attempts w)) as [|_]; simpl.
  { auto 10. }
  destruct (backend (sent w) (CheckGenerationStatus prolificId))
    as [ok [| |o]|]; simpl; auto 10.
  repeat case_decide; simpl; auto 10.
  match goal with
  | |- context [fetchAllImages ?b ?p ?w0] =>
      destruct (fetchAllImages_polled b p w0)
        as (w' & -> & [[Hp Hg] | [Hp Hg]] & Ht)
  end; simpl in *; rewrite Ht; auto 10.
Qed.

Lemma pollGenerationStatus_polled backend prolificId w :
  ∃ w', pollGenerationStatus backend prolificId w = (Done (), w')
    ∧ polled prolificId w w' ∧ pollerFrame prolificId w w'.
Proof.
  destruct (pollGenerationStatus_frame backend prolificId w)
    as (w' & Hrun & Hframe).
  exists w'. split; [done|]. split; [|done].
  rewrite pollGenerationStatus_unfold in Hrun.
  destruct (poll_polled backend prolificId (with_attempts 0 w)) as [Hp Ht].
  destruct (poll backend prolificId (with_attempts 0 w)) as [[[]|m] w1];
    simpl in *; injection Hrun as <-; [exact Hp|].
  destruct Ht as [?|[Happ Ht]]; [done|]. unfold polled. simpl.
  right. left. by rewrite Happ, Ht.
Qed.

Lemma handleNextTrial_last backend render w :
  6 ≤ currentTrialIndex render →
  ∃ w', handleNextTrial backend render w = (Done (), w')
    ∧ polled (prolificId render)
        (with_app (with_currentPage Page.processing
                     (with_isLoading true (app w))) w) w'
    ∧ pollerFrame (prolificId render)
        (with_app (with_currentPage Page.processing
                     (with_isLoading true (app w))) w) w'.
Proof.
  intros Hlast. unfold handleNextTrial.
  destruct (decide (currentTrialIndex render = 0)) as [|_]; [lia|].
  destruct (decide (7 ≤ currentTrialIndex render + 1)) as [_|]; [|lia].
  unfold mbind at 1. unfold Async_bind. unfold setIsLoading at 1.
  unfold update at 1. unfold mbind at 1. unfold Async_bind.
  unfold setCurrentPage at 1. unfold update at 1.
  match goal with
  | |- context [pollGenerationStatus ?b ?p ?w0] =>
      destruct (pollGenerationStatus_polled b p w0) as (w' & -> & Hp & Hf)
  end.
  by exists w'.
Qed.

(** What [handlePromptSubmission] does, whatever its arguments: it
    sends at most one save-prompt request, for the participant and the
    trial of the render, then either stops where it is (with or without
    an error) or hands over to [handleNextTrial]; the overlay is cleared
    last. *)
Lemma handlePromptSubmission_outcome backend plan render prompts selected
    timing w :
  ∃ saves w',
    exec (handlePromptSubmission backend plan render prompts selected
            timing) w
    = with_app (with_isLoading false (app w')) w'
    ∧ (saves = []
       ∨ ∃ submission,
           saves = [SavePrompt submission]
           ∧ Submission.prolificId submission = prolificId render
           ∧ Submission.trialIndex submission = currentTrialIndex render
           ∧ Submission.prompts submission = prompts
           ∧ Submission.selectedPrompt submission = selected
           ∧ prompts ≠ [] ∧ PromptInput.truthy_opt selected = true)
    ∧ ((∃ e, w' = with_app (with_error e (with_isLoading true (app w)))
                     (with_sent (sent w ++ saves) w))
       ∨ handleNextTrial backend render
           (with_app (with_error None (with_isLoading true (app w)))
              (with_sent (sent w ++ saves) w))
         = (Done (), w')).
Proof.
  unfold handlePromptSubmission.
  destruct (decide (length prompts = 0)) as [Hempty|Hne].
  { destruct (handlePromptSubmission_empty backend plan render selected
                timing w) as (w1 & Hnext & Hexec).
    apply length_zero_iff_nil in Hempty. subst prompts.
    exists [], w1. split; [exact Hexec|]. split; [by left|]. right.
    rewrite app_nil_r. exact Hnext. }
  assert (Hne' : prompts ≠ []) by (by intros ->).
  destruct (PromptInput.truthy_opt selected) eqn:Hsel; simpl.
  2: { rewrite bool_decide_eq_true_2 by lia. unfold_async. simpl.
       exists [], (with_app (with_error None (with_isLoading true (app w)))
                     (with_sent (sent w ++ []) w)).
       rewrite app_nil_r. split; [done|]. split; [by left|]. left.
       by exists None. }
  unfold getCurrentTrial.
  destruct (Planner.getCurrentTrial plan (currentTrialIndex render))
    as [trial|].
  2: { unfold_async. simpl.
       exists [], (with_app (with_error (Some TYPE_ERROR)
                               (with_isLoading true (app w)))
                     (with_sent (sent w ++ []) w)).
       rewrite app_nil_r. split; [done|]. split; [by left|]. left.
       by eexists. }
  set (submission := {| Submission.prolificId := prolificId render;
                        Submission.trialIndex := currentTrialIndex render;
                        Submission.condition := trial.2;
                        Submission.theme := trial.1;
                        Submission.prompts := prompts;
                        Submission.selectedPrompt := selected;
                        Submission.isPractice :=
                          bool_decide (currentTrialIndex render = 0);
                        Submission.conditionOrder :=
                          Planner.order (Planner.conditions plan);
                        Submission.timingData := timing |}).
  assert (Hsub : ∃ s0, [SavePrompt submission] = [SavePrompt s0]
            ∧ Submission.prolificId s0 = prolificId render
            ∧ Submission.trialIndex s0 = currentTrialIndex render
            ∧ Submission.prompts s0 = prompts
            ∧ Submission.selectedPrompt s0 = selected
            ∧ prompts ≠ [] ∧ true = true) by (by exists submission).
  destruct (backend (sent w) (SavePrompt submission)) as [[] body|] eqn:Hb.
  - set (w0 := with_app (with_error None (with_isLoading true (app w)))
                 (with_sent (sent w ++ [SavePrompt submission]) w)).
    destruct (handleNextTrial_spec backend render w0) as (w1 & Hnext & _).
    exists [SavePrompt submission], w1. split; [|split; [by right|by right]].
    unfold exec, try_finally, try_catch.
    unfold mbind at 1. unfold Async_bind. unfold setIsLoading at 1.
    unfold update at 1. unfold mbind at 1. unfold Async_bind.
    unfold MainApp.setError at 1. unfold update at 1.
    unfold mbind at 1. unfold Async_bind. unfold mret at 1.
    unfold Async_ret. unfold mbind at 1. unfold Async_bind.
    unfold fetch at 1. cbn [sent with_app]. fold submission. rewrite Hb.
    cbn [negb].
    change (handleNextTrial backend render ?x)
      with (handleNextTrial backend render w0).
    by rewrite Hnext.
  - exists [SavePrompt submission],
      (with_app (with_error (Some "Failed to save prompt")
                   (with_isLoading true (app w)))
         (with_sent (sent w ++ [SavePrompt submission]) w)).
    split; [|split; [by right|left; by eexists]].
    unfold_async. simpl. fold submission. by rewrite Hb.
  - exists [SavePrompt submission],
      (with_app (with_error (Some FETCH_FAILED)
                   (with_isLoading true (app w)))
         (with_sent (sent w ++ [SavePrompt submission]) w)).
    split; [|split; [by right|left; by eexists]].
    unfold_async. simpl. fold submission. by rewrite Hb.
Qed.

Lemma formatRatings_participant render ratings images batch :
  formatRatings render ratings images = Some batch →
  Forall (λ r, FormattedRating.prolificId r = prolificId render) batch.
Proof.
  unfold formatRatings. intros Hbatch. apply mapM_Some in Hbatch.
  apply Forall_lookup. intros i entry Hentry.
  destruct (Forall2_lookup_r _ _ _ i entry Hbatch Hentry)
    as (x & Hx & Heq).
  rewrite list_lookup_imap in Hx.
  destruct (images !! i) as [image|]; [|done]. injection Hx as <-.
  simpl in Heq. destruct (ratings !! i) as [rating|]; [|done].
  simpl in Heq. by injection Heq as <-.
Qed.

(** What [handleRatingSubmission] does, whatever its arguments: it sends
    the batch and then possibly the completion mark, both for the
    participant of the render, stays on the page or moves to the
    thank-you page, and touches nothing else but the error and the
    overlay. *)
Lemma handleRatingSubmission_outcome backend render ratings images w :
  ∃ extra e p',
    exec (handleRatingSubmission backend render ratings images) w
    = with_app
        (with_isLoading false (with_error e (with_currentPage p' (app w))))
        (with_sent (sent w ++ extra) w)
    ∧ Forall (requestFor (prolificId render)) extra
    ∧ savedTrials extra = []
    ∧ (p' = currentPage (app w) ∨ p' = Page.thankYou).
Proof.
  unfold handleRatingSubmission.
  assert (Hself : ∀ e extra,
            with_app (with_isLoading false (with_error e (app w)))
              (with_sent (sent w ++ extra) w)
            = with_app
                (with_isLoading false
                   (with_error e (with_currentPage (currentPage (app w))
                                    (app w))))
                (with_sent (sent w ++ extra) w)) by done.
  destruct (formatRatings render ratings images) as [batch|] eqn:Hbatch.
  2: { unfold_async. simpl. exists [], (Some TYPE_ERROR), (currentPage (app w)).
       rewrite <-Hself, app_nil_r. split; [done|].
       split; [by apply Forall_nil|]. split; [done|by left]. }
  pose proof (formatRatings_participant _ _ _ _ Hbatch) as Hfor.
  unfold_async. simpl.
  destruct (backend (sent w) (SaveRatings batch)) as [[] body|]; simpl.
  - destruct (backend _ (MarkCompletion _)) as [[] body'|]; simpl;
      rewrite <-(assoc_L (++)); simpl.
    + exists [SaveRatings batch; MarkCompletion (prolificId render)], None,
        Page.thankYou.
      split; [done|]. split; [|split; [done|by right]].
      apply Forall_cons; split; [done|]. by apply Forall_singleton.
    + eexists [SaveRatings batch; MarkCompletion (prolificId render)], _,
        (currentPage (app w)).
      rewrite <-Hself. split; [done|]. split; [|split; [done|by left]].
      apply Forall_cons; split; [done|]. by apply Forall_singleton.
    + eexists [SaveRatings batch; MarkCompletion (prolificId render)], _,
        (currentPage (app w)).
      rewrite <-Hself. split; [done|]. split; [|split; [done|by left]].
      apply Forall_cons; split; [done|]. by apply Forall_singleton.
  - destruct body as [| |o]; simpl;
      eexists [SaveRatings batch], _, (currentPage (app w));
      rewrite <-Hself; (split; [done|]);
      (split; [by apply Forall_singleton|split; [done|by left]]).
  - eexists [SaveRatings batch], _, (currentPage (app w)).
    rewrite <-Hself. split; [done|].
    split; [by apply Forall_singleton|split; [done|by left]].
Qed.

Lemma advances_refl w : advances w w.
Proof.
  split; [done|]. split; [done|]. split; [done|].
  exists []. by rewrite app_nil_r.
Qed.

Lemma rerender_same now ui :
  sane ui → rerender now ui (world ui) (promptInput ui) = ui.
Proof.
  intros Hs. pose proof (sane_child ui Hs) as Hc. destruct ui as [w ch].
  unfold rerender. simpl in *. destruct ch as [c|].
  - destruct Hc as (Hp & _). by rewrite !decide_True.
  - by rewrite decide_False.
Qed.

Lemma step_isPractice ev c :
  PromptInput.isPractice (PromptInput.step ev c).1 = PromptInput.isPractice c.
Proof.
  destruct ev as [t|index value|t|index|t]; simpl.
  - destruct (PromptInput.isTimeUp c); [done|].
    unfold PromptInput.handleKeyPress. by destruct (negb _).
  - destruct (PromptInput.isTimeUp c) eqn:Hup; [done|].
    case_decide; [|done]. unfold PromptInput.handlePromptChange.
    by rewrite Hup.
  - unfold PromptInput.onTick. destruct (PromptInput.timer c); [|done].
    case_decide; [by destruct (PromptInput.isTimeUp c)|].
    unfold PromptInput.handleTimerComplete. simpl. by case_decide.
  - destruct (PromptInput.isTimeUp c) eqn:Hup; [|done].
    destruct (PromptInput.prompts c !! index); [|done]. simpl.
    unfold PromptInput.handlePromptSelection. by rewrite Hup.
  - destruct (PromptInput.isTimeUp c); [|done].
    unfold PromptInput.handleSubmit.
    destruct (PromptInput.hasSubmitted c); [done|].
    by destruct (negb _ && _).
Qed.

Lemma savedTrials_app l1 l2 :
  savedTrials (l1 ++ l2) = savedTrials l1 ++ savedTrials l2.
Proof. apply omap_app. Qed.

Lemma pollRequests_not_saved participant extra :
  Forall (pollRequest participant) extra →
  savedTrials extra = [] ∧ Forall (requestFor participant) extra.
Proof.
  induction 1 as [|r extra [-> | ->] _ [IH1 IH2]]; [done|..];
    (split; [exact IH1|]); by apply Forall_cons.
Qed.

Lemma step_invoke backend plan now cb ui :
  (∀ call, cb ≠ onSubmitPrompts call) →
  step backend plan now (Invoke cb) ui
  = rerender now ui (invoke backend plan cb (world ui)) (promptInput ui).
Proof. intros Hcb. destruct cb; try done. by destruct (Hcb call). Qed.

(** What the callbacks other than the prompt submission do. *)
Lemma invoke_cases backend plan cb w :
  (∀ call, cb ≠ onSubmitPrompts call) →
  invoke backend plan cb w = w
  ∨ (∃ id, currentPage (app w) = Page.prolificId
           ∧ invoke backend plan cb w
             = with_app (with_currentPage Page.consent
                           (with_prolificId id (app w))) w)
  ∨ (∃ p', (currentPage (app w), p')
             ∈ [ (Page.consent, Page.internetUsage);
                 (Page.internetUsage, Page.aiExperienceSurvey);
                 (Page.aiExperienceSurvey, Page.generalInstructions);
                 (Page.generalInstructions, Page.practiceInstructions);
                 (Page.practiceInstructions, Page.promptInput);
                 (Page.betweenTrials, Page.promptInput);
                 (Page.mainTrialTransition, Page.promptInput) ]
           ∧ invoke backend plan cb w
             = with_app (with_currentPage p' (app w)) w)
  ∨ (currentPage (app w) = Page.imageRating
     ∧ ∃ ratings images,
         invoke backend plan cb w
         = exec (handleRatingSubmission backend (app w) ratings images) w).
Proof.
  intros Hcb. unfold invoke, getPageProps.
  destruct (currentPage (app w)) eqn:Hp; destruct cb;
    try (by left); try (by destruct (Hcb call)).
  - right. left. by eexists.
  - right. right. left. eexists. split; [|reflexivity]. by repeat constructor.
  - right. right. left. eexists. split; [|reflexivity]. by repeat constructor.
  - right. right. left. eexists. split; [|reflexivity]. by repeat constructor.
  - right. right. left. eexists. split; [|reflexivity]. by repeat constructor.
  - right. right. left. eexists. split; [|reflexivity]. by repeat constructor.
  - right. right. left. eexists. split; [|reflexivity]. by repeat constructor.
  - right. right. left. eexists. split; [|reflexivity]. by repeat constructor.
  - right. right. right. split; [done|]. by eexists _, _.
Qed.

Ltac fin :=
  unfold position in *; simpl in *;
  try done; try lia; try (intuition (try congruence; try lia)).

Lemma saved_nil_ok (n : nat) (P : Prop) :
  NoDup (savedTrials []) ∧ ∀ i, i ∈ savedTrials [] → i < n ∨ i = n ∧ P.
Proof. split; [apply NoDup_nil_2|]. intros i Hi. by apply elem_of_nil in Hi. Qed.

Lemma sane_no_timeout ui :
  sane ui → currentPage (app (world ui)) ≠ Page.processing →
  pollTimeout (world ui) = None.
Proof.
  intros Hs Hp. destruct (pollTimeout (world ui)) as [id|] eqn:Ht; [|done].
  by destruct (sane_timeout ui Hs id Ht).
Qed.

Lemma handleNextTrial_cases backend render w :
  ∃ w', handleNextTrial backend render w = (Done (), w')
    ∧ (currentTrialIndex render = 0
       ∧ w' = with_app
                (with_currentPage Page.mainTrialTransition
                   (with_currentTrialIndex 1 (app w))) w
       ∨ 0 < currentTrialIndex render < 6
         ∧ w' = with_app
                  (with_currentPage Page.betweenTrials
                     (with_currentTrialIndex (currentTrialIndex render + 1)
                        (app w))) w
       ∨ 6 ≤ currentTrialIndex render
         ∧ polled (prolificId render)
             (with_app (with_currentPage Page.processing
                          (with_isLoading true (app w))) w) w'
         ∧ pollerFrame (prolificId render)
             (with_app (with_currentPage Page.processing
                          (with_isLoading true (app w))) w) w').
Proof.
  destruct (handleNextTrial_spec backend render w)
    as (w' & Hnext & H0 & Hmid & _).
  exists w'. split; [done|].
  destruct (decide (currentTrialIndex render = 0)) as [Hz|Hnz]; [by auto|].
  destruct (decide (currentTrialIndex render < 6)) as [Hlt|Hge].
  { right. left. split; [lia|]. apply Hmid. lia. }
  right. right. split; [lia|].
  destruct (handleNextTrial_last backend render w) as (w'' & Hnext' & Hp & Hf);
    [lia|].
  assert (w'' = w') by congruence. by subst w''.
Qed.

Lemma step_sane backend plan now ev ui :
  sane ui →
  sane (step backend plan now ev ui)
  ∧ advances (world ui) (world (step backend plan now ev ui)).
Proof.
  intros Hs. destruct ev as [cb|ev|].
  - assert (Hcb : (∃ call, cb = onSubmitPrompts call)
                  ∨ ∀ call, cb ≠ onSubmitPrompts call)
      by (destruct cb; eauto).
    destruct Hcb as [[call ->]|Hcb].
    { simpl. split; [done|apply advances_refl]. }
    rewrite (step_invoke _ _ _ _ _ Hcb).
    destruct (invoke_cases backend plan cb (world ui) Hcb)
      as [-> | [(id & Hp & ->) | [(p' & Hp & ->) | (Hp & rs & ims & ->)]]].
    + rewrite rerender_same by done. split; [done|apply advances_refl].
    + pose proof (sane_no_timeout ui Hs) as Hnt.
      destruct Hs. destruct ui as [w ch]. unfold rerender, advances.
      simpl in *. rewrite Hp in *.
      specialize (sane_before0 ltac:(unfold position; rewrite Hp; lia)).
      specialize (sane_first0 eq_refl). specialize (Hnt ltac:(done)).
      split.
      * split; simpl; rewrite ?sane_before0, ?sane_first0, ?Hnt;
          try apply saved_nil_ok; fin.
      * unfold position; simpl; rewrite Hp.
        split; [lia|]. split; [done|]. split; [done|].
        exists []. by rewrite app_nil_r.
    + pose proof (sane_no_timeout ui Hs) as Hnt.
      destruct Hs. destruct ui as [w ch]. unfold rerender, advances.
      simpl in *.
      repeat (apply elem_of_cons in Hp as [Hp|Hp]);
        try (by apply elem_of_nil in Hp); injection Hp as Hp ->;
        rewrite Hp in *; specialize (Hnt ltac:(done)).
      all: (destruct ch as [c|]; [by destruct sane_child0 as (? & _)|]).
      all: simpl; split; [split; simpl; rewrite ?Hnt; unfold position in *; simpl in *; rewrite ?Hp in *; try done; try lia|].
      all: try (split; [done|split; [apply PromptInputFacts.wf_mount|done]]).
      all: try (destruct sane_saved0 as [Hnd Hb]; split; [exact Hnd|];
                intros i Hi; destruct (Hb i Hi) as [?|[? ?]]; [by left|lia]).
      all: try (unfold position; simpl; rewrite ?Hp;
                (split; [lia|]); (split; [lia|]); (split; [done|]);
                exists []; by rewrite app_nil_r).
    + destruct (handleRatingSubmission_outcome backend (app (world ui)) rs ims
                  (world ui)) as (extra & e & p' & -> & Hfor & Hsv & Hp').
      pose proof (sane_no_timeout ui Hs) as Hnt.
      destruct Hs. destruct ui as [w ch]. unfold rerender, advances.
      simpl in *. rewrite Hp in *. specialize (Hnt ltac:(done)).
      destruct ch as [c|]; [by destruct sane_child0 as (? & _)|].
      assert (Hidx : currentTrialIndex (app w) = 6)
        by (apply sane_after0; unfold position; rewrite Hp; lia).
      destruct Hp' as [-> | ->]; simpl.
      all: split; [split; simpl; rewrite ?Hnt, ?savedTrials_app, ?Hsv, ?app_nil_r;
                   unfold position in *; simpl in *; rewrite ?Hp in *;
                   try done; try lia|].
      all: try (apply Forall_app; by split).
      all: try (destruct sane_saved0 as [Hnd Hb]; split; [exact Hnd|];
                intros i Hi; destruct (Hb i Hi) as [?|[? ?]];
                [by left|right; split; [done|lia]]).
      all: unfold position; simpl; rewrite ?Hp;
                (split; [lia|]); (split; [lia|]); (split; [done|]);
                by eexists.
  - destruct (promptInput ui) as [c|] eqn:Hc.
    2: { simpl. rewrite Hc. split; [done|apply advances_refl]. }
    destruct (PromptInput.step ev c) as [c' [call|]] eqn:Hstep.
    2: { pose proof (sane_child ui Hs) as Hch. rewrite Hc in Hch.
         destruct Hch as (Hp & Hwf & Hprac).
         destruct ui as [w ch]. simpl in Hc. subst ch.
         rewrite (ExperimentFacts.input_without_call _ _ _ _ _ _ c' Hp Hstep).
         split; [|apply advances_refl].
         pose proof (PromptInputFacts.wf_step ev c Hwf) as Hwf'.
         pose proof (step_isPractice ev c) as Hprac'.
         pose proof (proj1 (PromptInputExtras.step_submission_latch ev c))
           as Hlatch.
         rewrite Hstep in Hwf', Hprac', Hlatch. simpl in *.
         destruct Hs. split; simpl in *; try done.
         - split; [done|]. split; [done|]. congruence.
         - destruct sane_saved0 as [Hnd Hb]. split; [exact Hnd|].
           intros i Hi. destruct (Hb i Hi) as [?|[? Hsub]]; [by left|].
           right. split; [done|]. by apply Hlatch. }
    pose proof (sane_child ui Hs) as Hch. rewrite Hc in Hch.
    destruct Hch as (Hp & Hwf & Hprac).
    pose proof (PromptInputFacts.wf_step ev c Hwf) as Hwf'.
    pose proof (step_isPractice ev c) as Hprac'.
    destruct (PromptInputExtras.step_submission_latch ev c) as [Hlatch Hopen].
    rewrite Hstep in Hwf', Hprac', Hlatch, Hopen. simpl in *.
    assert (Hunsub : PromptInput.hasSubmitted c = false).
    { destruct (PromptInput.hasSubmitted c); [|done].
      by destruct (Hlatch eq_refl). }
    assert (Hsub' : PromptInput.hasSubmitted c' = true).
    { destruct (Hopen Hunsub) as [[? _]|[_ ?]]; done. }
    pose proof (sane_no_timeout ui Hs) as Hnt.
    destruct ui as [w ch]. simpl in Hc. subst ch.
    unfold step. cbn [promptInput world]. rewrite Hstep.
    unfold invoke, getPageProps. simpl in *. rewrite Hp.
    specialize (Hnt ltac:(by rewrite Hp)).
    destruct (handlePromptSubmission_outcome backend plan (app w)
                (PromptInput.submittedPrompts call)
                (PromptInput.submittedSelection call)
                (PromptInput.submittedTiming call) w)
      as (saves & w' & -> & Hsaves & Hout).
    assert (Hsaved : ∀ i, i ∈ savedTrials (sent w) →
                          i < currentTrialIndex (app w)).
    { intros i Hi. destruct Hs. simpl in *.
      destruct (proj2 sane_saved0 i Hi) as [?|[_ ?]]; [done|congruence]. }
    assert (Hsv : Forall (requestFor (prolificId (app w))) saves
                  ∧ (savedTrials saves = []
                     ∨ savedTrials saves = [currentTrialIndex (app w)])).
    { destruct Hsaves as [-> | (sub & -> & Hid & Hidx & _)].
      - split; [by apply Forall_nil|by left].
      - split; [by apply Forall_singleton|]. right. simpl. by rewrite Hidx. }
    destruct Hsv as [Hfor Hsv].
    assert (Hnd : NoDup (savedTrials (sent w ++ saves))).
    { rewrite savedTrials_app. destruct Hs. simpl in *.
      destruct Hsv as [-> | ->]; [rewrite app_nil_r; by apply sane_saved0|].
      apply NoDup_app. split; [by apply sane_saved0|].
      split; [|apply NoDup_singleton].
      intros i Hi Hin. apply list_elem_of_singleton in Hin.
      specialize (Hsaved i Hi). lia. }
    assert (Hbound : ∀ i, i ∈ savedTrials (sent w ++ saves) →
                          i ≤ currentTrialIndex (app w)).
    { intros i. rewrite savedTrials_app, elem_of_app. intros [Hi|Hi].
      - specialize (Hsaved i Hi). lia.
      - destruct Hsv as [Hsv | Hsv]; rewrite Hsv in Hi.
        + by apply elem_of_nil in Hi.
        + apply list_elem_of_singleton in Hi. lia. }
    clear Hsaves Hsv.
    destruct Hout as [[e ->] | Hnext].
    + unfold rerender, advances. simpl. rewrite Hp. simpl.
      destruct Hs. simpl in *.
      split; [split; simpl; rewrite ?Hnt; unfold position in *; simpl in *;
                rewrite ?Hp in *; try done; try lia|].
      * apply Forall_app; by split.
      * split; [done|]. split; [done|]. congruence.
      * split; [done|]. intros i Hi. specialize (Hbound i Hi).
        destruct (decide (i = currentTrialIndex (app w))); [by right|].
        left. lia.
      * unfold position; simpl; rewrite ?Hp.
        split; [lia|]. split; [lia|]. split; [done|]. by eexists.
    + destruct (handleNextTrial_cases backend (app w)
                  (with_app (with_error None (with_isLoading true (app w)))
                     (with_sent (sent w ++ saves) w)))
        as (w'' & Hnext' & Hcases).
      assert (w'' = w') by congruence. subst w''. clear Hnext Hnext'.
      destruct Hs. simpl in *.
      destruct Hcases as [[Hz ->] | [[Hm ->] | (Hl & Hpo & Hfr)]].
      * unfold rerender, advances. simpl.
        split; [split; simpl; rewrite ?Hnt; unfold position in *; simpl in *;
                  rewrite ?Hp in *; try done; try lia|].
        -- apply Forall_app; by split.
        -- split; [done|]. intros i Hi. specialize (Hbound i Hi). left. lia.
        -- unfold position; simpl; rewrite ?Hp.
           split; [lia|]. split; [lia|]. split; [done|]. by eexists.
      * unfold rerender, advances. simpl.
        split; [split; simpl; rewrite ?Hnt; unfold position in *; simpl in *;
                  rewrite ?Hp in *; try done; try lia|].
        -- apply Forall_app; by split.
        -- split; [done|]. intros i Hi. specialize (Hbound i Hi). left. lia.
        -- unfold position; simpl; rewrite ?Hp.
           split; [lia|]. split; [lia|]. split; [done|]. by eexists.
      * destruct Hfr as [(extra & Hsent & Hextra) _ Hidx Hid]. simpl in *.
        destruct (pollRequests_not_saved _ _ Hextra) as [Hsv' Hfor'].
        assert (Hpage' : currentPage (app w') = Page.processing
                         ∧ (pollTimeout w' = None
                            ∨ pollTimeout w' = Some (prolificId (app w)))
                         ∨ currentPage (app w') = Page.noImages
                           ∧ pollTimeout w' = None
                         ∨ currentPage (app w') = Page.imageRating
                           ∧ generatedImages (app w') ≠ []
                           ∧ pollTimeout w' = None).
        { unfold polled in Hpo. simpl in Hpo. rewrite Hnt in Hpo.
          destruct Hpo as [(-> & _ & Ht) | [(-> & _ & ->) | (-> & ? & ->)]];
            auto. }
        clear Hpo.
        unfold rerender, advances. simpl.
        destruct Hpage' as [(Hp' & Ht') | [(Hp' & Ht') | (Hp' & Hg' & Ht')]];
          rewrite Hp'; simpl.
        all: split; [split; simpl; rewrite ?Hp', ?Hidx, ?Hid, ?Hsent;
                     unfold position in *; simpl in *;
                     rewrite ?Hp, ?Hp' in *; try done; try lia|].
        all: try (intros id0 Ht0;
                  first [congruence
                        | split; [done|]; destruct Ht'; congruence]).
        all: try (repeat (apply Forall_app; split); done).
        all: try (rewrite savedTrials_app, Hsv', app_nil_r; split; [done|];
                  intros i Hi; specialize (Hbound i Hi);
                  destruct (decide (i = currentTrialIndex (app w)));
                  [right; split; [done|lia] | left; lia]).
        all: unfold position; simpl; rewrite ?Hp, ?Hp', ?Hidx, ?Hid, ?Hsent;
          (split; [lia|]); (split; [lia|]); (split; [done|]);
          exists (saves ++ extra); by rewrite (assoc_L (++)).
  - destruct (pollTimeout (world ui)) as [id|] eqn:Ht.
    2: { simpl. unfold fireTimeout. rewrite Ht.
         rewrite rerender_same by done. split; [done|apply advances_refl]. }
    destruct (sane_timeout ui Hs id Ht) as [Hp ->].
    destruct ui as [w ch]. simpl in *. unfold fireTimeout. rewrite Ht.
    pose proof (poll_frame backend (prolificId (app w))
                  (with_pollTimeout None w)) as Hfr.
    destruct (poll_polled backend (prolificId (app w))
                (with_pollTimeout None w)) as [Hpo _].
    set (r := poll backend (prolificId (app w)) (with_pollTimeout None w))
      in *.
    assert (Hw : ∃ w', (match r with
                        | (Done _, w') => w'
                        | (Thrown message, w') =>
                            with_unhandled (unhandled w' ++ [message]) w'
                        end) = w'
                       ∧ app w' = app r.2 ∧ sent w' = sent r.2
                       ∧ pollTimeout w' = pollTimeout r.2).
    { destruct r as [[[]|m] w1]; by eexists. }
    destruct Hw as (w' & -> & Happ & Hsent' & Htim).
    destruct Hfr as [(extra & Hsent & Hextra) _ Hidx Hid]. simpl in *.
    destruct (pollRequests_not_saved _ _ Hextra) as [Hsv' Hfor'].
    assert (Hpage' : currentPage (app w') = Page.processing
                     ∧ (pollTimeout w' = None
                        ∨ pollTimeout w' = Some (prolificId (app w)))
                     ∨ currentPage (app w') = Page.noImages
                       ∧ pollTimeout w' = None
                     ∨ currentPage (app w') = Page.imageRating
                       ∧ generatedImages (app w') ≠ []
                       ∧ pollTimeout w' = None).
    { unfold polled in Hpo. simpl in Hpo. rewrite Hp in Hpo.
      rewrite Happ, Htim.
      destruct Hpo as [(-> & _ & Ht') | [(-> & _ & ->) | (-> & ? & ->)]];
        auto. }
    clear Hpo. rewrite <-Happ in Hidx, Hid. rewrite <-Hsent' in Hsent.
    destruct Hs. simpl in *.
    destruct ch as [c|]; [destruct sane_child0 as (? & _); congruence|].
    unfold rerender, advances. simpl.
    destruct Hpage' as [(Hp' & Ht') | [(Hp' & Ht') | (Hp' & Hg' & Ht')]];
      rewrite Hp'; simpl.
    all: split; [split; simpl; rewrite ?Hp', ?Hidx, ?Hid, ?Hsent;
                 unfold position in *; simpl in *;
                 rewrite ?Hp, ?Hp' in *; try done; try lia|].
    all: try (intros id0 Ht0;
              first [congruence
                    | split; [done|]; destruct Ht'; congruence]).
    all: try (apply Forall_app; by split).
    all: try (rewrite savedTrials_app, Hsv', app_nil_r;
              destruct sane_saved0 as [Hnd Hb]; split; [done|];
              intros i Hi; destruct (Hb i Hi) as [?|[? ?]];
              [by left | right; split; [done|lia]]).
    all: unfold position; simpl; rewrite ?Hp, ?Hp', ?Hidx, ?Hid, ?Hsent;
      (split; [lia|]); (split; [lia|]); (split; [done|]); by eexists.
Qed.


Lemma position_first w :
  position (app w) = 0 ↔ currentPage (app w) = Page.prolificId.
Proof. unfold position. destruct (currentPage (app w)); split; (done || lia). Qed.

Lemma advances_trans w1 w2 w3 :
  advances w1 w2 → advances w2 w3 → advances w1 w3.
Proof.
  intros (Hp1 & Hi1 & Hid1 & e1 & Hs1) (Hp2 & Hi2 & Hid2 & e2 & Hs2).
  split; [lia|]. split; [lia|]. split.
  - intros Hne. rewrite Hid2, Hid1; [done..|].
    intros Hfirst. apply position_first in Hfirst.
    assert (position (app w1) = 0) by lia.
    by apply Hne, position_first.
  - exists (e1 ++ e2). by rewrite Hs2, Hs1, (assoc_L (++)).
Qed.

Lemma sane_initial : sane initialUI.
Proof.
  split; simpl; try done; try (unfold position; simpl; lia).
  split; [apply NoDup_nil_2|]. intros i Hi. by apply elem_of_nil in Hi.
Qed.

Lemma run_app backend plan evs more ui :
  run backend plan (evs ++ more) ui
  = run backend plan more (run backend plan evs ui).
Proof.
  revert ui. induction evs as [|[now ev] evs IH]; intros ui; [done|].
  simpl. apply IH.
Qed.

Lemma run_sane backend plan evs ui :
  sane ui →
  sane (run backend plan evs ui)
  ∧ advances (world ui) (world (run backend plan evs ui)).
Proof.
  revert ui. induction evs as [|[now ev] evs IH]; intros ui Hs.
  { split; [done|apply advances_refl]. }
  simpl. destruct (step_sane backend plan now ev ui Hs) as [Hs1 Ha1].
  destruct (IH _ Hs1) as [Hs2 Ha2]. split; [done|].
  by eapply advances_trans.
Qed.

Lemma step_terminal backend plan now ev ui :
  sane ui →
  currentPage (app (world ui)) = Page.noImages
  ∨ currentPage (app (world ui)) = Page.thankYou →
  step backend plan now ev ui = ui.
Proof.
  intros Hs Hp.
  assert (Hch : promptInput ui = None).
  { pose proof (sane_child ui Hs) as Hch.
    destruct (promptInput ui); [|done].
    destruct Hch as (? & _). destruct Hp; congruence. }
  assert (Hnt : pollTimeout (world ui) = None).
  { apply sane_no_timeout; [done|]. destruct Hp; congruence. }
  destruct ev as [cb|ev|].
  - assert (Hcb : (∃ call, cb = onSubmitPrompts call)
                  ∨ ∀ call, cb ≠ onSubmitPrompts call)
      by (destruct cb; eauto).
    destruct Hcb as [[call ->]|Hcb]; [done|].
    rewrite (step_invoke _ _ _ _ _ Hcb).
    assert (Hinv : invoke backend plan cb (world ui) = world ui).
    { unfold invoke, getPageProps. by destruct Hp as [-> | ->]. }
    rewrite Hinv. by apply rerender_same.
  - simpl. by rewrite Hch.
  - simpl. unfold fireTimeout. rewrite Hnt. by apply rerender_same.
Qed.

Lemma run_terminal backend plan evs ui :
  sane ui →
  currentPage (app (world ui)) = Page.noImages
  ∨ currentPage (app (world ui)) = Page.thankYou →
  run backend plan evs ui = ui.
Proof.
  intros Hs Hp. induction evs as [|[now ev] evs IH]; [done|].
  simpl. by rewrite step_terminal.
Qed.

(** X21: a session never goes back.  Between any state a session
    reaches from the first page and any state it reaches later, the
    position of the page in the session and the trial index do not
    decrease, the trial index stays at most 6, the participant id is
    kept once the first page is left, and the request log only grows;
    and the no-images page and the thank-you page are final: once
    there, no event changes anything or sends anything. *)
Theorem session_never_goes_back (backend : Backend) (plan : Planner.Plan)
    (evs more : list (Z * Event)) :
  let ui := run backend plan evs initialUI in
  let ui' := run backend plan (evs ++ more) initialUI in
  position (app (world ui)) ≤ position (app (world ui'))
  ∧ currentTrialIndex (app (world ui)) ≤ currentTrialIndex (app (world ui'))
  ∧ currentTrialIndex (app (world ui')) ≤ 6
  ∧ (currentPage (app (world ui)) ≠ Page.prolificId →
     prolificId (app (world ui')) = prolificId (app (world ui)))
  ∧ (∃ extra, sent (world ui') = sent (world ui) ++ extra)
  ∧ (currentPage (app (world ui)) = Page.noImages
     ∨ currentPage (app (world ui)) = Page.thankYou →
     ui' = ui).
Proof.
  cbv zeta. rewrite run_app.
  destruct (run_sane backend plan evs initialUI sane_initial) as [Hs _].
  destruct (run_sane backend plan more _ Hs) as [Hs' (Hp & Hi & Hid & He)].
  split; [done|]. split; [done|]. split; [by apply sane_trial|].
  split; [done|]. split; [done|]. intros Hterm. by apply run_terminal.
Qed.

(** X22: every request a session sends is made for the participant id
    held in the state, which is the id stored on leaving the first
    page; while the first page is shown nothing has been sent. *)
Theorem session_requests_carry_the_participant (backend : Backend)
    (plan : Planner.Plan) (evs : list (Z * Event)) :
  let w := world (run backend plan evs initialUI) in
  Forall (requestFor (prolificId (app w))) (sent w)
  ∧ (currentPage (app w) = Page.prolificId → sent w = []).
Proof.
  cbv zeta.
  destruct (run_sane backend plan evs initialUI sane_initial) as [Hs _].
  split; [by apply sane_sent|by apply sane_first].
Qed.

(** X23: a session saves each trial at most once: the save-prompt
    requests in the log carry pairwise different trial indices, none
    above the current one.  (A trial whose save failed is therefore
    never saved: the component that submitted it is latched.) *)
Theorem each_trial_is_saved_at_most_once (backend : Backend)
    (plan : Planner.Plan) (evs : list (Z * Event)) :
  let w := world (run backend plan evs initialUI) in
  NoDup (savedTrials (sent w))
  ∧ ∀ i, i ∈ savedTrials (sent w) → i ≤ currentTrialIndex (app w).
Proof.
  cbv zeta.
  destruct (run_sane backend plan evs initialUI sane_initial) as [Hs _].
  destruct (sane_saved _ Hs) as [Hnd Hb]. split; [done|].
  intros i Hi. destruct (Hb i Hi) as [?|[-> _]]; lia.
Qed.

Lemma created_plan_has_six_trials rng plan i :
  Planner.createPlan rng = Some plan → i ≤ 6 →
  is_Some (Planner.getCurrentTrial plan i).
Proof.
  intros Hplan Hi. unfold Planner.createPlan in Hplan.
  destruct (Planner.initTrialThemes rng) as [themes|]; [|done].
  injection Hplan as <-.
  destruct (PlannerFacts.initConditions_blocks (rng 0))
    as (a & b & _ & Hseq & _).
  unfold Planner.getCurrentTrial. cbn [Planner.conditions].
  case_decide; [by eexists|]. rewrite Hseq.
  destruct (lookup_lt_is_Some_2 (replicate 3 a ++ replicate 3 b) (i - 1))
    as [c ->]; [simpl; lia|].
  by eexists.
Qed.

Lemma reachable_trial backend rng plan evs :
  Planner.createPlan rng = Some plan →
  sane (run backend plan evs initialUI)
  ∧ is_Some (Planner.getCurrentTrial plan
               (currentTrialIndex
                  (app (world (run backend plan evs initialUI))))).
Proof.
  intros Hplan.
  destruct (run_sane backend plan evs initialUI sane_initial) as [Hs _].
  split; [done|]. eapply created_plan_has_six_trials; [done|].
  by apply sane_trial.
Qed.

(** X24: in every state a session reaches, the trial index matches the
    page (0 before and during the practice trial, 1 on the main-task
    transition, 2 to 6 between trials, 6 from the processing page on),
    so that the plan drawn at session creation has a trial for it and a
    render never fails; a poll timeout is pending only on the
    processing page; the rating page holds a non-empty array of images;
    and the input component is mounted exactly on the input page, with
    the practice countdown exactly at trial 0. *)
Theorem reachable_states_are_consistent (backend : Backend)
    (rng : nat → Z) (plan : Planner.Plan) (evs : list (Z * Event)) :
  Planner.createPlan rng = Some plan →
  let ui := run backend plan evs initialUI in
  let s := app (world ui) in
  is_Some (Planner.getCurrentTrial plan (currentTrialIndex s))
  ∧ (position s ≤ 6 → currentTrialIndex s = 0)
  ∧ (currentPage s = Page.mainTrialTransition → currentTrialIndex s = 1)
  ∧ (currentPage s = Page.betweenTrials → 2 ≤ currentTrialIndex s ≤ 6)
  ∧ (19 ≤ position s → currentTrialIndex s = 6)
  ∧ (is_Some (pollTimeout (world ui)) → currentPage s = Page.processing)
  ∧ (currentPage s = Page.imageRating → generatedImages s ≠ [])
  ∧ (currentPage s = Page.promptInput
     ↔ ∃ c, promptInput ui = Some c
            ∧ PromptInput.isPractice c
              = bool_decide (currentTrialIndex s = 0)).
Proof.
  intros Hplan. cbv zeta.
  destruct (run_sane backend plan evs initialUI sane_initial) as [Hs _].
  set (ui := run backend plan evs initialUI) in *. clearbody ui.
  destruct Hs. split; [|split; [|split; [done|split; [|split; [done|split;
    [|split; [done|]]]]]]].
  - by eapply created_plan_has_six_trials.
  - intros Hpos. destruct (decide (position (app (world ui)) ≤ 5)); [by auto|].
    unfold position in *.
    destruct (currentPage (app (world ui))) eqn:Hp; lia.
  - intros Hp. split; [by auto|done].
  - intros [id Hid]. by destruct (sane_timeout0 id Hid).
  - destruct (promptInput ui) as [c|].
    + destruct sane_child0 as (Hp & _ & Hprac). split; [|done].
      intros _. by exists c.
    + split; [done|]. by intros (c & ? & _).
Qed.

Lemma reachable_states_are_consistent_witness :
  Planner.createPlan Scenario.draws = Some Scenario.plan
  ∧ currentTrialIndex
      (app (world (run Scenario.healthy Scenario.plan
                     (Scenario.toPractice ++ Scenario.practiceTrial)
                     initialUI))) = 1.
Proof.
  assert (Hplan : Planner.createPlan Scenario.draws = Some Scenario.plan)
    by (by vm_compute).
  split; [exact Hplan|].
  destruct (reachable_states_are_consistent Scenario.healthy Scenario.draws
              Scenario.plan (Scenario.toPractice ++ Scenario.practiceTrial)
              Hplan) as (_ & _ & Htr & _).
  apply Htr. by vm_compute.
Defined.

Lemma handlePromptSubmission_posts backend plan render prompts selected
    timing w :
  prompts ≠ [] → PromptInput.truthy_opt selected = true →
  is_Some (Planner.getCurrentTrial plan (currentTrialIndex render)) →
  ∃ submission rest,
    sent (exec (handlePromptSubmission backend plan render prompts selected
                  timing) w)
    = sent w ++ SavePrompt submission :: rest
    ∧ Submission.prolificId submission = prolificId render
    ∧ Submission.trialIndex submission = currentTrialIndex render
    ∧ Submission.prompts submission = prompts
    ∧ Submission.selectedPrompt submission = selected
    ∧ Submission.isPractice submission
      = bool_decide (currentTrialIndex render = 0)
    ∧ Submission.timingData submission = timing
    ∧ Forall (pollRequest (prolificId render)) rest.
Proof.
  intros Hne Hsel [trial Htrial].
  set (submission := {| Submission.prolificId := prolificId render;
                        Submission.trialIndex := currentTrialIndex render;
                        Submission.condition := trial.2;
                        Submission.theme := trial.1;
                        Submission.prompts := prompts;
                        Submission.selectedPrompt := selected;
                        Submission.isPractice :=
                          bool_decide (currentTrialIndex render = 0);
                        Submission.conditionOrder :=
                          Planner.order (Planner.conditions plan);
                        Submission.timingData := timing |}).
  exists submission.
  unfold handlePromptSubmission, getCurrentTrial. rewrite Htrial, Hsel.
  destruct (decide (length prompts = 0)) as [Hz|_].
  { by apply length_zero_iff_nil in Hz. }
  cbn [negb andb].
  destruct (backend (sent w) (SavePrompt submission)) as [[] body|] eqn:Hb.
  - set (w0 := with_sent (sent w ++ [SavePrompt submission])
                 (with_app (with_error None (with_isLoading true (app w)))
                    w)).
    destruct (handleNextTrial_cases backend render w0)
      as (w1 & Hnext & Hcases).
    assert (Hexec : exec
              (try_finally
                 (try_catch
                    (setIsLoading true;; MainApp.setError None;;
                     currentTrial ← mret trial;
                     '(ok, _) ← fetch backend
                                  (SavePrompt
                                     {| Submission.prolificId :=
                                          prolificId render;
                                        Submission.trialIndex :=
                                          currentTrialIndex render;
                                        Submission.condition :=
                                          currentTrial.2;
                                        Submission.theme := currentTrial.1;
                                        Submission.prompts := prompts;
                                        Submission.selectedPrompt := selected;
                                        Submission.isPractice :=
                                          bool_decide
                                            (currentTrialIndex render = 0);
                                        Submission.conditionOrder :=
                                          Planner.order
                                            (Planner.conditions plan);
                                        Submission.timingData := timing |});
                     if negb ok then throw "Failed to save prompt"
                     else handleNextTrial backend render)
                    (λ message, MainApp.setError (Some message)))
                 (setIsLoading false)) w
            = with_app (with_isLoading false (app w1)) w1).
    { unfold exec, try_finally, try_catch.
      unfold mbind at 1. unfold Async_bind. unfold setIsLoading at 1.
      unfold update at 1. unfold mbind at 1. unfold Async_bind.
      unfold MainApp.setError at 1. unfold update at 1.
      unfold mbind at 1. unfold Async_bind. unfold mret at 1.
      unfold Async_ret. unfold mbind at 1. unfold Async_bind.
      unfold fetch at 1. cbn [sent with_app]. fold submission. rewrite Hb.
      cbn [negb].
      change (handleNextTrial backend render ?x)
        with (handleNextTrial backend render w0).
      by rewrite Hnext. }
    rewrite Hexec. cbn [sent with_app].
    destruct Hcases as [[_ ->] | [[_ ->] | (_ & _ & Hfr)]].
    + exists []. by repeat (split; [done|]).
    + exists []. by repeat (split; [done|]).
    + destruct Hfr as [(extra & -> & Hextra) _ _ _]. exists extra.
      simpl. rewrite <-(assoc_L (++)). by repeat (split; [done|]).
  - exists []. unfold_async. simpl. fold submission. rewrite Hb. simpl.
    by repeat (split; [done|]).
  - exists []. unfold_async. simpl. fold submission. rewrite Hb. simpl.
    by repeat (split; [done|]).
Qed.

(** X25: whatever the input component submits with prompts reaches the
    backend.  In any state a session reaches, with a plan as drawn at
    session creation, when an event makes the mounted input component
    call [onSubmit] with a non-empty prompt set, the page machine sends
    a save-prompt request right away, carrying that prompt set (none of
    them blank), the selection (one of them), the timing data, the
    trial index and participant of the state, and the practice flag
    under which the component counted down; only poller requests may
    follow it in the same step. *)
Theorem submitted_prompts_are_posted (backend : Backend) (rng : nat → Z)
    (plan : Planner.Plan) (evs : list (Z * Event)) (now : Z)
    (ev : PromptInput.Event) (c c' : PromptInput.State)
    (call : PromptInput.OnSubmit) :
  Planner.createPlan rng = Some plan →
  let ui := run backend plan evs initialUI in
  promptInput ui = Some c →
  PromptInput.step ev c = (c', Some call) →
  PromptInput.submittedPrompts call ≠ [] →
  ∃ submission rest,
    sent (world (step backend plan now (Input ev) ui))
    = sent (world ui) ++ SavePrompt submission :: rest
    ∧ Submission.prompts submission = PromptInput.submittedPrompts call
    ∧ Forall (λ p, PromptInput.nonblank p = true)
        (Submission.prompts submission)
    ∧ (∃ p, Submission.selectedPrompt submission = Some p
            ∧ p ∈ Submission.prompts submission)
    ∧ Submission.timingData submission = PromptInput.submittedTiming call
    ∧ Submission.trialIndex submission
      = currentTrialIndex (app (world ui))
    ∧ Submission.prolificId submission = prolificId (app (world ui))
    ∧ Submission.isPractice submission = PromptInput.isPractice c
    ∧ Forall (pollRequest (prolificId (app (world ui)))) rest.
Proof.
  intros Hplan ui Hc Hstep Hne.
  destruct (reachable_trial backend rng plan evs Hplan) as [Hs Htrial].
  fold ui in Hs, Htrial. clearbody ui.
  pose proof (sane_child ui Hs) as Hch. rewrite Hc in Hch.
  destruct Hch as (Hp & Hwf & Hprac).
  destruct (PromptInputFacts.step_admissible ev c call Hwf)
    as (Hadm & Hprompts & Hup); [by rewrite Hstep|].
  destruct (PromptInput.wf_frozen c Hwf Hup) as [Hfrozen _].
  assert (Hnb : Forall (λ p, PromptInput.nonblank p = true)
                  (PromptInput.submittedPrompts call)).
  { rewrite Hprompts, <-Hfrozen. apply Forall_forall. intros p Hin.
    apply list_elem_of_filter in Hin as [Hin _]. by apply Is_true_true. }
  assert (Hsel : ∃ p, PromptInput.submittedSelection call = Some p
                      ∧ p ∈ PromptInput.submittedPrompts call).
  { unfold PromptInput.admissible in Hadm.
    by destruct (PromptInput.submittedPrompts call). }
  destruct Hsel as (p & Hsel & Hin).
  assert (Htruthy : PromptInput.truthy_opt
                      (PromptInput.submittedSelection call) = true).
  { rewrite Hsel. simpl. apply HandlerExtras.nonblank_truthy.
    rewrite Forall_forall in Hnb. by apply Hnb. }
  destruct (handlePromptSubmission_posts backend plan (app (world ui))
              (PromptInput.submittedPrompts call)
              (PromptInput.submittedSelection call)
              (PromptInput.submittedTiming call) (world ui) Hne Htruthy
              Htrial)
    as (submission & rest & Hsent & Hid & Hidx & Hpr & Hse & Hip & Htd
        & Hrest).
  exists submission, rest.
  assert (Hw : world (step backend plan now (Input ev) ui)
               = exec (handlePromptSubmission backend plan (app (world ui))
                         (PromptInput.submittedPrompts call)
                         (PromptInput.submittedSelection call)
                         (PromptInput.submittedTiming call)) (world ui)).
  { unfold step. rewrite Hc, Hstep. unfold rerender, invoke, getPageProps.
    cbn [world]. by rewrite Hp. }
  rewrite Hw, Hsent, Hpr, Hse, Hip, Hprac.
  split; [done|]. split; [done|]. split; [done|]. split; [by exists p|].
  by repeat (split; [done|]).
Qed.

Lemma submitted_prompts_are_posted_witness :
  ∃ submission rest,
    sent (world
            (step Scenario.healthy Scenario.plan 11000
               (Input (PromptInput.Continue 11000))
               (run Scenario.healthy Scenario.plan
                  (Scenario.toPractice ++ take 5 Scenario.practiceTrial)
                  initialUI)))
    = sent (world
              (run Scenario.healthy Scenario.plan
                 (Scenario.toPractice ++ take 5 Scenario.practiceTrial)
                 initialUI))
      ++ SavePrompt submission :: rest
    ∧ Submission.trialIndex submission = 0.
Proof.
  edestruct (submitted_prompts_are_posted Scenario.healthy Scenario.draws
               Scenario.plan
               (Scenario.toPractice ++ take 5 Scenario.practiceTrial)
               11000 (PromptInput.Continue 11000))
    as (submission & rest & Hsent & _ & _ & _ & _ & Hidx & _).
  - by vm_compute.
  - vm_compute. reflexivity.
  - vm_compute. reflexivity.
  - discriminate.
  - exists submission, rest. split; [exact Hsent|]. rewrite Hidx.
    by vm_compute.
Defined.

End ProgressExtras.

(** ** Properties of the page timing *)

Module TrackingExtras.
Import Net MainApp Experiment Progress PageTracking ProgressExtras.







Lemma getPageName_first p i :
  getPageName p i = getPageName Page.prolificId 0 → p = Page.prolificId.
Proof.
  unfold getPageName. by destruct p.
Qed.




End TrackingExtras.

(** ** The survey handler of the earlier variant *)

Module LegacyExtras.
Import Net Legacy.

(** X28: the survey handler of the earlier variant always sends exactly
    one save-survey request, carrying the participant id of the state
    and the answers as given ([otherTools] as null when empty), and
    always clears the loading flag.  It stores the responses and moves
    to the consent page exactly when the request is answered 2xx with a
    body that parses as JSON; in every other case the page and the
    stored responses are untouched and the error shown starts with
    "Failed to save survey: ". *)
Theorem legacy_survey_advances_only_when_saved (backend : Backend)
    (responses : Survey.Responses) (s : AppState) (log : list Request) :
  let r := handleAiExperienceSurveySubmit backend responses (s, log) in
  let surveyData :=
    {| Survey.prolificId := prolificId s;
       Survey.survey_genAiExperience := Survey.genAiExperience responses;
       Survey.survey_textToImageExperience :=
         Survey.textToImageExperience responses;
       Survey.survey_toolsUsed := Survey.toolsUsed responses;
       Survey.survey_otherTools :=
         if decide (Survey.otherTools responses = EmptyString) then None
         else Some (Survey.otherTools responses) |} in
  r.2 = log ++ [SaveSurvey surveyData]
  ∧ isLoading r.1 = false
  ∧ prolificId r.1 = prolificId s
  ∧ ((∃ body, backend log (SaveSurvey surveyData) = Response true body
              ∧ body ≠ BInvalid)
     ∧ currentPage r.1 = Page.consent
     ∧ error r.1 = None
     ∧ surveyResponses r.1 = Some responses
     ∨ (∀ body, backend log (SaveSurvey surveyData) = Response true body →
                body = BInvalid)
       ∧ currentPage r.1 = currentPage s
       ∧ surveyResponses r.1 = surveyResponses s
       ∧ ∃ message,
           error r.1 = Some ("Failed to save survey: " +:+ message)).
Proof.
  cbv zeta. unfold handleAiExperienceSurveySubmit.
  assert (Hother :
            (if PromptInput.truthy (Survey.otherTools responses)
             then Some (Survey.otherTools responses) else None)
            = (if decide (Survey.otherTools responses = EmptyString)
               then None else Some (Survey.otherTools responses))).
  { destruct (Survey.otherTools responses); [done|].
    by rewrite decide_False. }
  rewrite Hother.
  destruct (backend log _) as [[] [| |o]|] eqn:Hb; simpl;
    (split; [reflexivity|]); (split; [reflexivity|]);
    (split; [reflexivity|]);
    first [ left; split; [by eexists|done]
          | right; split; [by intros body [= <-]|];
            split; [done|]; split; [done|]; by eexists
          | right; split; [by intros body [=]|];
            split; [done|]; split; [done|]; by eexists ].
Qed.

End LegacyExtras.
